(** * Sign-language-recognition: dataset split, loaders and training loop

    A shallow embedding of [src/sign_language_mnist.py] and [src/train.py].

    The repository's own logic (index splitting, phase bookkeeping, best-model
    tracking) is translated function by function.  What the code delegates to
    NumPy and PyTorch (the pseudo-random generators, the forward and backward
    passes, the optimizer) is kept behind two interfaces, [NumPyRandom] and
    [Torch], which state only what the code relies on.  Python floats are
    IEEE binary64 values, taken from the standard library's executable
    specification [SpecFloat]. *)

From Stdlib Require Import ZArith List Bool String Lia.
From Stdlib Require Import Floats.SpecFloat.
From stdpp Require Import base list gmap strings.

Local Open Scope string_scope.
Local Open Scope list_scope.
Local Open Scope Z_scope.

(* ===================================================================== *)
(** * Python values and exceptions *)
(* ===================================================================== *)

Module Py.

(** The exceptions the modelled code can raise. *)
Inductive exn : Type :=
| AssertionError (msg : string)
| FileNotFoundError (path : string)
| KeyError (key : string)
| IndexError
| ValueError
| OverflowError
| ZeroDivisionError
| AttributeError (msg : string).

Inductive result (A : Type) : Type :=
| Ok (a : A)
| Raise (e : exn).
Arguments Ok {A} a.
Arguments Raise {A} e.

(** Stateful, fallible code: the state survives an exception, so that one can
    say what had (not) happened when it was raised. *)
Definition M (S A : Type) : Type := S -> result A * S.

Definition ret {S A} (a : A) : M S A := fun s => (Ok a, s).
Definition raise {S A} (e : exn) : M S A := fun s => (Raise e, s).
Definition bind {S A B} (m : M S A) (k : A -> M S B) : M S B :=
  fun s => match m s with
           | (Ok a, s') => k a s'
           | (Raise e, s') => (Raise e, s')
           end.
Definition get {S} : M S S := fun s => (Ok s, s).
Definition modify {S} (f : S -> S) : M S unit := fun s => (Ok tt, f s).
Definition lift {S A} (r : result A) : M S A := fun s => (r, s).

(** [assert c, msg] *)
Definition assert {S} (c : bool) (msg : string) : M S unit :=
  if c then ret tt else raise (AssertionError msg).

(** [for x in xs: body] *)
Fixpoint for_each {S A} (xs : list A) (body : A -> M S unit) : M S unit :=
  match xs with
  | [] => ret tt
  | x :: xs' => bind (body x) (fun _ => for_each xs' body)
  end.

(** ** Floats: IEEE 754 binary64 *)

Definition prec : Z := 53.
Definition emax : Z := 1024.
Definition float : Type := spec_float.

Definition fadd : float -> float -> float := SFadd prec emax.
Definition fsub : float -> float -> float := SFsub prec emax.
Definition fmul : float -> float -> float := SFmul prec emax.
Definition fdiv : float -> float -> float := SFdiv prec emax.
(** [x > y] *)
Definition fgt (x y : float) : bool := SFltb y x.
(** [x <= y] *)
Definition fle (x y : float) : bool := SFleb x y.

Definition fzero : float := S754_zero false.                             (* 0.0 *)
Definition fone : float := S754_finite false 4503599627370496 (-52).     (* 1.0 *)
Definition fquarter : float := S754_finite false 4503599627370496 (-54). (* 0.25 *)

(** [float(n)] for a Python int: correctly rounded, [OverflowError] when the
    integer is too large for a double. *)
Definition float_of_int (n : Z) : result float :=
  match binary_normalize prec emax n 0 false with
  | S754_infinity _ => Raise OverflowError
  | f => Ok f
  end.

(** [int(x)]: truncation toward zero; NaN and infinities are rejected. *)
Definition int_of_float (x : float) : result Z :=
  match x with
  | S754_zero _ => Ok 0
  | S754_infinity _ => Raise OverflowError
  | S754_nan => Raise ValueError
  | S754_finite s m e => Ok (cond_Zopp s (Z.shiftl (Zpos m) e))
  end.

(** ** Sequences *)

(** The bound [k] of a slice, clipped to [0 .. n] the way Python does it:
    a negative bound counts from the end. *)
Definition clip (k : Z) (n : nat) : nat :=
  if k <? 0 then Z.to_nat (Z.max 0 (Z.of_nat n + k))
  else Z.to_nat (Z.min k (Z.of_nat n)).

(** [l[:k]] and [l[k:]] *)
Definition slice_to {A} (k : Z) (l : list A) : list A := take (clip k (length l)) l.
Definition slice_from {A} (k : Z) (l : list A) : list A := drop (clip k (length l)) l.

(** [range(a, b)] *)
Definition range (a b : Z) : list Z :=
  map (fun i => a + Z.of_nat i) (seq 0 (Z.to_nat (b - a))).

(** [x in xs] for strings *)
Definition str_in (x : string) (xs : list string) : bool :=
  existsb (String.eqb x) xs.

(** Consecutive groups of [n] elements, the last one possibly shorter
    ([acc] holds the group being filled, newest element first). *)
Fixpoint chunks_acc {A} (n : nat) (acc : list A) (l : list A) : list (list A) :=
  match l with
  | [] => match acc with [] => [] | _ => [rev acc] end
  | x :: l' =>
      if (S (length acc) =? n)%nat then rev (x :: acc) :: chunks_acc n [] l'
      else chunks_acc n (x :: acc) l'
  end.
Definition chunks {A} (n : nat) (l : list A) : list (list A) := chunks_acc n [] l.

(** [a[idx]] with an integer index array: every index must be in range. *)
Fixpoint take_rows {A} (a : list A) (idx : list nat) : result (list A) :=
  match idx with
  | [] => Ok []
  | i :: idx' =>
      match a !! i with
      | None => Raise IndexError
      | Some x =>
          match take_rows a idx' with
          | Ok xs => Ok (x :: xs)
          | Raise e => Raise e
          end
      end
  end.

(** ** Dictionaries with string keys *)

(** [d[k]] *)
Definition dict_get {S V} (d : gmap string V) (k : string) : M S V :=
  match d !! k with
  | Some v => ret v
  | None => raise (KeyError k)
  end.

(** [{k: f(k) for k in keys}], filled in the order of [keys]. *)
Fixpoint dict_fill {S V} (keys : list string) (f : string -> M S V)
    (acc : gmap string V) : M S (gmap string V) :=
  match keys with
  | [] => ret acc
  | k :: ks => bind (f k) (fun v => dict_fill ks f (<[k:=v]> acc))
  end.
Definition dict_comprehension {S V} (keys : list string) (f : string -> M S V)
    : M S (gmap string V) := dict_fill keys f ∅.

End Py.

Import Py.

Declare Scope py_scope.
Delimit Scope py_scope with py.
Notation "'let*' x ':=' m 'in' k" := (bind m (fun x => k))
  (at level 10, x pattern, m at level 100, k at level 200) : py_scope.
Local Open Scope py_scope.

(* ===================================================================== *)
(** * The NumPy global generator *)
(* ===================================================================== *)

(** [np.random] keeps one process-wide generator state.  [np.random.seed]
    overwrites it with a state that depends on the seed alone;
    [np.random.shuffle] permutes a sequence in place and advances it. *)
Class NumPyRandom : Type := {
  np_state : Type;
  np_seed : Z -> np_state;
  np_shuffle : np_state -> list nat -> list nat * np_state;
  np_shuffle_perm : forall g l, (np_shuffle g l).1 ≡ₚ l;
}.

(* ===================================================================== *)
(** * [sign_language_mnist.py] *)
(* ===================================================================== *)

(** The steps of a [transforms.Compose] pipeline. *)
Inductive transform_op : Type :=
| ToPILImage
| RandomRotation (degrees : Z)
| RandomHorizontalFlip
| ColorJitter
| RandomResizedCrop (size : Z)
| ToTensor.

Definition data_transforms : gmap string (list transform_op) :=
  <["test" := [ToTensor] ]>
  (<["val" := [ToTensor] ]>
  (<["train" := [ToPILImage; RandomRotation 10; RandomHorizontalFlip;
                 ColorJitter; RandomResizedCrop 28; ToTensor] ]> ∅)).

Section World.
Context `{NumPyRandom}.

(** What the dataset code sees of the process and its surroundings. *)
Inductive io_event : Type :=
| ReadCsv (path : string).

Record world : Type := {
  np_random : np_state;                  (* the state behind [np.random] *)
  files : gmap string (list (list Z));   (* CSV files: the rows below the header *)
  io_log : list io_event;                (* file accesses so far, oldest first *)
}.

Definition with_np_random (g : np_state) (w : world) : world :=
  {| np_random := g; files := files w; io_log := io_log w |}.

(** [np.random.shuffle(indices)] *)
Definition np_random_shuffle (indices : list nat) : M world (list nat) :=
  fun w => let (l, g) := np_shuffle (np_random w) indices in
           (Ok l, with_np_random g w).

(** Modelled from the spec: [utils.set_random_seed] is not among the source
    files; the dataset is said to use a seeded pseudo-random permutation that
    is deterministic for a fixed seed, so the helper is taken to seed the
    NumPy generator. *)
Definition set_random_seed (seed : Z) : M world unit :=
  modify (with_np_random (np_seed seed)).

(** [pd.read_csv(csv_file)] *)
Definition read_csv (csv_file : string) : M world (list (list Z)) :=
  fun w =>
    let w' := {| np_random := np_random w; files := files w;
                 io_log := io_log w ++ [ReadCsv csv_file] |} in
    match files w !! csv_file with
    | Some table => (Ok table, w')
    | None => (Raise (FileNotFoundError csv_file), w')
    end.

(** [.to_numpy(np.uint8)] *)
Definition to_uint8 (table : list (list Z)) : list (list Z) :=
  map (map (fun v => v mod 256)) table.

(** [data[:, 1:].reshape(-1, 28, 28, 1)]: the pixel columns, regrouped into
    images of 784 pixels. *)
Definition reshape_images (data : list (list Z)) : result (list (list Z)) :=
  let pixels := concat (map (drop 1) data) in
  if (length pixels mod 784 =? 0)%nat then Ok (chunks 784 pixels)
  else Raise ValueError.

(** [data[:, 0]] *)
Fixpoint first_column (data : list (list Z)) : result (list Z) :=
  match data with
  | [] => Ok []
  | [] :: _ => Raise IndexError
  | (x :: _) :: data' =>
      match first_column data' with
      | Ok xs => Ok (x :: xs)
      | Raise e => Raise e
      end
  end.

End World.

Module SignLanguageMNIST.
Section Dataset.
Context `{NumPyRandom}.

Record t : Type := {
  data : list (list Z);
  images : list (list Z);
  labels : list Z;
  transform : option (list transform_op);
  label_transform : option (Z -> Z);
}.

(** [int((1 - val_split) * len(indices))], for [val_split] a Python float
    (the default [0.25], or the value of the configuration file). *)
Definition cut_point (val_split : float) (indices : list nat) : result Z :=
  match float_of_int (Z.of_nat (length indices)) with
  | Ok n => int_of_float (fmul (fsub fone val_split) n)
  | Raise e => Raise e
  end.

(** The [seed] argument is accepted, as in the source, and not used by the
    body: the shuffle draws from the global generator. *)
Definition _train_val_split (data : list (list Z)) (val_split : float)
    (seed : Z) (shuffle : bool) : M world (list nat * list nat) :=
  let indices := seq 0 (length data) in
  let* indices := (if shuffle then np_random_shuffle indices else ret indices) in
  let* k := lift (cut_point val_split indices) in
  let train_indices := slice_to k indices in
  let* k := lift (cut_point val_split indices) in
  let val_indices := slice_from k indices in
  ret (train_indices, val_indices).

Definition phases : list string := ["train"; "val"; "test"].

Definition __init__ (csv_file : string) (phase : string) (val_split : float)
    (shuffle : bool) (transform : option (list transform_op))
    (label_transform : option (Z -> Z)) : M world t :=
  let* _ := assert (str_in phase phases)
              "Choose phase from ['train', 'val', 'test']" in
  let* table := read_csv csv_file in
  let data := to_uint8 table in
  let* (train_indices, val_indices) := _train_val_split data val_split 42 shuffle in
  let* data :=
    (if String.eqb phase "train" then lift (take_rows data train_indices)
     else if String.eqb phase "val" then lift (take_rows data val_indices)
     else ret data) in
  let* images := lift (reshape_images data) in
  let* labels := lift (first_column data) in
  ret {| data := data; images := images; labels := labels;
         transform := transform; label_transform := label_transform |}.

Definition __len__ (self : t) : nat := length (labels self).

End Dataset.
End SignLanguageMNIST.

(** ** Dataset and loader factories *)

(** [torch.utils.data.DataLoader]: the settings the factories pass. *)
Record DataLoader : Type := {
  dataset : SignLanguageMNIST.t;
  batch_size : Z;
  shuffle : bool;
  num_workers : Z;
}.

Section Factories.
Context `{NumPyRandom}.

(** The hyperparameters read from the configuration file, which is not part
    of the sources. *)
Variable TRAIN_DATASET_PATH : string.
Variable VAL_SPLIT : float.
Variable SHUFFLE : bool.
Variable TRAIN_BATCH_SIZE : Z.
Variable TRAIN_NUM_WORKERS : Z.
Variable TEST_DATASET_PATH : string.
Variable TEST_BATCH_SIZE : Z.
Variable TEST_NUM_WORKERS : Z.

(** [DataLoader(dataset, batch_size=..., shuffle=..., num_workers=...)];
    the constructor rejects, in this order and each with a [ValueError], a
    negative worker count, an empty dataset when it is to shuffle (the random
    sampler it then builds needs at least one sample), and a batch size that
    is not positive. *)
Definition DataLoader__init__ (ds : SignLanguageMNIST.t) (bs : Z) (sh : bool)
    (workers : Z) : M world DataLoader :=
  if workers <? 0 then raise ValueError
  else if sh && (SignLanguageMNIST.__len__ ds =? 0)%nat then raise ValueError
  else if bs <=? 0 then raise ValueError
  else ret {| dataset := ds; batch_size := bs; shuffle := sh; num_workers := workers |}.

Definition get_train_val_datasets (train_dataset_path : string)
    : M world (gmap string SignLanguageMNIST.t) :=
  dict_comprehension ["train"; "val"] (fun x =>
    let* tf := dict_get data_transforms x in
    SignLanguageMNIST.__init__ train_dataset_path x VAL_SPLIT SHUFFLE (Some tf) None).

Definition get_test_dataset (test_dataset_path : string) : M world SignLanguageMNIST.t :=
  let* tf := dict_get data_transforms "test" in
  SignLanguageMNIST.__init__ test_dataset_path "test" fquarter true (Some tf) None.

Definition get_train_val_loaders : M world (gmap string DataLoader) :=
  dict_comprehension ["train"; "val"] (fun x =>
    let* datasets := get_train_val_datasets TRAIN_DATASET_PATH in
    let* ds := dict_get datasets x in
    DataLoader__init__ ds TRAIN_BATCH_SIZE true TRAIN_NUM_WORKERS).

Definition get_test_loader : M world DataLoader :=
  let* ds := get_test_dataset TEST_DATASET_PATH in
  DataLoader__init__ ds TEST_BATCH_SIZE false TEST_NUM_WORKERS.

End Factories.

(* ===================================================================== *)
(** * The PyTorch side *)
(* ===================================================================== *)

(** An image as [__getitem__] returns it: the raw pixel block when the
    dataset has no transform, the transformed tensor otherwise. *)
Inductive sample_image (tensor : Type) : Type :=
| Raw (pixels : list Z)
| Transformed (x : tensor).
Arguments Raw {tensor} pixels.
Arguments Transformed {tensor} x.

(** What the training code asks of the framework.  [engine] is the mutable
    state of the library apart from the model's own parameters: the default
    generator, gradient buffers, optimizer and scheduler state.  The single
    law about the model says that a forward pass in evaluation mode leaves
    the [state_dict] alone (batch-norm statistics are frozen by
    [model.eval()]); in training mode it may update buffers. *)
Class Torch : Type := {
  params : Type;
  engine : Type;
  tensor_t : Type;
  images_t : Type;
  outputs_t : Type;
  loss_t : Type;
  optimizer_t : Type;
  scheduler_t : Type;
  (* torch.randperm(n), as drawn by a shuffling sampler *)
  randperm : nat -> engine -> list nat * engine;
  randperm_perm : forall n g, (randperm n g).1 ≡ₚ seq 0 n;
  (* a Compose pipeline applied to one image *)
  apply_transform : list transform_op -> list Z -> engine -> tensor_t * engine;
  (* default collation of the images of a batch *)
  collate : list (sample_image tensor_t) -> images_t;
  (* images.shape[0] *)
  shape0 : images_t -> Z;
  (* model(images), given model.training and whether gradients are tracked *)
  forward : bool -> bool -> params -> images_t -> engine -> outputs_t * params * engine;
  forward_eval : forall grad p x g, (forward false grad p x g).1.2 = p;
  (* torch.max(outputs, 1)[1] *)
  argmax : outputs_t -> list Z;
  (* loss.item() *)
  loss_item : loss_t -> float;
  (* loss.backward() *)
  backward : loss_t -> engine -> engine;
  (* optimizer.zero_grad(), optimizer.step(), scheduler.step() *)
  zero_grad : optimizer_t -> engine -> engine;
  optimizer_step : optimizer_t -> params -> engine -> params * engine;
  scheduler_step : scheduler_t -> engine -> engine;
}.

(** [nn.Module]: its class name, parameters and buffers, and mode flag. *)
Record Module_ `{Torch} : Type := {
  class_name : string;
  state_dict : params;
  training : bool;
}.

(** [torch.sum(preds == labels)] *)
Fixpoint count_equal (preds labels : list Z) : Z :=
  match preds, labels with
  | p :: preds', l :: labels' => (if p =? l then 1 else 0) + count_equal preds' labels'
  | _, _ => 0
  end.

Section Loader.
Context `{Torch}.

(** [SignLanguageMNIST.__getitem__] *)
Definition __getitem__ (self : SignLanguageMNIST.t) (idx : nat)
    : M engine (sample_image tensor_t * Z) :=
  match SignLanguageMNIST.images self !! idx, SignLanguageMNIST.labels self !! idx with
  | Some image, Some label =>
      let* image :=
        match SignLanguageMNIST.transform self with
        | Some tf => fun g => let (x, g') := apply_transform tf image g in
                              (Ok (Transformed x), g')
        | None => ret (Raw image)
        end in
      let label :=
        match SignLanguageMNIST.label_transform self with
        | Some f => f label
        | None => label
        end in
      ret (image, label)
  | _, _ => raise IndexError
  end.

(** The order in which a loader visits its dataset during one pass: a fresh
    random permutation when [shuffle] is set, the dataset order otherwise. *)
Definition sampler (dl : DataLoader) : M engine (list nat) :=
  let n := SignLanguageMNIST.__len__ (dataset dl) in
  if shuffle dl then fun g => let (p, g') := randperm n g in (Ok p, g')
  else ret (seq 0 n).

(** The index groups of one pass, [batch_size] indices each and a shorter
    last one. *)
Definition batch_sampler (dl : DataLoader) : M engine (list (list nat)) :=
  let* order := sampler dl in
  ret (chunks (Z.to_nat (batch_size dl)) order).

Fixpoint fetch (ds : SignLanguageMNIST.t) (idxs : list nat)
    : M engine (list (sample_image tensor_t * Z)) :=
  match idxs with
  | [] => ret []
  | i :: idxs' =>
      let* s := __getitem__ ds i in
      let* ss := fetch ds idxs' in
      ret (s :: ss)
  end.

(** One batch: the samples at [idxs], collated. *)
Definition load_batch (dl : DataLoader) (idxs : list nat) : M engine (images_t * list Z) :=
  let* samples := fetch (dataset dl) idxs in
  ret (collate (map fst samples), map snd samples).

End Loader.

(* ===================================================================== *)
(** * [train.py] *)
(* ===================================================================== *)

Definition SAVE_MODEL_DIR : string := "saved_models".

(** What [train] sends to the TensorBoard writer. *)
Inductive writer_event : Type :=
| add_scalar (tag : string) (value : float) (step : Z)
| add_scalars (main_tag : string) (values : gmap string float) (step : Z).

(** What [train] prints.  Lines that format numbers are kept symbolic. *)
Inductive line : Type :=
| Text (s : string)
| EpochHeader (epoch : Z)                          (* f"Epoch {epoch}" *)
| PhaseMetrics (phase : string) (loss acc : float). (* f"{phase} Loss: ..., Acc: ..." *)

(** [running_corrects] starts as the Python integer [0] and becomes a tensor
    with the first [+=] of a tensor. *)
Inductive counter : Type :=
| PyInt (n : Z)
| Tensor (n : Z).

Definition counter_add (c : counter) (k : Z) : counter :=
  match c with
  | PyInt n => Tensor (n + k)
  | Tensor n => Tensor (n + k)
  end.

(** [x / n] for a Python float and a Python int *)
Definition float_div_int (x : float) (n : Z) : result float :=
  if n =? 0 then Raise ZeroDivisionError
  else match float_of_int n with
       | Ok d => Ok (fdiv x d)
       | Raise e => Raise e
       end.

(** [c.double() / n]: only a tensor has [.double()]; dividing a tensor never
    raises. *)
Definition double_div_int (c : counter) (n : Z) : result float :=
  match c with
  | PyInt _ => Raise (AttributeError "'int' object has no attribute 'double'")
  | Tensor k =>
      match float_of_int k with
      | Ok x => match float_of_int n with
                | Ok d => Ok (fdiv x d)
                | Raise e => Raise e
                end
      | Raise e => Raise e
      end
  end.

Section Trainer.
Context `{Torch}.

(** Files written and plots drawn. *)
Inductive os_event : Type :=
| plot_training (loss acc : gmap string (list float))
| makedirs (path : string)
| torch_save (m : Module_) (path : string).

(** The objects [train] works on ... *)
Record process : Type := {
  model : Module_;
  torch : engine;
  writer : list writer_event;
  stdout : list line;
  os_log : list os_event;
  dirs : list string;           (* directories that exist *)
}.

(** ... and its local variables that outlive a loop iteration.
    [best_model_wts] is assigned [copy.deepcopy(model.state_dict())]: a
    value of its own, which later updates of the model do not reach. *)
Record locals : Type := {
  best_model_wts : params;
  best_acc : float;
  train_val_loss : gmap string (list float);
  train_val_acc : gmap string (list float);
  train_val_loss_dict : gmap string float;
  train_val_acc_dict : gmap string float;
}.

Record trainer : Type := {
  proc : process;
  vars : locals;
}.

Definition on_proc (f : process -> process) : M trainer unit :=
  modify (fun s => {| proc := f (proc s); vars := vars s |}).
Definition on_vars (f : locals -> locals) : M trainer unit :=
  modify (fun s => {| proc := proc s; vars := f (vars s) |}).

Definition with_model (m : Module_) (p : process) : process :=
  {| model := m; torch := torch p; writer := writer p; stdout := stdout p;
     os_log := os_log p; dirs := dirs p |}.
Definition with_torch (g : engine) (p : process) : process :=
  {| model := model p; torch := g; writer := writer p; stdout := stdout p;
     os_log := os_log p; dirs := dirs p |}.

Definition print (l : line) : M trainer unit :=
  on_proc (fun p => {| model := model p; torch := torch p; writer := writer p;
                       stdout := stdout p ++ [l]; os_log := os_log p; dirs := dirs p |}).
Definition writer_add (e : writer_event) : M trainer unit :=
  on_proc (fun p => {| model := model p; torch := torch p; writer := writer p ++ [e];
                       stdout := stdout p; os_log := os_log p; dirs := dirs p |}).
Definition os_do (e : os_event) : M trainer unit :=
  on_proc (fun p => {| model := model p; torch := torch p; writer := writer p;
                       stdout := stdout p; os_log := os_log p ++ [e]; dirs := dirs p |}).
Definition os_makedirs (path : string) : M trainer unit :=
  on_proc (fun p => {| model := model p; torch := torch p; writer := writer p;
                       stdout := stdout p; os_log := os_log p ++ [makedirs path];
                       dirs := path :: dirs p |}).

(** Run library code on the engine state. *)
Definition torch_run {A} (m : M engine A) : M trainer A :=
  fun s => let (r, g) := m (torch (proc s)) in
           (r, {| proc := with_torch g (proc s); vars := vars s |}).
Definition torch_do (f : engine -> engine) : M trainer unit :=
  on_proc (fun p => with_torch (f (torch p)) p).

Definition get_model : M trainer Module_ := fun s => (Ok (model (proc s)), s).
Definition get_vars : M trainer locals := fun s => (Ok (vars s), s).

(** [model.train()] and [model.eval()] *)
Definition set_training (b : bool) : M trainer unit :=
  on_proc (fun p => with_model {| class_name := class_name (model p);
                                  state_dict := state_dict (model p);
                                  training := b |} p).

(** [model.load_state_dict(wts)] *)
Definition load_state_dict (wts : params) : M trainer unit :=
  on_proc (fun p => with_model {| class_name := class_name (model p);
                                  state_dict := wts;
                                  training := training (model p) |} p).

(** [model(images)] under [torch.set_grad_enabled(grad)] *)
Definition call_model (grad : bool) (images : images_t) : M trainer outputs_t :=
  fun s =>
    let m := model (proc s) in
    let '(out, p', g') := forward (training m) grad (state_dict m) images (torch (proc s)) in
    (Ok out,
     {| proc := with_torch g' (with_model {| class_name := class_name m;
                                             state_dict := p';
                                             training := training m |} (proc s));
        vars := vars s |}).

(** [optimizer.step()] *)
Definition step (optimizer : optimizer_t) : M trainer unit :=
  fun s =>
    let m := model (proc s) in
    let '(p', g') := optimizer_step optimizer (state_dict m) (torch (proc s)) in
    (Ok tt,
     {| proc := with_torch g' (with_model {| class_name := class_name m;
                                             state_dict := p';
                                             training := training m |} (proc s));
        vars := vars s |}).

(** [d[phase].append(x)] *)
Definition dict_append (d : gmap string (list float)) (phase : string) (x : float)
    : M trainer (gmap string (list float)) :=
  let* l := dict_get d phase in
  ret (<[phase := l ++ [x] ]> d).

Section Train.
Variable dataloaders : gmap string DataLoader.
Variable criterion : outputs_t -> list Z -> loss_t.
Variable optimizer : optimizer_t.
Variable scheduler : option scheduler_t.

(** The body of [for images, labels in dataloaders[phase]]. *)
Definition batch_body (phase : string) (dl : DataLoader) (idxs : list nat)
    (running : float * counter) : M trainer (float * counter) :=
  let '(running_loss, running_corrects) := running in
  let* (images, labels) := torch_run (load_batch dl idxs) in
  let* _ := torch_do (zero_grad optimizer) in
  let* outputs := call_model (String.eqb phase "train") images in
  let preds := argmax outputs in
  let loss := criterion outputs labels in
  let* _ :=
    (if String.eqb phase "train" then
       let* _ := torch_do (backward loss) in
       step optimizer
     else ret tt) in
  let* b := lift (float_of_int (shape0 images)) in
  ret (fadd running_loss (fmul (loss_item loss) b),
       counter_add running_corrects (count_equal preds labels)).

Fixpoint batch_loop (phase : string) (dl : DataLoader) (batches : list (list nat))
    (running : float * counter) : M trainer (float * counter) :=
  match batches with
  | [] => ret running
  | idxs :: batches' =>
      let* running := batch_body phase dl idxs running in
      batch_loop phase dl batches' running
  end.

(** The body of [for phase in ["train", "val"]]. *)
Definition phase_body (epoch : Z) (phase : string) : M trainer unit :=
  let* _ := set_training (String.eqb phase "train") in
  let* dl := dict_get dataloaders phase in
  let* batches := torch_run (batch_sampler dl) in
  let* (running_loss, running_corrects) := batch_loop phase dl batches (fzero, PyInt 0) in
  let* _ :=
    match scheduler with
    | Some sch => if String.eqb phase "train" then torch_do (scheduler_step sch) else ret tt
    | None => ret tt
    end in
  let* dl := dict_get dataloaders phase in
  let n := Z.of_nat (SignLanguageMNIST.__len__ (dataset dl)) in
  let* epoch_loss := lift (float_div_int running_loss n) in
  let* v := get_vars in
  let* losses := dict_append (train_val_loss v) phase epoch_loss in
  let* _ := on_vars (fun v =>
    {| best_model_wts := best_model_wts v; best_acc := best_acc v;
       train_val_loss := losses; train_val_acc := train_val_acc v;
       train_val_loss_dict := train_val_loss_dict v;
       train_val_acc_dict := train_val_acc_dict v |}) in
  let* _ := writer_add (add_scalar (String.append "Loss/" phase) epoch_loss epoch) in
  let* dl := dict_get dataloaders phase in
  let n := Z.of_nat (SignLanguageMNIST.__len__ (dataset dl)) in
  let* epoch_acc := lift (double_div_int running_corrects n) in
  let* v := get_vars in
  let* accs := dict_append (train_val_acc v) phase epoch_acc in
  let* _ := on_vars (fun v =>
    {| best_model_wts := best_model_wts v; best_acc := best_acc v;
       train_val_loss := train_val_loss v; train_val_acc := accs;
       train_val_loss_dict := train_val_loss_dict v;
       train_val_acc_dict := train_val_acc_dict v |}) in
  let* _ := writer_add (add_scalar (String.append "Accuracy/" phase) epoch_acc epoch) in
  let* _ := on_vars (fun v =>
    {| best_model_wts := best_model_wts v; best_acc := best_acc v;
       train_val_loss := train_val_loss v; train_val_acc := train_val_acc v;
       train_val_loss_dict := <[phase := epoch_loss]> (train_val_loss_dict v);
       train_val_acc_dict := <[phase := epoch_acc]> (train_val_acc_dict v) |}) in
  let* _ := print (PhaseMetrics phase epoch_loss epoch_acc) in
  let* v := get_vars in
  if String.eqb phase "val" && fgt epoch_acc (best_acc v) then
    let* m := get_model in
    let* _ := on_vars (fun v =>
      {| best_model_wts := state_dict m; best_acc := epoch_acc;
         train_val_loss := train_val_loss v; train_val_acc := train_val_acc v;
         train_val_loss_dict := train_val_loss_dict v;
         train_val_acc_dict := train_val_acc_dict v |}) in
    print (Text "New best model!")
  else ret tt.

(** The body of [for epoch in range(1, num_epochs + 1)]. *)
Definition epoch_body (epoch : Z) : M trainer unit :=
  let* _ := print (EpochHeader epoch) in
  let* _ := print (Text "----------") in
  let* _ := for_each ["train"; "val"] (phase_body epoch) in
  let* v := get_vars in
  let* _ := writer_add (add_scalars "Loss: Train vs. Val" (train_val_loss_dict v) epoch) in
  let* _ := writer_add (add_scalars "Accuracy: Train vs. Val" (train_val_acc_dict v) epoch) in
  print (Text EmptyString).

(** [train]; the model, the writer and the rest of the process are the
    state the computation runs on. *)
Definition train (save : bool) (num_epochs : Z) (plot : bool) : M trainer Module_ :=
  let* m := get_model in
  let* _ := print (Text (String.append "Start training " (class_name m))) in
  let* _ := on_vars (fun _ =>
    {| best_model_wts := state_dict m; best_acc := fzero;
       train_val_loss := <["val" := [] ]> (<["train" := [] ]> ∅);
       train_val_acc := <["val" := [] ]> (<["train" := [] ]> ∅);
       train_val_loss_dict := ∅; train_val_acc_dict := ∅ |}) in
  let* _ := for_each (range 1 (num_epochs + 1)) epoch_body in
  let* v := get_vars in
  let* _ :=
    (if plot then os_do (plot_training (train_val_loss v) (train_val_acc v))
     else ret tt) in
  let* _ := load_state_dict (best_model_wts v) in
  let* _ :=
    (if save then
       let* p := (fun s => (Ok (proc s), s)) in
       let* _ :=
         (if negb (str_in SAVE_MODEL_DIR (dirs p)) then os_makedirs SAVE_MODEL_DIR
          else ret tt) in
       let* m := get_model in
       let model_path :=
         String.append SAVE_MODEL_DIR
           (String.append "/" (String.append (class_name m) "_best.pt")) in
       let* _ := os_do (torch_save m model_path) in
       print (Text (String.append "Save model in " model_path))
     else ret tt) in
  get_model.

End Train.
End Trainer.

(* ===================================================================== *)
(** * A reference generator *)
(* ===================================================================== *)

(** A small generator used to run the model on concrete inputs: a linear
    congruential state, and a shuffle that repeatedly draws one of the
    remaining elements (Fisher-Yates). *)
Module RefGen.

Definition next (g : Z) : Z := (1103515245 * g + 12345) mod 2147483648.

(** A draw in [0, n). *)
Definition draw (g : Z) (n : nat) : nat * Z :=
  let g' := next g in (Z.to_nat ((g' / 65536) mod Z.of_nat n), g').

Fixpoint pick_all (fuel : nat) (g : Z) (l : list nat) : list nat * Z :=
  match fuel, l with
  | S fuel', _ :: _ =>
      let (j, g') := draw g (length l) in
      match l !! j with
      | Some x => let (r, g'') := pick_all fuel' g' (delete j l) in (x :: r, g'')
      | None => (l, g')
      end
  | _, _ => (l, g)
  end.

Definition shuffle (g : Z) (l : list nat) : list nat * Z := pick_all (length l) g l.

Definition seed (s : Z) : Z := s mod 2147483648.

Lemma pick_all_perm fuel : forall g l, (pick_all fuel g l).1 ≡ₚ l.
Proof.
  induction fuel as [|fuel IH]; intros g l; [reflexivity|].
  destruct l as [|a l]; [reflexivity|].
  cbn [pick_all].
  destruct (draw g (length (a :: l))) as [j g'].
  destruct ((a :: l) !! j) as [x|] eqn:Hj; [|reflexivity].
  specialize (IH g' (delete j (a :: l))).
  destruct (pick_all fuel g' (delete j (a :: l))) as [r g'']; cbn [fst] in *.
  rewrite IH. symmetry. by apply delete_Permutation.
Qed.

#[export] Instance numpy : NumPyRandom := {|
  np_state := Z;
  np_seed := seed;
  np_shuffle := shuffle;
  np_shuffle_perm := fun g l => pick_all_perm (length l) g l;
|}.

End RefGen.

(* ===================================================================== *)
(** * Properties of the split *)
(* ===================================================================== *)

Section SplitProperties.
Context `{NumPyRandom}.

Lemma clip_le (k : Z) (n : nat) : (clip k n <= n)%nat.
Proof. unfold clip. destruct (k <? 0) eqn:E; lia. Qed.

Lemma clip_in_range (k : Z) (n : nat) :
  0 <= k <= Z.of_nat n -> clip k n = Z.to_nat k.
Proof. intros Hk. unfold clip. destruct (Z.ltb_spec k 0); lia. Qed.

(** Cutting a sequence at any integer bound loses and repeats nothing. *)
Lemma slice_to_from {A} (k : Z) (l : list A) : slice_to k l ++ slice_from k l = l.
Proof. apply take_drop. Qed.

Lemma cut_point_length (v : float) (l1 l2 : list nat) :
  length l1 = length l2 ->
  SignLanguageMNIST.cut_point v l1 = SignLanguageMNIST.cut_point v l2.
Proof. intros E. unfold SignLanguageMNIST.cut_point. by rewrite E. Qed.

(** The index order a call works on, and the generator state it leaves. *)
Definition split_order (n : nat) (shuffle : bool) (w : world) : list nat * world :=
  if shuffle then
    let (l, g) := np_shuffle (np_random w) (seq 0 n) in (l, with_np_random g w)
  else (seq 0 n, w).

Lemma split_order_perm n sh w : (split_order n sh w).1 ≡ₚ seq 0 n.
Proof.
  unfold split_order. destruct sh; [|reflexivity].
  pose proof (np_shuffle_perm (np_random w) (seq 0 n)) as P.
  by destruct (np_shuffle (np_random w) (seq 0 n)).
Qed.

(** [_train_val_split] in one equation. *)
Lemma _train_val_split_eq data v seed sh w :
  SignLanguageMNIST._train_val_split data v seed sh w =
  let (idx, w') := split_order (length data) sh w in
  match SignLanguageMNIST.cut_point v idx with
  | Ok k => (Ok (slice_to k idx, slice_from k idx), w')
  | Raise e => (Raise e, w')
  end.
Proof.
  unfold SignLanguageMNIST._train_val_split, split_order, bind, np_random_shuffle, lift, ret.
  destruct sh.
  - destruct (np_shuffle (np_random w) (seq 0 (length data))) as [l g].
    by destruct (SignLanguageMNIST.cut_point v l).
  - by destruct (SignLanguageMNIST.cut_point v (seq 0 (length data))).
Qed.

(** Within one call the two index lists partition the row numbers. *)
Lemma _train_val_split_partition data v seed sh w tr va w' :
  SignLanguageMNIST._train_val_split data v seed sh w = (Ok (tr, va), w') ->
  tr ++ va ≡ₚ seq 0 (length data).
Proof.
  rewrite _train_val_split_eq.
  pose proof (split_order_perm (length data) sh w) as P.
  destruct (split_order (length data) sh w) as [idx w1]; cbn [fst] in P.
  destruct (SignLanguageMNIST.cut_point v idx) as [k|e]; [|done].
  intros [= <- <- <-]. by rewrite slice_to_from.
Qed.

End SplitProperties.

Section SplitTheorems.
Context `{NumPyRandom}.

Lemma str_in_false (x : string) (xs : list string) : x ∉ xs -> str_in x xs = false.
Proof.
  induction xs as [|y xs IH]; intros Hx; [done|].
  apply not_elem_of_cons in Hx as [Hne Hx].
  unfold str_in in *. cbn [existsb]. rewrite (IH Hx).
  by apply String.eqb_neq in Hne as ->.
Qed.

(** C6.  A phase name other than "train", "val" and "test" makes the
    constructor raise an [AssertionError] that lists the accepted names, and
    the world is returned as it was: no file has been opened and the
    generator has not been touched. *)
Theorem init_invalid_phase_fails_first csv_file phase val_split shuffle tf ltf (w : world) :
  phase ∉ SignLanguageMNIST.phases ->
  SignLanguageMNIST.__init__ csv_file phase val_split shuffle tf ltf w =
    (Raise (AssertionError "Choose phase from ['train', 'val', 'test']"), w).
Proof.
  intros Hphase. unfold SignLanguageMNIST.__init__, bind, assert.
  by rewrite (str_in_false _ _ Hphase).
Qed.

(** [set_random_seed] puts the generator in the state of the seed. *)
Lemma set_random_seed_state (s : Z) (w : world) :
  (set_random_seed s w).1 = Ok tt /\ np_random (set_random_seed s w).2 = np_seed s.
Proof. done. Qed.

(** C8.  With [val_split = 0.25], a table of 100 rows is cut at position 75:
    75 training indices and 25 validation indices, shuffled or not. *)
Theorem split_quarter_of_100 data seed shuffle (w : world) :
  length data = 100%nat ->
  exists tr va w',
    SignLanguageMNIST._train_val_split data fquarter seed shuffle w = (Ok (tr, va), w') /\
    length tr = 75%nat /\ length va = 25%nat.
Proof.
  intros Hlen. rewrite _train_val_split_eq.
  pose proof (split_order_perm (length data) shuffle w) as P.
  destruct (split_order (length data) shuffle w) as [idx w'] eqn:E; cbn [fst] in P.
  assert (Hidx : length idx = 100%nat).
  { by rewrite (Permutation_length P), length_seq. }
  rewrite (cut_point_length fquarter idx (seq 0 100)) by (by rewrite length_seq).
  replace (SignLanguageMNIST.cut_point fquarter (seq 0 100)) with (@Ok Z 75)
    by (vm_compute; reflexivity).
  eexists _, _, _. split; [reflexivity|].
  unfold slice_to, slice_from.
  rewrite length_take, length_drop, Hidx.
  rewrite (clip_in_range 75 100) by lia. lia.
Qed.

(** C9.  The [seed] argument is never read: two calls that start from the
    same generator state return the same index lists and leave the same
    generator state, whatever seeds they are given. *)
Theorem split_ignores_seed data val_split (seed1 seed2 : Z) shuffle (w1 w2 : world) :
  np_random w1 = np_random w2 ->
  (SignLanguageMNIST._train_val_split data val_split seed1 shuffle w1).1 =
  (SignLanguageMNIST._train_val_split data val_split seed2 shuffle w2).1 /\
  np_random (SignLanguageMNIST._train_val_split data val_split seed1 shuffle w1).2 =
  np_random (SignLanguageMNIST._train_val_split data val_split seed2 shuffle w2).2.
Proof.
  intros Hg. rewrite !_train_val_split_eq. unfold split_order. rewrite Hg.
  destruct shuffle.
  - destruct (np_shuffle (np_random w2) (seq 0 (length data))) as [idx g].
    by destruct (SignLanguageMNIST.cut_point val_split idx).
  - by destruct (SignLanguageMNIST.cut_point val_split (seq 0 (length data))).
Qed.

End SplitTheorems.

(** ** Reproducibility of the dataset factories *)

Section Determinism.
Context `{NumPyRandom}.

(** Two worlds that agree on what the dataset code reads: the generator
    state and the files.  The access log is write-only. *)
Definition same_inputs (w1 w2 : world) : Prop :=
  np_random w1 = np_random w2 /\ files w1 = files w2.

(** A computation whose result and effect on the inputs are determined by
    the inputs. *)
Definition determined {A} (m : M world A) : Prop :=
  forall w1 w2, same_inputs w1 w2 ->
    (m w1).1 = (m w2).1 /\ same_inputs (m w1).2 (m w2).2.

Lemma determined_ret {A} (a : A) : determined (ret a).
Proof. by intros w1 w2 Hw. Qed.

Lemma determined_raise {A} (e : exn) : determined (@raise world A e).
Proof. by intros w1 w2 Hw. Qed.

Lemma determined_lift {A} (r : result A) : determined (lift r).
Proof. by intros w1 w2 Hw. Qed.

Lemma determined_bind {A B} (m : M world A) (k : A -> M world B) :
  determined m -> (forall a, determined (k a)) -> determined (bind m k).
Proof.
  intros Hm Hk w1 w2 Hw. unfold bind.
  destruct (Hm w1 w2 Hw) as [Hr Hs].
  destruct (m w1) as [[a1|e1] w1'], (m w2) as [[a2|e2] w2'];
    cbn [fst snd] in *; try discriminate.
  - injection Hr as ->. by apply Hk.
  - injection Hr as ->. by split.
Qed.

Lemma determined_shuffle (l : list nat) : determined (np_random_shuffle l).
Proof.
  intros w1 w2 [Hg Hf]. unfold np_random_shuffle. rewrite Hg.
  by destruct (np_shuffle (np_random w2) l).
Qed.

Lemma determined_read_csv (path : string) : determined (read_csv path).
Proof.
  intros w1 w2 [Hg Hf]. unfold read_csv. rewrite Hf.
  by destruct (files w2 !! path).
Qed.

Lemma determined_dict_get {V} (d : gmap string V) k : determined (dict_get d k).
Proof. unfold dict_get. destruct (d !! k); [apply determined_ret|apply determined_raise]. Qed.

Lemma determined_split data v seed sh :
  determined (SignLanguageMNIST._train_val_split data v seed sh).
Proof.
  unfold SignLanguageMNIST._train_val_split.
  apply determined_bind.
  { destruct sh; [apply determined_shuffle|apply determined_ret]. }
  intros idx. apply determined_bind; [apply determined_lift|]. intros k1.
  apply determined_bind; [apply determined_lift|]. intros k2.
  apply determined_ret.
Qed.

Lemma determined_init csv_file phase v sh tf ltf :
  determined (SignLanguageMNIST.__init__ csv_file phase v sh tf ltf).
Proof.
  unfold SignLanguageMNIST.__init__.
  apply determined_bind.
  { unfold assert. destruct (str_in _ _); [apply determined_ret|apply determined_raise]. }
  intros _. apply determined_bind; [apply determined_read_csv|]. intros table.
  apply determined_bind; [apply determined_split|]. intros [tr va].
  apply determined_bind.
  { destruct (String.eqb phase "train"); [apply determined_lift|].
    destruct (String.eqb phase "val"); [apply determined_lift|apply determined_ret]. }
  intros data. apply determined_bind; [apply determined_lift|]. intros images.
  apply determined_bind; [apply determined_lift|]. intros labels.
  apply determined_ret.
Qed.

Lemma determined_dict_fill {V} keys (f : string -> M world V) :
  (forall k, determined (f k)) -> forall acc, determined (dict_fill keys f acc).
Proof.
  intros Hf. induction keys as [|k ks IH]; intros acc; cbn [dict_fill].
  - apply determined_ret.
  - apply determined_bind; [apply Hf|]. intros v. apply IH.
Qed.

Lemma determined_get_train_val_datasets v sh path :
  determined (get_train_val_datasets v sh path).
Proof.
  unfold get_train_val_datasets, dict_comprehension.
  apply determined_dict_fill. intros k.
  apply determined_bind; [apply determined_dict_get|]. intros tf.
  apply determined_init.
Qed.

(** Seeding first, two processes that read the same files build the same
    training and validation datasets. *)
Lemma get_train_val_datasets_reproducible (s : Z) v sh path (w1 w2 : world) :
  files w1 = files w2 ->
  ((let* _ := set_random_seed s in get_train_val_datasets v sh path) w1).1 =
  ((let* _ := set_random_seed s in get_train_val_datasets v sh path) w2).1.
Proof.
  intros Hf. unfold bind, set_random_seed, modify.
  by apply determined_get_train_val_datasets.
Qed.

End Determinism.

(* ===================================================================== *)
(** * Facts about binary64 arithmetic *)
(* ===================================================================== *)

Module FloatFacts.

Definition is_nan (x : float) : bool :=
  match x with S754_nan => true | _ => false end.

(** Zero, a positive number or plus infinity. *)
Definition nonneg (x : float) : Prop :=
  match x with
  | S754_zero s | S754_infinity s | S754_finite s _ _ => s = false
  | S754_nan => False
  end.

Ltac compare_cases :=
  repeat match goal with
  | |- context [Pos.compare_cont Eq ?a ?b] =>
      change (Pos.compare_cont Eq a b) with (Pos.compare a b)
  end;
  repeat match goal with
  | |- context [Z.compare ?x ?y] => destruct (Z.compare_spec x y)
  | |- context [Pos.compare ?x ?y] => destruct (Pos.compare_spec x y)
  end.

Ltac by_cases :=
  compare_cases; cbn; intros; try discriminate; try reflexivity; subst; lia.

(** ** The order *)

Lemma fle_refl x : is_nan x = false -> fle x x = true.
Proof.
  unfold fle, SFleb, SFcompare.
  destruct x as [s|s| |s m e]; try discriminate; try reflexivity; intros _.
  - by destruct s.
  - rewrite Z.compare_refl.
    change (Pos.compare_cont Eq m m) with (Pos.compare m m).
    rewrite Pos.compare_refl. by destruct s.
Qed.

Lemma fle_trans a b c : fle a b = true -> fle b c = true -> fle a c = true.
Proof.
  unfold fle, SFleb, SFcompare.
  destruct a as [sa|sa| |sa ma ea], b as [sb|sb| |sb mb eb], c as [sc|sc| |sc mc ec];
    try (intros; discriminate); try reflexivity;
    try destruct sa; try destruct sb; try destruct sc;
    try (intros; discriminate); try reflexivity; by_cases.
Qed.

(** Without NaN the order is total. *)
Lemma not_fgt_fle a b :
  is_nan a = false -> is_nan b = false -> fgt a b = false -> fle a b = true.
Proof.
  unfold fle, fgt, SFleb, SFltb, SFcompare.
  destruct a as [sa|sa| |sa ma ea], b as [sb|sb| |sb mb eb];
    try (intros; discriminate); try reflexivity;
    try destruct sa; try destruct sb;
    try (intros; discriminate); try reflexivity; by_cases.
Qed.

Lemma fgt_fle a b : fgt a b = true -> fle b a = true.
Proof. unfold fle, fgt, SFleb, SFltb. by destruct (SFcompare b a) as [[]|]. Qed.

Lemma fgt_not_nan a b : fgt a b = true -> is_nan a = false /\ is_nan b = false.
Proof. unfold fgt, SFltb, SFcompare. destruct a, b; try discriminate; auto. Qed.

Lemma nonneg_not_nan x : nonneg x -> is_nan x = false.
Proof. by destruct x. Qed.

Lemma nonneg_fle_zero x : nonneg x -> fle fzero x = true.
Proof. destruct x as [s|s| |s m e]; cbn; try done; by intros ->. Qed.

(** A non-negative number that does not exceed [0.0] is a zero. *)
Lemma nonneg_not_fgt_zero x : nonneg x -> fgt x fzero = false -> x = fzero.
Proof. destruct x as [s|s| |s m e]; cbn; try done; by intros ->. Qed.

(** ** Rounding *)

Lemma shr_1_m r : 0 <= shr_m r -> shr_m (shr_1 r) = Z.div2 (shr_m r).
Proof.
  destruct r as [m rb sb]; cbn.
  destruct m as [|[p|p|]|p]; cbn; lia || reflexivity.
Qed.

Lemma shr_iter_m p : forall r, 0 <= shr_m r ->
  shr_m (SpecFloat.iter_pos shr_1 p r) = Z.shiftr (shr_m r) (Zpos p).
Proof.
  induction p as [p IH|p IH|]; intros r Hr; cbn [SpecFloat.iter_pos].
  - assert (H1 : 0 <= shr_m (shr_1 r))
      by (rewrite shr_1_m by done; by apply Z.div2_nonneg).
    assert (H2 : 0 <= shr_m (SpecFloat.iter_pos shr_1 p (shr_1 r)))
      by (rewrite IH by done; by apply Z.shiftr_nonneg).
    rewrite (IH _ H2), (IH _ H1), shr_1_m by done.
    rewrite Z.div2_spec, !Z.shiftr_shiftr by lia. f_equal. lia.
  - assert (H2 : 0 <= shr_m (SpecFloat.iter_pos shr_1 p r))
      by (rewrite IH by done; by apply Z.shiftr_nonneg).
    rewrite (IH _ H2), (IH _ Hr), !Z.shiftr_shiftr by lia. f_equal. lia.
  - rewrite shr_1_m by done. apply Z.div2_spec.
Qed.

Lemma shr_m_loc m l : shr_m (shr_record_of_loc m l) = m.
Proof. by destruct l as [|[]]. Qed.

(** Mantissa and exponent after the shift that [shr_fexp] performs. *)
Lemma shr_fexp_m m e l :
  0 <= m ->
  let n := fexp prec emax (Zdigits2 m + e) - e in
  shr_m (shr_fexp prec emax m e l).1 = (if 0 <? n then Z.shiftr m n else m) /\
  (shr_fexp prec emax m e l).2 = (if 0 <? n then e + n else e).
Proof.
  intros Hm n. unfold shr_fexp, shr. fold n.
  destruct n as [|p|p]; cbn [fst snd Z.ltb Z.compare]; rewrite ?shr_m_loc; try done.
  by rewrite shr_iter_m, shr_m_loc by (by rewrite shr_m_loc).
Qed.

Lemma digits2_pos_bound p : 2 ^ (Zpos (digits2_pos p) - 1) <= Zpos p.
Proof.
  induction p as [p IH|p IH|]; cbn [digits2_pos]; [| |done].
  all: rewrite Pos2Z.inj_succ;
    replace (Z.succ (Zpos (digits2_pos p)) - 1)
      with (Z.succ (Zpos (digits2_pos p) - 1)) by lia;
    rewrite Z.pow_succ_r by lia; lia.
Qed.

Lemma round_nearest_even_ge m l : m <= round_nearest_even m l.
Proof. destruct l as [|[]]; cbn; try lia. destruct (Z.even m); lia. Qed.

Definition emin : Z := SpecFloat.emin prec emax.

Ltac unfold_format := unfold fexp, emin, SpecFloat.emin, prec, emax in *.

Lemma shr_fexp_nonneg m e l : 0 <= m -> 0 <= shr_m (shr_fexp prec emax m e l).1.
Proof.
  intros Hm. destruct (shr_fexp_m m e l) as [-> _]; [lia|].
  destruct (0 <? _); [by apply Z.shiftr_nonneg|done].
Qed.

(** A positive mantissa with an exponent in range stays positive. *)
Lemma shr_fexp_pos m e l :
  0 < m -> emin <= e ->
  0 < shr_m (shr_fexp prec emax m e l).1 /\ emin <= (shr_fexp prec emax m e l).2.
Proof.
  intros Hm He. destruct (shr_fexp_m m e l) as [-> ->]; [lia|].
  set (n := fexp prec emax (Zdigits2 m + e) - e).
  destruct (Z.ltb_spec 0 n) as [Hn|Hn]; [|lia]. split; [|lia].
  destruct m as [|p|p]; try lia. cbn [Zdigits2] in n.
  pose proof (digits2_pos_bound p) as Hd.
  assert (Hle : n <= Zpos (digits2_pos p) - 1) by (unfold n; unfold_format; lia).
  rewrite Z.shiftr_div_pow2 by lia.
  apply Z.div_str_pos. split; [apply Z.pow_pos_nonneg; lia|].
  etrans; [|exact Hd]. apply Z.pow_le_mono_r; lia.
Qed.

(** Rounding a non-negative mantissa gives a number of the given sign. *)
Lemma binary_round_aux_sign s m e l :
  0 <= m ->
  match binary_round_aux prec emax s m e l with
  | S754_zero s' | S754_finite s' _ _ | S754_infinity s' => s' = s
  | S754_nan => False
  end.
Proof.
  intros Hm. unfold binary_round_aux.
  pose proof (shr_fexp_nonneg m e l Hm) as H1.
  destruct (shr_fexp prec emax m e l) as [r1 e1]; cbn [fst] in H1.
  pose proof (round_nearest_even_ge (shr_m r1) (loc_of_shr_record r1)) as H2.
  pose proof (shr_fexp_nonneg
    (round_nearest_even (shr_m r1) (loc_of_shr_record r1)) e1 loc_Exact) as H3.
  destruct (shr_fexp prec emax _ e1 loc_Exact) as [r2 e2]; cbn [fst] in H3.
  destruct (shr_m r2) as [|p|p]; [done| |lia].
  by destruct (e2 <=? emax - prec).
Qed.

(** Rounding a positive mantissa never gives a zero. *)
Lemma binary_round_aux_pos s m e l :
  0 < m -> emin <= e ->
  match binary_round_aux prec emax s m e l with
  | S754_finite s' _ _ | S754_infinity s' => s' = s
  | _ => False
  end.
Proof.
  intros Hm He. unfold binary_round_aux.
  destruct (shr_fexp_pos m e l Hm He) as [H1 He1].
  destruct (shr_fexp prec emax m e l) as [r1 e1]; cbn [fst snd] in H1, He1.
  pose proof (round_nearest_even_ge (shr_m r1) (loc_of_shr_record r1)) as H2.
  destruct (shr_fexp_pos
    (round_nearest_even (shr_m r1) (loc_of_shr_record r1)) e1 loc_Exact)
    as [H3 _]; [lia|done|].
  destruct (shr_fexp prec emax _ e1 loc_Exact) as [r2 e2]; cbn [fst] in H3.
  destruct (shr_m r2) as [|p|p]; [lia| |lia].
  by destruct (e2 <=? emax - prec).
Qed.

Lemma shl_align_exponent mx ex ex' : (shl_align mx ex ex').2 = Z.min ex ex'.
Proof. unfold shl_align. destruct (ex' - ex) as [|d|d] eqn:E; cbn [snd]; lia. Qed.

Lemma binary_round_pos s p e :
  emin <= e ->
  match binary_round prec emax s p e with
  | S754_finite s' _ _ | S754_infinity s' => s' = s
  | _ => False
  end.
Proof.
  intros He. unfold binary_round.
  pose proof (shl_align_exponent p e (fexp prec emax (Zpos (digits2_pos p) + e))) as Hez.
  destruct (shl_align p e _) as [mz ez]; cbn [snd] in Hez.
  apply binary_round_aux_pos; [done|]. unfold_format. lia.
Qed.

(** ** Conversions and quotients *)

(** [float(n)] of a positive integer is a positive finite number. *)
Lemma float_of_int_pos n x :
  0 < n -> float_of_int n = Ok x -> exists m e, x = S754_finite false m e.
Proof.
  intros Hn. unfold float_of_int, binary_normalize. destruct n as [|p|p]; try lia.
  assert (He : emin <= 0) by (unfold_format; lia).
  pose proof (binary_round_pos false p 0 He) as Hp.
  destruct (binary_round prec emax false p 0) as [| | |s m e]; try done.
  intros [= <-]. rewrite Hp. eauto.
Qed.

Lemma float_of_int_nonneg n x :
  0 <= n -> float_of_int n = Ok x ->
  x = fzero \/ exists m e, x = S754_finite false m e.
Proof.
  intros Hn Hx. destruct (Z.eq_dec n 0) as [->|Hne].
  - left. by injection Hx.
  - right. apply (float_of_int_pos n); [lia|done].
Qed.

Lemma fdiv_finite_nonneg mx ex my ey :
  nonneg (fdiv (S754_finite false mx ex) (S754_finite false my ey)).
Proof.
  unfold fdiv, SFdiv.
  destruct (SFdiv_core_binary prec emax (Zpos mx) ex (Zpos my) ey) as [[mz ez] lz] eqn:E.
  assert (Hmz : 0 <= mz).
  { unfold SFdiv_core_binary in E.
    set (m' := match _ with Z.pos _ => _ | 0 => Z.pos mx | Z.neg _ => 0 end) in E.
    assert (Hm' : 0 <= m').
    { unfold m'. destruct (_ - _ - _); [lia| |lia]. apply Z.shiftl_nonneg. lia. }
    pose proof (Z.div_pos m' (Zpos my) Hm' eq_refl) as Hq.
    unfold Z.div in Hq. destruct (Z.div_eucl m' (Z.pos my)) as [q r].
    by injection E as <- _ _. }
  pose proof (binary_round_aux_sign (xorb false false) mz ez lz Hmz) as Hs.
  unfold nonneg. by destruct (binary_round_aux _ _ _ _ _ _).
Qed.

(** The quotient of a count by a positive size is a number, and not a
    negative one. *)
Lemma double_div_int_nonneg k n a :
  0 <= k -> 0 < n -> double_div_int (Tensor k) n = Ok a -> nonneg a.
Proof.
  intros Hk Hn. unfold double_div_int.
  destruct (float_of_int k) as [x|] eqn:Ex; [|done].
  destruct (float_of_int n) as [d|] eqn:Ed; [|done].
  intros [= <-].
  destruct (float_of_int_pos n d Hn Ed) as (my & ey & ->).
  destruct (float_of_int_nonneg k x Hk Ex) as [->|(mx & ex & ->)].
  - done.
  - apply fdiv_finite_nonneg.
Qed.

End FloatFacts.

(* ===================================================================== *)
(** * Properties of the training loop *)
(* ===================================================================== *)

(** ** Reasoning about computations *)

Section MonadFacts.
Context {S : Type}.

(** A sequence returns only if its first part did. *)
Lemma bind_Ok {A B} (m : M S A) (k : A -> M S B) s b s2 :
  bind m k s = (Ok b, s2) -> exists a s1, m s = (Ok a, s1) /\ k a s1 = (Ok b, s2).
Proof.
  unfold bind. destruct (m s) as [[a|e] s1]; [eauto|discriminate].
Qed.

Lemma bind_assoc {A B C} (m : M S A) (k : A -> M S B) (h : B -> M S C) s :
  bind (bind m k) h s = bind m (fun a => bind (k a) h) s.
Proof.
  unfold bind. destruct (m s) as [[a|e] s1]; [|done]. done.
Qed.

Lemma for_each_app {A} (xs ys : list A) (body : A -> M S unit) s :
  for_each (xs ++ ys) body s = bind (for_each xs body) (fun _ => for_each ys body) s.
Proof.
  revert s. induction xs as [|x xs IH]; intros s; cbn [for_each app].
  - done.
  - rewrite bind_assoc. unfold bind at 1.
    change ((let* _ := body x in let* _ := for_each xs body in for_each ys body) s)
      with (match body x s with
            | (Ok _, s1) => bind (for_each xs body) (fun _ => for_each ys body) s1
            | (Raise e, s1) => (Raise e, s1)
            end).
    destruct (body x s) as [[[]|e] s1]; [apply IH|done].
Qed.

(** [I] holds after [m] whenever it held before, whether [m] returns or raises. *)
Definition keeps (I : S -> Prop) {A} (m : M S A) : Prop := forall s, I s -> I (m s).2.

Lemma keeps_ret I {A} (a : A) : keeps I (ret a).
Proof. by intros s. Qed.
Lemma keeps_raise I {A} e : keeps I (@raise S A e).
Proof. by intros s. Qed.
Lemma keeps_lift I {A} (r : result A) : keeps I (lift r).
Proof. by intros s. Qed.
Lemma keeps_bind I {A B} (m : M S A) (k : A -> M S B) :
  keeps I m -> (forall a, keeps I (k a)) -> keeps I (bind m k).
Proof.
  intros Hm Hk s Hs. unfold bind. specialize (Hm s Hs).
  destruct (m s) as [[a|e] s1]; cbn [snd] in *; [by apply Hk|done].
Qed.
(** A change of invariant by the first step. *)
Lemma keeps_after {A B} (P I : S -> Prop) (m : M S A) (k : A -> M S B) :
  (forall s, P s -> I (m s).2) -> (forall a, keeps I (k a)) ->
  forall s, P s -> I (bind m k s).2.
Proof.
  intros Hm Hk s Hs. unfold bind. specialize (Hm s Hs).
  destruct (m s) as [[a|e] s1]; cbn [snd] in *; [by apply Hk|done].
Qed.
Lemma ret_Ok {A} (a b : A) (s s' : S) : ret a s = (Ok b, s') -> b = a /\ s' = s.
Proof. by intros [= <- <-]. Qed.
Lemma lift_Ok {A} (r : result A) (a : A) (s s' : S) : lift r s = (Ok a, s') -> r = Ok a /\ s' = s.
Proof. by intros [= <- <-]. Qed.
Lemma modify_Ok (f : S -> S) u (s s' : S) : modify f s = (Ok u, s') -> s' = f s.
Proof. by intros [= <-]. Qed.
Lemma dict_get_Ok {V} (d : gmap string V) k v (s s' : S) :
  dict_get d k s = (Ok v, s') -> d !! k = Some v /\ s' = s.
Proof. unfold dict_get. destruct (d !! k); [by intros [= <- <-]|done]. Qed.
Lemma keeps_dict_get I {V} (d : gmap string V) k : keeps I (dict_get d k).
Proof. unfold dict_get. destruct (d !! k); [apply keeps_ret|apply keeps_raise]. Qed.
End MonadFacts.

Section TrainerFacts.
Context `{Torch}.
Variable dataloaders : gmap string DataLoader.
Variable criterion : outputs_t -> list Z -> loss_t.
Variable optimizer : optimizer_t.
Variable scheduler : option scheduler_t.

(** ** The validation phase and the parameters *)

(** The model is in evaluation mode and holds the parameters [p]. *)
Definition frozen (p : params) (s : trainer) : Prop :=
  state_dict (model (proc s)) = p /\ training (model (proc s)) = false.

Lemma keeps_on_vars p f : keeps (frozen p) (on_vars f).
Proof. by intros s. Qed.
Lemma keeps_print p l : keeps (frozen p) (print l).
Proof. by intros s. Qed.
Lemma keeps_writer_add p e : keeps (frozen p) (writer_add e).
Proof. by intros s. Qed.
Lemma keeps_torch_do p f : keeps (frozen p) (torch_do f).
Proof. by intros s. Qed.
Lemma keeps_torch_run p {A} (m : M engine A) : keeps (frozen p) (torch_run m).
Proof. intros s Hs. unfold torch_run. by destruct (m (torch (proc s))). Qed.
Lemma keeps_get_vars p : keeps (frozen p) get_vars.
Proof. by intros s. Qed.
Lemma keeps_get_model p : keeps (frozen p) get_model.
Proof. by intros s. Qed.
Lemma keeps_call_model p grad images : keeps (frozen p) (call_model grad images).
Proof.
  intros s [Hp Ht]. unfold call_model. rewrite Ht.
  pose proof (forward_eval grad (state_dict (model (proc s))) images (torch (proc s))) as Hf.
  destruct (forward false grad _ images _) as [[out p'] g']; cbn in *. split; cbn; [congruence|done].
Qed.

Lemma keeps_batch_body_val p dl idxs running :
  keeps (frozen p) (batch_body criterion optimizer "val" dl idxs running).
Proof.
  unfold batch_body. destruct running as [rl rc].
  apply keeps_bind; [apply keeps_torch_run|]. intros [images labels].
  apply keeps_bind; [apply keeps_torch_do|]. intros _.
  apply keeps_bind; [apply keeps_call_model|]. intros outputs.
  apply keeps_bind; [apply keeps_ret|]. intros _.
  apply keeps_bind; [apply keeps_lift|]. intros b. apply keeps_ret.
Qed.

Lemma keeps_batch_loop_val p dl batches : forall running,
  keeps (frozen p) (batch_loop criterion optimizer "val" dl batches running).
Proof.
  induction batches as [|idxs batches IH]; intros running; cbn [batch_loop].
  - apply keeps_ret.
  - apply keeps_bind; [apply keeps_batch_body_val|]. intros r. apply IH.
Qed.

Lemma keeps_dict_append p d phase x : keeps (frozen p) (dict_append d phase x).
Proof.
  unfold dict_append. apply keeps_bind; [apply keeps_dict_get|]. intros l. apply keeps_ret.
Qed.

Create HintDb keeps.
#[local] Hint Resolve keeps_ret keeps_raise keeps_lift keeps_dict_get keeps_on_vars keeps_print
  keeps_writer_add keeps_torch_do keeps_torch_run keeps_get_vars keeps_get_model
  keeps_call_model keeps_batch_body_val keeps_batch_loop_val keeps_dict_append : keeps.

(** Walks through a computation, one step of the sequence at a time. *)
Ltac keeps_auto :=
  repeat first
    [ solve [eauto with keeps]
    | apply keeps_bind; [|intros ?]
    | match goal with
      | |- keeps _ (let '(_, _) := ?x in _) => destruct x
      | |- keeps _ (match ?x with _ => _ end) => destruct x
      end ].

(** C4.  The validation phase of an epoch leaves the model's parameters as
    they were, whether the phase completes or an exception stops it; and so
    does any run of validation batches on a model put in evaluation mode:
    the backward pass and the optimizer step are behind [phase == "train"],
    and an evaluation-mode forward pass does not write to the parameters. *)
Theorem validation_phase_keeps_parameters epoch (s : trainer) :
  state_dict (model (proc (phase_body dataloaders criterion optimizer scheduler epoch "val" s).2))
  = state_dict (model (proc s)) /\
  forall dl batches running,
    state_dict (model (proc
      (batch_loop criterion optimizer "val" dl batches running (set_training false s).2).2))
    = state_dict (model (proc s)).
Proof.
  set (p := state_dict (model (proc s))). split.
  - enough (frozen p (phase_body dataloaders criterion optimizer scheduler epoch "val" s).2)
      as [Hp _] by exact Hp.
    unfold phase_body.
    apply (keeps_after (fun s => state_dict (model (proc s)) = p) (frozen p));
      [by intros s0| |done].
    intros _. keeps_auto.
  - intros dl batches running.
    enough (frozen p (batch_loop criterion optimizer "val" dl batches running
                        (set_training false s).2).2) as [Hp _] by exact Hp.
    by apply keeps_batch_loop_val.
Qed.

(** ** What a completed phase has done *)

(** The local variables and the output are as given. *)
Definition quiet (v : locals) (o : list line) (s : trainer) : Prop :=
  vars s = v /\ stdout (proc s) = o.

Lemma quiet_torch_do v o f : keeps (quiet v o) (torch_do f).
Proof. by intros s. Qed.
Lemma quiet_torch_run v o {A} (m : M engine A) : keeps (quiet v o) (torch_run m).
Proof. intros s Hs. unfold torch_run. by destruct (m (torch (proc s))). Qed.
Lemma quiet_call_model v o grad images : keeps (quiet v o) (call_model grad images).
Proof.
  intros s Hs. unfold call_model.
  by destruct (forward _ grad _ images _) as [[out p'] g'].
Qed.
Lemma quiet_step v o : keeps (quiet v o) (step optimizer).
Proof. intros s Hs. unfold step. by destruct (optimizer_step _ _ _) as [p' g']. Qed.

#[local] Hint Resolve quiet_torch_do quiet_torch_run quiet_call_model quiet_step : keeps.

Lemma quiet_batch_body v o phase dl idxs running :
  keeps (quiet v o) (batch_body criterion optimizer phase dl idxs running).
Proof. unfold batch_body. keeps_auto. Qed.

Lemma quiet_batch_loop v o phase dl batches : forall running,
  keeps (quiet v o) (batch_loop criterion optimizer phase dl batches running).
Proof.
  induction batches as [|idxs batches IH]; intros running; cbn [batch_loop].
  - apply keeps_ret.
  - apply keeps_bind; [apply quiet_batch_body|]. intros r. apply IH.
Qed.

(** A result that satisfies [Q] whenever the computation returns. *)
Definition returns {A} (m : M trainer A) (Q : A -> Prop) : Prop :=
  forall s a s', m s = (Ok a, s') -> Q a.

Lemma returns_bind {A B} (m : M trainer A) (k : A -> M trainer B) Q :
  (forall a, returns (k a) Q) -> returns (bind m k) Q.
Proof. intros Hk s b s' Hb. apply bind_Ok in Hb as (a & s1 & _ & Hb). by eapply Hk. Qed.

Lemma returns_ret {A} (a : A) (Q : A -> Prop) : Q a -> returns (ret a) Q.
Proof. by intros Ha s b s' [= <- _]. Qed.

Definition counter_value (c : counter) : Z :=
  match c with PyInt n | Tensor n => n end.

Lemma count_equal_nonneg preds : forall labels, 0 <= count_equal preds labels.
Proof.
  induction preds as [|p preds IH]; intros [|l labels]; cbn [count_equal]; try lia.
  specialize (IH labels). destruct (p =? l); lia.
Qed.

Lemma batch_body_counter phase dl idxs running :
  0 <= counter_value running.2 ->
  returns (batch_body criterion optimizer phase dl idxs running)
    (fun r => 0 <= counter_value r.2).
Proof.
  intros Hc. unfold batch_body. destruct running as [rl rc].
  apply returns_bind. intros [images labels].
  do 3 (apply returns_bind; intros ?).
  apply returns_bind. intros b. apply returns_ret. cbn [snd] in *.
  pose proof (count_equal_nonneg (argmax a0) labels).
  destruct rc; cbn in *; lia.
Qed.

Lemma batch_loop_counter phase dl batches : forall running,
  0 <= counter_value running.2 ->
  returns (batch_loop criterion optimizer phase dl batches running)
    (fun r => 0 <= counter_value r.2).
Proof.
  induction batches as [|idxs batches IH]; intros running Hc; cbn [batch_loop].
  - by apply returns_ret.
  - intros s r s' Hr. apply bind_Ok in Hr as (r1 & s1 & H1 & Hr).
    apply batch_body_counter in H1; [|done]. by eapply IH.
Qed.

Lemma batch_loop_Ok phase dl batches running s r s' :
  batch_loop criterion optimizer phase dl batches running s = (Ok r, s') ->
  0 <= counter_value running.2 ->
  vars s' = vars s /\ stdout (proc s') = stdout (proc s) /\ 0 <= counter_value r.2.
Proof.
  intros Hr Hc.
  pose proof (quiet_batch_loop (vars s) (stdout (proc s)) phase dl batches running s
                (conj eq_refl eq_refl)) as Hq.
  rewrite Hr in Hq. destruct Hq as [Hv Ho].
  repeat split; [done|done|]. by eapply batch_loop_counter.
Qed.

Lemma torch_run_Ok {A} (m : M engine A) a s s' :
  torch_run m s = (Ok a, s') -> vars s' = vars s /\ stdout (proc s') = stdout (proc s).
Proof.
  intros Hr.
  pose proof (quiet_torch_run (vars s) (stdout (proc s)) m s (conj eq_refl eq_refl)) as Hq.
  by rewrite Hr in Hq.
Qed.

Lemma dict_append_Ok d phase x d' (s s' : trainer) :
  dict_append d phase x s = (Ok d', s') ->
  exists l, d !! phase = Some l /\ d' = <[phase := l ++ [x] ]> d /\ s' = s.
Proof.
  unfold dict_append. intros Hr. apply bind_Ok in Hr as (l & s1 & H1 & Hr).
  apply dict_get_Ok in H1 as [Hl ->]. apply ret_Ok in Hr as [-> ->]. eauto.
Qed.

Lemma float_div_int_Ok x n y : float_div_int x n = Ok y -> n <> 0.
Proof. unfold float_div_int. destruct (Z.eqb_spec n 0); [done|auto]. Qed.

Lemma double_div_int_Ok c n a :
  double_div_int c n = Ok a -> exists k, c = Tensor k.
Proof. destruct c; [done|eauto]. Qed.


(** Steps that only rewrite the state. *)
Ltac inv_modify H :=
  unfold print, writer_add, os_do, os_makedirs, torch_do, set_training,
    load_state_dict, on_vars, on_proc in H;
  apply modify_Ok in H; subst.

Lemma phase_body_Ok epoch phase s s' :
  phase_body dataloaders criterion optimizer scheduler epoch phase s = (Ok tt, s') ->
  exists loss a l k n,
    0 <= k /\ 0 < n /\ double_div_int (Tensor k) n = Ok a /\
    train_val_acc (vars s) !! phase = Some l /\
    train_val_acc (vars s') = <[phase := l ++ [a] ]> (train_val_acc (vars s)) /\
    (let improved := String.eqb phase "val" && fgt a (best_acc (vars s)) in
     best_acc (vars s') = (if improved then a else best_acc (vars s)) /\
     best_model_wts (vars s') =
       (if improved then state_dict (model (proc s')) else best_model_wts (vars s)) /\
     stdout (proc s') =
       stdout (proc s) ++ PhaseMetrics phase loss a ::
         (if improved then [Text "New best model!"] else [])).
Proof.
  intros Hrun. unfold phase_body in Hrun.
  apply bind_Ok in Hrun as (u & s1 & H1 & Hrun). inv_modify H1.
  apply bind_Ok in Hrun as (dl & s2 & H2 & Hrun). apply dict_get_Ok in H2 as [Hdl ->].
  apply bind_Ok in Hrun as (batches & s3 & H3 & Hrun). apply torch_run_Ok in H3 as [Hv3 Ho3].
  apply bind_Ok in Hrun as ([rl rc] & s4 & H4 & Hrun).
  apply batch_loop_Ok in H4 as (Hv4 & Ho4 & Hc); [|done]. cbn [snd] in Hc.
  apply bind_Ok in Hrun as (u5 & s5 & H5 & Hrun).
  assert (Hq5 : vars s5 = vars s4 /\ stdout (proc s5) = stdout (proc s4)).
  { destruct scheduler as [sch|]; [destruct (String.eqb phase "train")|].
    - inv_modify H5. done.
    - by apply ret_Ok in H5 as [_ ->].
    - by apply ret_Ok in H5 as [_ ->]. }
  destruct Hq5 as [Hv5 Ho5]. clear H5.
  apply bind_Ok in Hrun as (dl6 & s6 & H6 & Hrun). apply dict_get_Ok in H6 as [Hdl6 ->].
  apply bind_Ok in Hrun as (epoch_loss & s7 & H7 & Hrun). apply lift_Ok in H7 as [Hloss ->].
  apply bind_Ok in Hrun as (v8 & s8 & H8 & Hrun). injection H8 as <- <-.
  apply bind_Ok in Hrun as (losses & s9 & H9 & Hrun).
  apply dict_append_Ok in H9 as (ll & Hll & -> & ->).
  apply bind_Ok in Hrun as (u10 & s10 & H10 & Hrun). inv_modify H10.
  apply bind_Ok in Hrun as (u11 & s11 & H11 & Hrun). inv_modify H11.
  apply bind_Ok in Hrun as (dl12 & s12 & H12 & Hrun). apply dict_get_Ok in H12 as [Hdl12 ->].
  apply bind_Ok in Hrun as (epoch_acc & s13 & H13 & Hrun). apply lift_Ok in H13 as [Hacc ->].
  apply bind_Ok in Hrun as (v14 & s14 & H14 & Hrun). injection H14 as <- <-.
  apply bind_Ok in Hrun as (accs & s15 & H15 & Hrun).
  apply dict_append_Ok in H15 as (la & Hla & -> & ->).
  apply bind_Ok in Hrun as (u16 & s16 & H16 & Hrun). inv_modify H16.
  apply bind_Ok in Hrun as (u17 & s17 & H17 & Hrun). inv_modify H17.
  apply bind_Ok in Hrun as (u18 & s18 & H18 & Hrun). inv_modify H18.
  apply bind_Ok in Hrun as (u19 & s19 & H19 & Hrun). inv_modify H19.
  apply bind_Ok in Hrun as (v20 & s20 & H20 & Hrun). injection H20 as <- <-.
  cbn [vars proc best_acc] in Hrun, Hla.
  rewrite Hdl in Hdl6, Hdl12. injection Hdl6 as <-. injection Hdl12 as <-.
  destruct (double_div_int_Ok _ _ _ Hacc) as [k ->]. cbn [counter_value] in Hc.
  apply float_div_int_Ok in Hloss.
  exists epoch_loss, epoch_acc, la, k, (Z.of_nat (SignLanguageMNIST.__len__ (dataset dl))).
  split; [done|]. split; [lia|]. split; [done|].
  rewrite Hv5, Hv4, Hv3 in *. cbn [vars proc] in *.
  split; [done|].
  cbn [stdout with_model] in Ho3.
  assert (Ho : stdout (proc s5) = stdout (proc s)) by congruence.
  destruct (String.eqb phase "val" && fgt epoch_acc (best_acc (vars s))) eqn:Eimp.
  - apply bind_Ok in Hrun as (m21 & s21 & H21 & Hrun). injection H21 as <- <-.
    apply bind_Ok in Hrun as (u22 & s22 & H22 & Hrun). inv_modify H22.
    inv_modify Hrun. cbn. rewrite Ho. repeat split; try done. by rewrite <- app_assoc.
  - apply ret_Ok in Hrun as [_ ->]. cbn. by rewrite Ho.
Qed.


(** The validation accuracies logged so far. *)
Definition val_accs (s : trainer) : list float :=
  default [] (train_val_acc (vars s) !! "val").

(** The checkpoint decision taken with the validation accuracy [a]: whether
    the retained copy was replaced, as the local variables and the printed
    lines show it. *)
Definition checkpoint_rule (before after : trainer) (a : float) : Prop :=
  exists lines,
    stdout (proc after) = stdout (proc before) ++ lines /\
    if fgt a (best_acc (vars before))
    then best_acc (vars after) = a /\
         best_model_wts (vars after) = state_dict (model (proc after)) /\
         Text "New best model!" ∈ lines
    else best_acc (vars after) = best_acc (vars before) /\
         best_model_wts (vars after) = best_model_wts (vars before) /\
         Text "New best model!" ∉ lines.

Lemma epoch_body_Ok epoch s s' :
  epoch_body dataloaders criterion optimizer scheduler epoch s = (Ok tt, s') ->
  exists a l,
    train_val_acc (vars s) !! "val" = Some l /\
    val_accs s' = l ++ [a] /\
    FloatFacts.nonneg a /\
    checkpoint_rule s s' a.
Proof.
  intros Hrun. unfold epoch_body in Hrun.
  apply bind_Ok in Hrun as (u1 & s1 & H1 & Hrun). inv_modify H1.
  apply bind_Ok in Hrun as (u2 & s2 & H2 & Hrun). inv_modify H2.
  apply bind_Ok in Hrun as (u3 & s3 & H3 & Hrun).
  cbn [for_each] in H3.
  apply bind_Ok in H3 as (u4 & s4 & Htrain & H3).
  apply bind_Ok in H3 as (u5 & s5 & Hval & H3).
  apply ret_Ok in H3 as [_ ->]. destruct u4, u5.
  apply phase_body_Ok in Htrain
    as (loss_t & acc_t & lt & kt & nt & _ & _ & _ & Hlt & Hacc_t & Hbest_t & Hwts_t & Hout_t).
  apply phase_body_Ok in Hval
    as (loss_v & a & l & k & n & Hk & Hn & Ha & Hl & Hacc_v & Hbest_v & Hwts_v & Hout_v).
  cbn [String.eqb Ascii.eqb Bool.eqb andb] in Hbest_t, Hwts_t, Hout_t, Hbest_v, Hwts_v, Hout_v.
  cbn [vars proc stdout] in *.
  apply bind_Ok in Hrun as (v6 & s6 & H6 & Hrun). injection H6 as <- <-.
  apply bind_Ok in Hrun as (u7 & s7 & H7 & Hrun). inv_modify H7.
  apply bind_Ok in Hrun as (u8 & s8 & H8 & Hrun). inv_modify H8.
  inv_modify Hrun. cbn [vars proc stdout model].
  rewrite Hacc_t, lookup_insert_ne in Hl by done.
  exists a, l. split; [done|]. split.
  { unfold val_accs. cbn [vars]. by rewrite Hacc_v, lookup_insert_eq. }
  split; [by eapply FloatFacts.double_div_int_nonneg|].
  unfold checkpoint_rule. cbn [vars proc stdout model].
  rewrite Hbest_t, Hwts_t in *.
  exists ([EpochHeader epoch; Text "----------"; PhaseMetrics "train" loss_t acc_t;
           PhaseMetrics "val" loss_v a]
          ++ (if fgt a (best_acc (vars s)) then [Text "New best model!"] else [])
          ++ [Text EmptyString]).
  split.
  { rewrite Hout_v, Hout_t. rewrite <- ?app_assoc. cbn. by rewrite <- ?app_assoc. }
  destruct (fgt a (best_acc (vars s))).
  - repeat split; [done|done|]. apply list_elem_of_In. cbn. auto 10.
  - repeat split; [done|done|]. intros Hin. apply list_elem_of_In in Hin.
    cbn in Hin. intuition discriminate.
Qed.


(** ** The epoch loop *)

(** The state in which the epoch loop is entered: the banner is printed and
    the local variables hold their initial values. *)
Definition start (s : trainer) : trainer :=
  {| proc :=
       {| model := model (proc s); torch := torch (proc s); writer := writer (proc s);
          stdout := stdout (proc s) ++
            [Text (String.append "Start training " (class_name (model (proc s))))];
          os_log := os_log (proc s); dirs := dirs (proc s) |};
     vars :=
       {| best_model_wts := state_dict (model (proc s)); best_acc := fzero;
          train_val_loss := <["val" := [] ]> (<["train" := [] ]> ∅);
          train_val_acc := <["val" := [] ]> (<["train" := [] ]> ∅);
          train_val_loss_dict := ∅; train_val_acc_dict := ∅ |} |}.

(** The first [k] epochs of a run that starts in [s]. *)
Definition after_epochs (k : nat) (s : trainer) : result unit * trainer :=
  for_each (range 1 (Z.of_nat k + 1))
    (epoch_body dataloaders criterion optimizer scheduler) (start s).

Lemma range_succ (n : nat) :
  range 1 (Z.of_nat (S n) + 1) = range 1 (Z.of_nat n + 1) ++ [Z.of_nat (S n)].
Proof.
  unfold range.
  replace (Z.to_nat (Z.of_nat (S n) + 1 - 1)) with (S n) by lia.
  replace (Z.to_nat (Z.of_nat n + 1 - 1)) with n by lia.
  rewrite seq_S, map_app. cbn [map]. do 2 f_equal. lia.
Qed.

Lemma after_epochs_succ k s s' :
  after_epochs (S k) s = (Ok tt, s') ->
  exists s_k, after_epochs k s = (Ok tt, s_k) /\
    epoch_body dataloaders criterion optimizer scheduler (Z.of_nat (S k)) s_k = (Ok tt, s').
Proof.
  unfold after_epochs. rewrite range_succ, for_each_app. intros Hrun.
  apply bind_Ok in Hrun as ([] & s_k & Hk & Hrun). exists s_k. split; [done|].
  cbn [for_each] in Hrun. apply bind_Ok in Hrun as ([] & s1 & H1 & Hrun).
  by apply ret_Ok in Hrun as [_ ->].
Qed.

Lemma after_epochs_succ_intro k s s_k s' :
  after_epochs k s = (Ok tt, s_k) ->
  epoch_body dataloaders criterion optimizer scheduler (Z.of_nat (S k)) s_k = (Ok tt, s') ->
  after_epochs (S k) s = (Ok tt, s').
Proof.
  unfold after_epochs. intros Hk Hbody. rewrite range_succ, for_each_app.
  unfold bind at 1. rewrite Hk. cbn [for_each]. unfold bind. by rewrite Hbody.
Qed.

Lemma train_Ok save num_epochs plot s m s' :
  train dataloaders criterion optimizer scheduler save num_epochs plot s = (Ok m, s') ->
  exists s_n,
    after_epochs (Z.to_nat num_epochs) s = (Ok tt, s_n) /\
    vars s' = vars s_n /\
    m = model (proc s') /\
    state_dict m = best_model_wts (vars s_n).
Proof.
  intros Hrun. unfold train in Hrun.
  apply bind_Ok in Hrun as (m0 & s0 & H0 & Hrun). injection H0 as <- <-.
  apply bind_Ok in Hrun as (u1 & s1 & H1 & Hrun). inv_modify H1.
  apply bind_Ok in Hrun as (u2 & s2 & H2 & Hrun). inv_modify H2.
  apply bind_Ok in Hrun as ([] & s_n & Hloop & Hrun).
  exists s_n. split.
  { unfold after_epochs. rewrite <- Hloop. f_equal. unfold range.
    replace (Z.to_nat (Z.of_nat (Z.to_nat num_epochs) + 1 - 1))
      with (Z.to_nat (num_epochs + 1 - 1)) by lia.
    reflexivity. }
  apply bind_Ok in Hrun as (v & s3 & H3 & Hrun). injection H3 as <- <-.
  apply bind_Ok in Hrun as (u4 & s4 & H4 & Hrun).
  assert (E4 : vars s4 = vars s_n).
  { destruct plot; [by inv_modify H4|by apply ret_Ok in H4 as [_ ->]]. }
  clear H4.
  apply bind_Ok in Hrun as (u5 & s5 & H5 & Hrun). inv_modify H5.
  apply bind_Ok in Hrun as (u6 & s6 & H6 & Hrun).
  assert (E6 : vars s6 = vars s_n /\ model (proc s6) =
                {| class_name := class_name (model (proc s4));
                   state_dict := best_model_wts (vars s_n);
                   training := training (model (proc s4)) |}).
  { destruct save; [|by apply ret_Ok in H6 as [_ ->]].
    apply bind_Ok in H6 as (p7 & s7 & H7 & H6). injection H7 as <- <-.
    apply bind_Ok in H6 as (u8 & s8 & H8 & H6).
    assert (E8 : vars s8 = vars s_n /\ model (proc s8) =
                  {| class_name := class_name (model (proc s4));
                     state_dict := best_model_wts (vars s_n);
                     training := training (model (proc s4)) |}).
    { destruct (negb _); [by inv_modify H8|by apply ret_Ok in H8 as [_ ->]]. }
    clear H8. destruct E8 as [E8v E8m].
    apply bind_Ok in H6 as (m9 & s9 & H9 & H6). injection H9 as <- <-.
    apply bind_Ok in H6 as (u10 & s10 & H10 & H6). inv_modify H10.
    inv_modify H6. by cbn. }
  destruct E6 as [E6v E6m].
  injection Hrun as <- <-. rewrite E6m. by cbn.
Qed.


Lemma after_epochs_0 s : after_epochs 0 s = (Ok tt, start s).
Proof. reflexivity. Qed.

Lemma val_accs_start s : val_accs (start s) = [].
Proof. unfold val_accs, start. cbn [vars train_val_acc]. by rewrite lookup_insert_eq. Qed.

Lemma val_accs_lookup s l : train_val_acc (vars s) !! "val" = Some l -> val_accs s = l.
Proof. unfold val_accs. by intros ->. Qed.

(** One entry per epoch, and the checkpoint rule at each of them. *)
Lemma after_epochs_history n : forall s s_n,
  after_epochs n s = (Ok tt, s_n) ->
  length (val_accs s_n) = n /\
  forall k, (1 <= k <= n)%nat ->
    exists before after a,
      after_epochs (k - 1) s = (Ok tt, before) /\
      after_epochs k s = (Ok tt, after) /\
      val_accs s_n !! (k - 1)%nat = Some a /\
      checkpoint_rule before after a.
Proof.
  induction n as [|n IH]; intros s s_n Hrun.
  - rewrite after_epochs_0 in Hrun. injection Hrun as <-.
    rewrite val_accs_start. split; [done|]. intros k Hk. lia.
  - apply after_epochs_succ in Hrun as (s0 & Hrun0 & Hbody).
    destruct (IH s s0 Hrun0) as [Hlen Hhist].
    destruct (epoch_body_Ok _ _ _ Hbody) as (a & l & Hl & Haccs & Ha & Hrule).
    apply val_accs_lookup in Hl. rewrite Hl in *. rewrite Haccs.
    split; [rewrite length_app; cbn; lia|].
    intros k Hk. destruct (decide (k = S n)) as [->|Hne].
    + exists s0, s_n, a. replace (S n - 1)%nat with n by lia.
      split; [done|]. split; [by eapply after_epochs_succ_intro|].
      split; [|done]. rewrite lookup_app_r by lia.
      by replace (n - length l)%nat with 0%nat by lia.
    + destruct (Hhist k) as (before & after & a_k & Hb & Haf & Hlk & Hr); [lia|].
      exists before, after, a_k. repeat split; try done.
      by apply lookup_app_l_Some.
Qed.


(** Where the retained checkpoint of [s_n] comes from, in a run of [n]
    epochs started in [s]: an epoch whose logged accuracy is the retained
    one, or the initial parameters with the initial [0.0]. *)
Definition checkpoint_origin (s : trainer) (n : nat) (s_n : trainer) : Prop :=
  (exists k after,
     (1 <= k <= n)%nat /\
     after_epochs k s = (Ok tt, after) /\
     val_accs s_n !! (k - 1)%nat = Some (best_acc (vars s_n)) /\
     best_model_wts (vars s_n) = state_dict (model (proc after)))
  \/ (best_acc (vars s_n) = fzero /\
      best_model_wts (vars s_n) = state_dict (model (proc s)) /\
      forall a, a ∈ val_accs s_n -> a = fzero).

Lemma after_epochs_best n : forall s s_n,
  after_epochs n s = (Ok tt, s_n) ->
  FloatFacts.nonneg (best_acc (vars s_n)) /\
  (forall a, a ∈ val_accs s_n -> fle a (best_acc (vars s_n)) = true) /\
  checkpoint_origin s n s_n.
Proof.
  induction n as [|n IH]; intros s s_n Hrun.
  - rewrite after_epochs_0 in Hrun. injection Hrun as <-.
    split; [done|]. split.
    + rewrite val_accs_start. by intros a Ha%elem_of_nil.
    + right. rewrite val_accs_start. repeat split; try done. by intros a Ha%elem_of_nil.
  - destruct (after_epochs_succ _ _ _ Hrun) as (s0 & Hrun0 & Hbody).
    destruct (IH s s0 Hrun0) as (Hnn & Hle & Horigin).
    destruct (after_epochs_history _ _ _ Hrun0) as [Hlen _].
    apply epoch_body_Ok in Hbody as (a & l & Hl & Haccs & Ha & lines & _ & Hrule).
    apply val_accs_lookup in Hl. rewrite Hl in *. rewrite Haccs.
    unfold checkpoint_origin. rewrite Haccs.
    destruct (fgt a (best_acc (vars s0))) eqn:Hgt.
    + destruct Hrule as (Hb' & Hw' & _). rewrite Hb', Hw'.
      split; [done|]. split.
      * intros x [Hx|Hx]%elem_of_app.
        -- eapply FloatFacts.fle_trans; [by apply Hle|by apply FloatFacts.fgt_fle].
        -- apply list_elem_of_singleton in Hx as ->.
           by apply FloatFacts.fle_refl, FloatFacts.nonneg_not_nan.
      * left. exists (S n), s_n. split; [lia|]. split; [done|]. split; [|done].
        replace (S n - 1)%nat with n by lia. rewrite lookup_app_r by lia.
        by replace (n - length l)%nat with 0%nat by lia.
    + destruct Hrule as (Hb' & Hw' & _). rewrite Hb', Hw'.
      split; [done|]. split.
      * intros x [Hx|Hx]%elem_of_app; [by apply Hle|].
        apply list_elem_of_singleton in Hx as ->.
        by apply FloatFacts.not_fgt_fle; [apply FloatFacts.nonneg_not_nan..|].
      * destruct Horigin as [(k & after & Hk & Hafter & Hlk & Hwts)|(Hb & Hw & Hz)].
        -- left. exists k, after. split; [lia|]. split; [done|]. split; [|done].
           rewrite Hl in Hlk. by apply lookup_app_l_Some.
        -- right. split; [done|]. split; [done|]. rewrite Hl in Hz.
           intros x [Hx|Hx]%elem_of_app; [by apply Hz|].
           apply list_elem_of_singleton in Hx as ->.
           rewrite Hb in Hgt. by apply FloatFacts.nonneg_not_fgt_zero.
Qed.

(** As long as no logged validation accuracy exceeds [0.0], the checkpoint
    is the initial one. *)
Lemma after_epochs_never_better n : forall s s_n,
  after_epochs n s = (Ok tt, s_n) ->
  (forall a, a ∈ val_accs s_n -> fgt a fzero = false) ->
  best_acc (vars s_n) = fzero /\
  best_model_wts (vars s_n) = state_dict (model (proc s)).
Proof.
  induction n as [|n IH]; intros s s_n Hrun Hnone.
  - rewrite after_epochs_0 in Hrun. by injection Hrun as <-.
  - destruct (after_epochs_succ _ _ _ Hrun) as (s0 & Hrun0 & Hbody).
    apply epoch_body_Ok in Hbody as (a & l & Hl & Haccs & Ha & lines & _ & Hrule).
    apply val_accs_lookup in Hl. rewrite Haccs in Hnone.
    destruct (IH s s0 Hrun0) as [Hb Hw].
    { intros x Hx. apply Hnone, elem_of_app. left. by rewrite <- Hl. }
    rewrite Hb, (Hnone a) in Hrule by (apply elem_of_app; right; by apply list_elem_of_singleton).
    destruct Hrule as (Hb' & Hw' & _). by rewrite Hb', Hw'.
Qed.


Lemma train_Ok_vars save num_epochs plot s m :
  (train dataloaders criterion optimizer scheduler save num_epochs plot s).1 = Ok m ->
  exists s_n,
    after_epochs (Z.to_nat num_epochs) s = (Ok tt, s_n) /\
    vars (train dataloaders criterion optimizer scheduler save num_epochs plot s).2 = vars s_n /\
    state_dict m = best_model_wts (vars s_n).
Proof.
  destruct (train dataloaders criterion optimizer scheduler save num_epochs plot s)
    as [r s'] eqn:E. cbn [fst snd]. intros ->.
  apply train_Ok in E as (s_n & Hrun & Hv & _ & Hwts). eauto.
Qed.

(** C3.  In a completed run, one validation accuracy is logged per epoch; at
    every epoch the retained checkpoint is replaced by the current
    parameters (and "New best model!" is printed) exactly when that epoch's
    validation accuracy is greater than the best so far, and is left alone
    otherwise.  The returned model carries the retained checkpoint; the
    accuracy retained with it is at least every logged validation accuracy;
    and the checkpoint is the parameter state of an epoch that logged this
    accuracy, or, when no epoch exceeded [0.0], the initial parameters. *)
Theorem train_returns_best_checkpoint save num_epochs plot (s : trainer) (m : Module_) :
  (train dataloaders criterion optimizer scheduler save num_epochs plot s).1 = Ok m ->
  let s' := (train dataloaders criterion optimizer scheduler save num_epochs plot s).2 in
  length (val_accs s') = Z.to_nat num_epochs /\
  (forall k, (1 <= k <= Z.to_nat num_epochs)%nat ->
     exists before after a,
       after_epochs (k - 1) s = (Ok tt, before) /\
       after_epochs k s = (Ok tt, after) /\
       val_accs s' !! (k - 1)%nat = Some a /\
       checkpoint_rule before after a) /\
  state_dict m = best_model_wts (vars s') /\
  (forall a, a ∈ val_accs s' -> fle a (best_acc (vars s')) = true) /\
  checkpoint_origin s (Z.to_nat num_epochs) s'.
Proof.
  intros Hm s'. destruct (train_Ok_vars _ _ _ _ _ Hm) as (s_n & Hrun & Hv & Hwts).
  fold s' in Hv.
  destruct (after_epochs_history _ _ _ Hrun) as [Hlen Hhist].
  destruct (after_epochs_best _ _ _ Hrun) as (_ & Hle & Horigin).
  unfold checkpoint_origin, val_accs in *. rewrite Hv. done.
Qed.

(** C10.  When no logged validation accuracy of a completed run is greater
    than [0.0], the returned model carries the parameters the model had when
    [train] was called. *)
Theorem train_without_improvement_returns_initial save num_epochs plot
    (s : trainer) (m : Module_) :
  (train dataloaders criterion optimizer scheduler save num_epochs plot s).1 = Ok m ->
  (forall a,
     a ∈ val_accs (train dataloaders criterion optimizer scheduler save num_epochs plot s).2 ->
     fgt a fzero = false) ->
  state_dict m = state_dict (model (proc s)).
Proof.
  intros Hm Hnone. destruct (train_Ok_vars _ _ _ _ _ Hm) as (s_n & Hrun & Hv & Hwts).
  unfold val_accs in Hnone. rewrite Hv in Hnone.
  destruct (after_epochs_never_better _ _ _ Hrun Hnone) as [_ Hw]. congruence.
Qed.

(** C5.  With [num_epochs = 0], [train] returns the model it was given,
    with the same parameters; the per-phase loss and accuracy lists are
    empty and nothing is sent to the writer. *)
Theorem train_zero_epochs save plot (s : trainer) :
  let r := train dataloaders criterion optimizer scheduler save 0 plot s in
  r.1 = Ok (model (proc s)) /\
  model (proc r.2) = model (proc s) /\
  train_val_loss (vars r.2) = <["val" := [] ]> (<["train" := [] ]> ∅) /\
  train_val_acc (vars r.2) = <["val" := [] ]> (<["train" := [] ]> ∅) /\
  writer (proc r.2) = writer (proc s).
Proof.
  destruct s as [[[name wts mode] g w o l d] v].
  unfold train. change (range 1 (0 + 1)) with (@nil Z).
  unfold bind. cbn -[str_in].
  destruct plot, save; cbn -[str_in]; try done.
  all: by destruct (str_in SAVE_MODEL_DIR d).
Qed.

End TrainerFacts.

(* ===================================================================== *)
(** * Sample order of the loaders *)
(* ===================================================================== *)

Section LoaderOrder.
Context `{NumPyRandom} `{Torch}.
Variable TRAIN_DATASET_PATH : string.
Variable VAL_SPLIT : float.
Variable SHUFFLE : bool.
Variable TRAIN_BATCH_SIZE : Z.
Variable TRAIN_NUM_WORKERS : Z.
Variable TEST_DATASET_PATH : string.
Variable TEST_BATCH_SIZE : Z.
Variable TEST_NUM_WORKERS : Z.

Lemma DataLoader__init___Ok ds bs sh workers (w w' : world) dl :
  DataLoader__init__ ds bs sh workers w = (Ok dl, w') ->
  dataset dl = ds /\ shuffle dl = sh.
Proof.
  unfold DataLoader__init__.
  destruct (workers <? 0); [done|].
  destruct (sh && (SignLanguageMNIST.__len__ ds =? 0)%nat); [done|].
  destruct (bs <=? 0); [done|].
  by intros [= <- _].
Qed.

(** A comprehension over two keys, taken apart. *)
Lemma dict_comprehension_pair {S V} (k1 k2 : string) (f : string -> M S V) s d s' :
  dict_comprehension [k1; k2] f s = (Ok d, s') ->
  exists v1 s1 v2,
    f k1 s = (Ok v1, s1) /\ f k2 s1 = (Ok v2, s') /\
    d = <[k2 := v2]> (<[k1 := v1]> ∅).
Proof.
  unfold dict_comprehension. cbn [dict_fill]. intros Hrun.
  apply bind_Ok in Hrun as (v1 & s1 & H1 & Hrun).
  apply bind_Ok in Hrun as (v2 & s2 & H2 & Hrun).
  apply ret_Ok in Hrun as [-> ->]. eauto 7.
Qed.

Lemma train_val_loader_shuffles x (w w' : world) dl :
  (let* datasets := get_train_val_datasets VAL_SPLIT SHUFFLE TRAIN_DATASET_PATH in
   let* ds := dict_get datasets x in
   DataLoader__init__ ds TRAIN_BATCH_SIZE true TRAIN_NUM_WORKERS) w = (Ok dl, w') ->
  shuffle dl = true.
Proof.
  intros Hrun.
  apply bind_Ok in Hrun as (dss & w1 & _ & Hrun).
  apply bind_Ok in Hrun as (ds & w2 & _ & Hrun).
  by apply DataLoader__init___Ok in Hrun as [_ ?].
Qed.

(** C2, as the code has it.  The loaders of both the training and the
    validation phase are built with [shuffle=True]: each pass visits the
    samples in a permutation freshly drawn from the generator.  Only the
    test loader keeps the dataset order, and it leaves the generator
    untouched. *)
Theorem loader_sample_order (w : world) :
  (forall dls,
     (get_train_val_loaders TRAIN_DATASET_PATH VAL_SPLIT SHUFFLE
        TRAIN_BATCH_SIZE TRAIN_NUM_WORKERS w).1 = Ok dls ->
     forall x, x ∈ ["train"; "val"] ->
     exists dl,
       dls !! x = Some dl /\ shuffle dl = true /\
       forall g, sampler dl g =
         (Ok (randperm (SignLanguageMNIST.__len__ (dataset dl)) g).1,
          (randperm (SignLanguageMNIST.__len__ (dataset dl)) g).2)) /\
  (forall dl,
     (get_test_loader TEST_DATASET_PATH TEST_BATCH_SIZE TEST_NUM_WORKERS w).1 = Ok dl ->
     shuffle dl = false /\
     forall g, sampler dl g = (Ok (seq 0 (SignLanguageMNIST.__len__ (dataset dl))), g)).
Proof.
  split.
  - intros dls Hrun x Hx.
    destruct (get_train_val_loaders _ _ _ _ _ w) as [r w'] eqn:E.
    cbn [fst] in Hrun. subst r. unfold get_train_val_loaders in E.
    apply dict_comprehension_pair in E as (v1 & w1 & v2 & H1 & H2 & ->).
    apply train_val_loader_shuffles in H1, H2.
    assert (Hs : forall dl, shuffle dl = true -> forall g, sampler dl g =
      (Ok (randperm (SignLanguageMNIST.__len__ (dataset dl)) g).1,
       (randperm (SignLanguageMNIST.__len__ (dataset dl)) g).2)).
    { intros dl Hdl g. unfold sampler. rewrite Hdl. by destruct (randperm _ g). }
    apply elem_of_cons in Hx as [->|Hx].
    + exists v1. rewrite lookup_insert_ne, lookup_insert_eq by done. auto.
    + apply list_elem_of_singleton in Hx as ->.
      exists v2. rewrite lookup_insert_eq. auto.
  - intros dl Hrun.
    destruct (get_test_loader _ _ _ w) as [r w'] eqn:E.
    cbn [fst] in Hrun. subst r. unfold get_test_loader in E.
    apply bind_Ok in E as (ds & w1 & _ & E).
    apply DataLoader__init___Ok in E as [_ Hsh].
    split; [done|]. intros g. unfold sampler. by rewrite Hsh.
Qed.

End LoaderOrder.

(* ===================================================================== *)
(** * The split without shuffling *)
(* ===================================================================== *)

Section UnshuffledSplit.
Context `{NumPyRandom}.

Lemma take_rows_seq {A} (a : list A) (m : nat) : forall i : nat,
  (i + m <= length a)%nat -> take_rows a (seq i m) = Ok (take m (drop i a)).
Proof.
  induction m as [|m IH]; intros i Hi; [done|].
  cbn [seq take_rows].
  destruct (lookup_lt_is_Some_2 a i) as [x Hx]; [lia|].
  rewrite Hx, IH by lia. by rewrite (drop_S a x i Hx).
Qed.

Lemma take_rows_slice_to {A} (a : list A) (k : Z) :
  take_rows a (slice_to k (seq 0 (length a))) = Ok (slice_to k a).
Proof.
  unfold slice_to. rewrite length_seq, take_seq.
  pose proof (clip_le k (length a)).
  rewrite take_rows_seq by lia. rewrite drop_0. f_equal. f_equal. lia.
Qed.

Lemma take_rows_slice_from {A} (a : list A) (k : Z) :
  take_rows a (slice_from k (seq 0 (length a))) = Ok (slice_from k a).
Proof.
  unfold slice_from. rewrite length_seq, drop_seq.
  pose proof (clip_le k (length a)).
  rewrite take_rows_seq by lia. f_equal. cbn [Nat.add].
  apply take_ge. rewrite length_drop. lia.
Qed.

(** Without shuffling, a constructor keeps the rows before the cut point
    (phase "train") or from it on (phase "val"). *)
Lemma init_unshuffled_Ok csv_file phase v tf ltf (w w' : world) ds :
  SignLanguageMNIST.__init__ csv_file phase v false tf ltf w = (Ok ds, w') ->
  exists table k,
    files w !! csv_file = Some table /\
    files w' = files w /\
    SignLanguageMNIST.cut_point v (seq 0 (length table)) = Ok k /\
    SignLanguageMNIST.data ds =
      if String.eqb phase "train" then slice_to k (to_uint8 table)
      else if String.eqb phase "val" then slice_from k (to_uint8 table)
      else to_uint8 table.
Proof.
  unfold SignLanguageMNIST.__init__. intros Hrun.
  apply bind_Ok in Hrun as (u & w1 & H1 & Hrun).
  assert (w1 = w) as ->.
  { unfold assert in H1. destruct (str_in _ _); [by injection H1|done]. }
  apply bind_Ok in Hrun as (table & w2 & H2 & Hrun).
  assert (files w !! csv_file = Some table /\ files w2 = files w) as [Htable Hfiles].
  { unfold read_csv in H2. destruct (files w !! csv_file); [|done]. by injection H2 as <- <-. }
  apply bind_Ok in Hrun as ([tr va] & w3 & H3 & Hrun).
  rewrite _train_val_split_eq in H3. cbn [split_order] in H3.
  assert (Hlen : length (to_uint8 table) = length table) by apply length_map.
  rewrite Hlen in H3.
  destruct (SignLanguageMNIST.cut_point v (seq 0 (length table))) as [k|] eqn:Hk; [|done].
  injection H3 as <- <- <-.
  apply bind_Ok in Hrun as (rows & w4 & H4 & Hrun).
  apply bind_Ok in Hrun as (images & w5 & H5 & Hrun). apply lift_Ok in H5 as [_ ->].
  apply bind_Ok in Hrun as (labels & w6 & H6 & Hrun). apply lift_Ok in H6 as [_ ->].
  apply ret_Ok in Hrun as [-> ->]. cbn [SignLanguageMNIST.data].
  exists table, k. split; [done|].
  rewrite <- Hlen in H4.
  destruct (String.eqb phase "train").
  - apply lift_Ok in H4 as [H4 ->]. rewrite take_rows_slice_to in H4. injection H4 as <-. done.
  - destruct (String.eqb phase "val").
    + apply lift_Ok in H4 as [H4 ->]. rewrite take_rows_slice_from in H4.
      injection H4 as <-. done.
    + apply ret_Ok in H4 as [-> ->]. done.
Qed.

(** With [SHUFFLE = false] the two datasets of [get_train_val_datasets]
    partition the rows of the file, in file order. *)
Lemma get_train_val_datasets_unshuffled v path (w w' : world) ds :
  get_train_val_datasets v false path w = (Ok ds, w') ->
  exists table tr va,
    files w !! path = Some table /\
    ds !! "train" = Some tr /\ ds !! "val" = Some va /\
    SignLanguageMNIST.data tr ++ SignLanguageMNIST.data va = to_uint8 table.
Proof.
  unfold get_train_val_datasets. intros Hrun.
  apply dict_comprehension_pair in Hrun as (tr & w1 & va & H1 & H2 & ->).
  apply bind_Ok in H1 as (tf1 & w0 & Hg1 & H1). apply dict_get_Ok in Hg1 as [_ ->].
  apply bind_Ok in H2 as (tf2 & w2 & Hg2 & H2). apply dict_get_Ok in Hg2 as [_ ->].
  apply init_unshuffled_Ok in H1 as (table & k & Htable & Hfiles & Hk & Htr).
  apply init_unshuffled_Ok in H2 as (table' & k' & Htable' & _ & Hk' & Hva).
  rewrite Hfiles, Htable in Htable'. injection Htable' as <-.
  rewrite Hk in Hk'. injection Hk' as <-.
  exists table, tr, va. split; [done|].
  rewrite lookup_insert_ne, !lookup_insert_eq by done.
  split; [done|]. split; [done|].
  cbn in Htr, Hva. rewrite Htr, Hva. apply slice_to_from.
Qed.

End UnshuffledSplit.

(* ===================================================================== *)
(** * A reference framework *)
(* ===================================================================== *)

(** A small instance of [Torch] to run the training loop on concrete
    inputs.  The model has one integer weight; it predicts the first pixel
    plus the weight, modulo 3.  A training-mode forward pass moves the
    weight by 3 (a buffer update that leaves predictions alone), an
    optimizer step by 1. *)
Module RefTorch.

Definition unwrap (x : sample_image (list Z)) : list Z :=
  match x with Raw p => p | Transformed p => p end.

Definition predict (p : Z) (image : list Z) : Z := (hd 0 image + p) mod 3.

Definition run_model (training grad : bool) (p : Z) (images : list (list Z)) (g : Z)
    : list Z * Z * Z :=
  (map (predict p) images, if training then p + 3 else p, g).

Lemma shuffle_seq_perm n g : (RefGen.shuffle g (seq 0 n)).1 ≡ₚ seq 0 n.
Proof. apply RefGen.pick_all_perm. Qed.

#[export] Instance framework : Torch := {|
  params := Z;
  engine := Z;
  tensor_t := list Z;
  images_t := list (list Z);
  outputs_t := list Z;
  loss_t := float;
  optimizer_t := unit;
  scheduler_t := unit;
  randperm := fun n g => RefGen.shuffle g (seq 0 n);
  randperm_perm := shuffle_seq_perm;
  apply_transform := fun _ image g => (image, g);
  collate := map unwrap;
  shape0 := fun images => Z.of_nat (length images);
  forward := run_model;
  forward_eval := fun _ _ _ _ => eq_refl;
  argmax := fun out => out;
  loss_item := fun l => l;
  backward := fun _ g => g;
  zero_grad := fun _ g => g;
  optimizer_step := fun _ p g => (p + 1, g);
  scheduler_step := fun _ g => g;
|}.

End RefTorch.

(* ===================================================================== *)
(** * Concrete runs *)
(* ===================================================================== *)

Module Examples.
Import RefTorch.
#[local] Existing Instance RefGen.numpy.

Definition fhalf : float := S754_finite false 4503599627370496 (-53).  (* 0.5 *)

(** A CSV row: the label, then 784 black pixels. *)
Definition sample_row (label : Z) : list Z := label :: repeat 0 784%nat.

(** A process whose generator was seeded with 42, and three small files. *)
Definition w0 : world :=
  {| np_random := np_seed 42;
     files := <["hard.csv" := map sample_row [5; 6; 7; 8] ]>
              (<["test.csv" := map sample_row [2; 0] ]>
              (<["train.csv" := map sample_row [0; 1; 2; 3] ]> ∅));
     io_log := [] |}.

(** The same process after some unrelated file access and with another
    file table. *)
Definition w1 : world :=
  {| np_random := np_seed 42; files := ∅; io_log := [ReadCsv "notes.csv"] |}.

(** The loaders that [get_train_val_loaders] builds from a file of [w0],
    with [val_split = 0.5], shuffling, batches of 2 and no workers. *)
Definition loaders_of (path : string) : gmap string DataLoader :=
  match (get_train_val_loaders path fhalf true 2 0 w0).1 with
  | Ok d => d
  | Raise _ => ∅
  end.

Definition model0 : Module_ :=
  {| class_name := "CNN"; state_dict := 0; training := false |}.

Definition s0 : trainer :=
  {| proc := {| model := model0; torch := 7; writer := []; stdout := [];
                os_log := []; dirs := [] |};
     vars := {| best_model_wts := 0; best_acc := fzero;
                train_val_loss := ∅; train_val_acc := ∅;
                train_val_loss_dict := ∅; train_val_acc_dict := ∅ |} |}.

Definition unit_loss (outputs : outputs_t) (labels : list Z) : loss_t := fone.

(** [train] on the loaders of a file, for [n] epochs, without saving or
    plotting. *)
Abbreviation run path n :=
  (train (loaders_of path%string) unit_loss tt (Some tt) false n%Z false s0)
  (only parsing).

Example loaders_labels :
  (fun dl => SignLanguageMNIST.labels (dataset dl)) <$> loaders_of "train.csv" !! "train"
    = Some [1; 3] /\
  (fun dl => SignLanguageMNIST.labels (dataset dl)) <$> loaders_of "train.csv" !! "val"
    = Some [3; 1].
Proof. split; vm_compute; reflexivity. Qed.

Example run_three_epochs :
  (run "train.csv" 3).1 = Ok {| class_name := "CNN"; state_dict := 4; training := false |} /\
  val_accs (run "train.csv" 3).2 = [fhalf; fzero; fzero] /\
  state_dict (model (proc (after_epochs (loaders_of "train.csv") unit_loss tt (Some tt) 3 s0).2))
    = 12.
Proof. repeat split; vm_compute; reflexivity. Qed.

(** ** The train and validation datasets of one factory call *)

(** C1, on the four-row file.  [get_train_val_datasets] builds the training
    dataset from one shuffle and the validation dataset from the next one:
    rows 1 and 3 end up in both datasets, rows 0 and 2 in neither. *)
Theorem train_val_datasets_overlap :
  match (get_train_val_datasets fhalf true "train.csv" w0).1 with
  | Ok ds =>
      SignLanguageMNIST.data <$> ds !! "train" = Some (map sample_row [1; 3]) /\
      SignLanguageMNIST.data <$> ds !! "val" = Some (map sample_row [3; 1])
  | Raise _ => False
  end.
Proof. vm_compute. split; reflexivity. Qed.

(** ** Two runs of the split with the same seed *)


(** ** The order of the validation loader *)

(** The validation loader of [get_train_val_loaders] does not have a fixed
    order: two generator states give two different orders. *)
Lemma val_loader_order_not_fixed :
  ~ (forall dl, loaders_of "train.csv" !! "val" = Some dl ->
       forall g1 g2 : engine, (sampler dl g1).1 = (sampler dl g2).1).
Proof.
  intros Hfixed.
  destruct (loaders_of "train.csv" !! "val") as [dl|] eqn:E; [|by vm_compute in E].
  specialize (Hfixed dl eq_refl 1 3).
  vm_compute in E. injection E as <-. vm_compute in Hfixed. discriminate.
Qed.

Lemma loader_sample_order_witness :
  (get_train_val_loaders "train.csv" fhalf true 2 0 w0).1 = Ok (loaders_of "train.csv") /\
  "val" ∈ ["train"; "val"] /\
  (exists dl,
     loaders_of "train.csv" !! "val" = Some dl /\ shuffle dl = true /\
     forall g : engine, sampler dl g =
       (Ok (randperm (SignLanguageMNIST.__len__ (dataset dl)) g).1,
        (randperm (SignLanguageMNIST.__len__ (dataset dl)) g).2)) /\
  (exists dl,
     (get_test_loader "test.csv" 2 0 w0).1 = Ok dl /\ shuffle dl = false /\
     forall g : engine, sampler dl g = (Ok (seq 0 (SignLanguageMNIST.__len__ (dataset dl))), g)).
Proof.
  assert (H1 : (get_train_val_loaders "train.csv" fhalf true 2 0 w0).1
               = Ok (loaders_of "train.csv")) by (vm_compute; reflexivity).
  assert (H2 : "val" ∈ ["train"; "val"]) by (apply list_elem_of_In; right; left; reflexivity).
  split; [exact H1|]. split; [exact H2|]. split.
  - exact (proj1 (loader_sample_order "train.csv" fhalf true 2 0 "test.csv" 2 0 w0)
             (loaders_of "train.csv") H1 "val" H2).
  - destruct (get_test_loader "test.csv" 2 0 w0).1 as [dl|e] eqn:E; [|by vm_compute in E].
    exists dl. split; [reflexivity|].
    apply (proj2 (loader_sample_order "train.csv" fhalf true 2 0 "test.csv" 2 0 w0) dl).
    exact E.
Defined.

(** ** The dataset theorems at concrete inputs *)

Lemma init_invalid_phase_witness :
  ("validation" ∉ SignLanguageMNIST.phases) /\
  SignLanguageMNIST.__init__ "train.csv" "validation" fquarter true None None w0 =
    (Raise (AssertionError "Choose phase from ['train', 'val', 'test']"), w0).
Proof.
  assert (H : "validation" ∉ SignLanguageMNIST.phases)
    by (intros Hin; apply list_elem_of_In in Hin; cbn in Hin; intuition discriminate).
  split; [exact H|].
  exact (init_invalid_phase_fails_first "train.csv" "validation" fquarter true None None w0 H).
Defined.

Definition hundred_rows : list (list Z) := repeat (sample_row 0) 100.

Lemma split_quarter_of_100_witness :
  length hundred_rows = 100%nat /\
  exists tr va w',
    SignLanguageMNIST._train_val_split hundred_rows fquarter 42 true w0 = (Ok (tr, va), w') /\
    length tr = 75%nat /\ length va = 25%nat.
Proof.
  split; [reflexivity|].
  exact (split_quarter_of_100 hundred_rows 42 true w0 eq_refl).
Defined.

Lemma split_ignores_seed_witness :
  np_random w0 = np_random w1 /\
  (SignLanguageMNIST._train_val_split hundred_rows fquarter 42 true w0).1 =
  (SignLanguageMNIST._train_val_split hundred_rows fquarter 7 true w1).1.
Proof.
  split; [reflexivity|].
  exact (proj1 (split_ignores_seed hundred_rows fquarter 42 7 true w0 w1 eq_refl)).
Defined.

(** ** The training theorems at concrete inputs *)

Definition model_after_first_epoch : Module_ :=
  {| class_name := "CNN"; state_dict := 4; training := false |}.

Lemma train_returns_best_checkpoint_witness :
  (run "train.csv" 3).1 = Ok model_after_first_epoch /\
  state_dict model_after_first_epoch = best_model_wts (vars (run "train.csv" 3).2) /\
  (forall a, a ∈ val_accs (run "train.csv" 3).2 ->
     fle a (best_acc (vars (run "train.csv" 3).2)) = true).
Proof.
  assert (H : (run "train.csv" 3).1 = Ok model_after_first_epoch) by reflexivity.
  split; [exact H|].
  pose proof (train_returns_best_checkpoint (loaders_of "train.csv") unit_loss tt (Some tt)
                false 3 false s0 model_after_first_epoch H) as (_ & _ & Hw & Hle & _).
  split; [exact Hw|exact Hle].
Defined.

Lemma train_without_improvement_witness :
  (run "hard.csv" 2).1 = Ok model0 /\
  (forall a, a ∈ val_accs (run "hard.csv" 2).2 -> fgt a fzero = false) /\
  state_dict model0 = state_dict (model (proc s0)).
Proof.
  assert (Hnone : forall a, a ∈ val_accs (run "hard.csv" 2).2 -> fgt a fzero = false).
  { replace (val_accs (run "hard.csv" 2).2) with [fzero; fzero] by (vm_compute; reflexivity).
    intros a Ha. apply elem_of_cons in Ha as [->|Ha]; [reflexivity|].
    apply elem_of_cons in Ha as [->|Ha]; [reflexivity|].
    apply elem_of_nil in Ha. destruct Ha. }
  assert (H : (run "hard.csv" 2).1 = Ok model0) by reflexivity.
  split; [exact H|]. split; [exact Hnone|].
  exact (train_without_improvement_returns_initial (loaders_of "hard.csv") unit_loss tt
           (Some tt) false 2 false s0 model0 H Hnone).
Defined.

End Examples.

(* ===================================================================== *)
(** * More about the datasets *)
(* ===================================================================== *)

Section DatasetFacts.
Context `{NumPyRandom}.

Lemma take_rows_Ok {A} (a : list A) (idx : list nat) (r : list A) :
  take_rows a idx = Ok r ->
  length r = length idx /\ Forall (fun x => x ∈ a) r.
Proof.
  revert r. induction idx as [|i idx IH]; intros r; cbn [take_rows].
  - by intros [= <-].
  - destruct (a !! i) as [x|] eqn:Hx; [|done].
    destruct (take_rows a idx) as [xs|e]; [|done].
    intros [= <-]. destruct (IH xs eq_refl) as [Hlen Hall].
    split; [cbn; lia|]. constructor; [|done]. by eapply list_elem_of_lookup_2.
Qed.

Lemma first_column_Ok (data : list (list Z)) (col : list Z) :
  first_column data = Ok col -> col = map (hd 0) data.
Proof.
  revert col. induction data as [|row data IH]; intros col; cbn [first_column].
  - by intros [= <-].
  - destruct row as [|x row]; [done|].
    destruct (first_column data) as [xs|e]; [|done].
    intros [= <-]. cbn. f_equal. by apply IH.
Qed.

Lemma split_order_unshuffled_or_perm n sh (w : world) :
  files (split_order n sh w).2 = files w /\
  io_log (split_order n sh w).2 = io_log w.
Proof.
  unfold split_order. destruct sh; [|done].
  by destruct (np_shuffle (np_random w) (seq 0 n)).
Qed.

(** What a completed constructor has done. *)
Lemma init_Ok csv_file phase v sh tf ltf (w w' : world) ds :
  SignLanguageMNIST.__init__ csv_file phase v sh tf ltf w = (Ok ds, w') ->
  exists table idx k,
    files w !! csv_file = Some table /\
    files w' = files w /\
    io_log w' = io_log w ++ [ReadCsv csv_file] /\
    idx ≡ₚ seq 0 (length table) /\
    SignLanguageMNIST.cut_point v idx = Ok k /\
    (if String.eqb phase "train"
     then take_rows (to_uint8 table) (slice_to k idx) = Ok (SignLanguageMNIST.data ds)
     else if String.eqb phase "val"
     then take_rows (to_uint8 table) (slice_from k idx) = Ok (SignLanguageMNIST.data ds)
     else SignLanguageMNIST.data ds = to_uint8 table) /\
    reshape_images (SignLanguageMNIST.data ds) = Ok (SignLanguageMNIST.images ds) /\
    SignLanguageMNIST.labels ds = map (hd 0) (SignLanguageMNIST.data ds) /\
    SignLanguageMNIST.transform ds = tf /\
    SignLanguageMNIST.label_transform ds = ltf.
Proof.
  unfold SignLanguageMNIST.__init__. intros Hrun.
  apply bind_Ok in Hrun as (u & w1 & H1 & Hrun).
  assert (w1 = w) as ->.
  { unfold assert in H1. destruct (str_in _ _); [by injection H1|done]. }
  apply bind_Ok in Hrun as (table & w2 & H2 & Hrun).
  assert (files w !! csv_file = Some table /\ files w2 = files w /\
          io_log w2 = io_log w ++ [ReadCsv csv_file]) as (Htable & Hfiles & Hlog).
  { unfold read_csv in H2. destruct (files w !! csv_file); [|done]. by injection H2 as <- <-. }
  apply bind_Ok in Hrun as ([tr va] & w3 & H3 & Hrun).
  rewrite _train_val_split_eq in H3.
  assert (Hlen : length (to_uint8 table) = length table) by apply length_map.
  rewrite Hlen in H3.
  pose proof (split_order_perm (length table) sh w2) as Hperm.
  destruct (split_order_unshuffled_or_perm (length table) sh w2) as [Hf3 Hl3].
  destruct (split_order (length table) sh w2) as [idx w3'].
  cbn [fst snd] in Hperm, Hf3, Hl3.
  destruct (SignLanguageMNIST.cut_point v idx) as [k|] eqn:Hk; [|done].
  injection H3 as <- <- <-.
  apply bind_Ok in Hrun as (rows & w4 & H4 & Hrun).
  apply bind_Ok in Hrun as (images & w5 & H5 & Hrun). apply lift_Ok in H5 as [Himg ->].
  apply bind_Ok in Hrun as (labels & w6 & H6 & Hrun). apply lift_Ok in H6 as [Hlab ->].
  apply ret_Ok in Hrun as [-> ->].
  cbn [SignLanguageMNIST.data SignLanguageMNIST.images SignLanguageMNIST.labels
       SignLanguageMNIST.transform SignLanguageMNIST.label_transform].
  apply first_column_Ok in Hlab.
  exists table, idx, k.
  assert (Hw4 : w4 = w3' /\
    (if String.eqb phase "train"
     then take_rows (to_uint8 table) (slice_to k idx) = Ok rows
     else if String.eqb phase "val"
     then take_rows (to_uint8 table) (slice_from k idx) = Ok rows
     else rows = to_uint8 table)).
  { destruct (String.eqb phase "train"); [by apply lift_Ok in H4 as [? ->]|].
    destruct (String.eqb phase "val"); [by apply lift_Ok in H4 as [? ->]|].
    by apply ret_Ok in H4 as [-> ->]. }
  destruct Hw4 as [-> Hrows].
  repeat split; try done; congruence.
Qed.

(** X1.  The two index lists that [_train_val_split] returns divide the row
    numbers of the data between them: together they are a permutation of
    [0 .. len(data) - 1], no index occurs twice, a number is a row number
    exactly when it is in one of the two lists, and the two lengths add up
    to the number of rows.  This holds for every [val_split] with which the
    call returns, shuffled or not. *)
Theorem split_indices_partition data val_split seed shuffle (w w' : world) tr va :
  SignLanguageMNIST._train_val_split data val_split seed shuffle w = (Ok (tr, va), w') ->
  tr ++ va ≡ₚ seq 0 (length data) /\
  NoDup (tr ++ va) /\
  (forall i, (i < length data)%nat <-> i ∈ tr \/ i ∈ va) /\
  (length tr + length va = length data)%nat.
Proof.
  intros Hrun. pose proof (_train_val_split_partition _ _ _ _ _ _ _ _ Hrun) as Hperm.
  split; [done|]. split; [|split].
  - rewrite Hperm. apply NoDup_seq.
  - intros i. rewrite <- elem_of_app, Hperm, elem_of_seq. lia.
  - rewrite <- length_app, Hperm. apply length_seq.
Qed.

(** X7.  For the phase ["test"] the constructor ignores the split: the
    dataset holds every row of the file, in the order of the file, whatever
    [val_split] and [shuffle] are. *)
Theorem init_test_keeps_every_row csv_file val_split shuffle tf ltf (w w' : world) ds :
  SignLanguageMNIST.__init__ csv_file "test" val_split shuffle tf ltf w = (Ok ds, w') ->
  exists table,
    files w !! csv_file = Some table /\
    SignLanguageMNIST.data ds = to_uint8 table /\
    SignLanguageMNIST.__len__ ds = length table.
Proof.
  intros Hrun.
  apply init_Ok in Hrun as (table & idx & k & Ht & _ & _ & _ & _ & Hd & _ & Hl & _).
  cbn in Hd. exists table. split; [done|]. split; [done|].
  unfold SignLanguageMNIST.__len__. rewrite Hl, length_map, Hd. apply length_map.
Qed.


Lemma slice_lengths {A} (k : Z) (l : list A) :
  length (slice_to k l) = clip k (length l) /\
  length (slice_from k l) = (length l - clip k (length l))%nat.
Proof.
  unfold slice_to, slice_from. rewrite length_take, length_drop.
  pose proof (clip_le k (length l)). lia.
Qed.

(** X9.  When [get_train_val_datasets] returns, the sizes of the training
    and the validation dataset add up to the number of rows of the file,
    every row of either dataset is a row of the file, and the file has been
    read twice, once per dataset.  (With shuffling the two datasets need not
    be disjoint: each one is cut from its own permutation.) *)
Theorem train_val_datasets_sizes v sh path (w w' : world) ds :
  get_train_val_datasets v sh path w = (Ok ds, w') ->
  exists table tr va,
    files w !! path = Some table /\
    ds !! "train" = Some tr /\ ds !! "val" = Some va /\
    (SignLanguageMNIST.__len__ tr + SignLanguageMNIST.__len__ va = length table)%nat /\
    Forall (fun row => row ∈ to_uint8 table) (SignLanguageMNIST.data tr) /\
    Forall (fun row => row ∈ to_uint8 table) (SignLanguageMNIST.data va) /\
    io_log w' = io_log w ++ [ReadCsv path; ReadCsv path].
Proof.
  unfold get_train_val_datasets. intros Hrun.
  apply dict_comprehension_pair in Hrun as (tr & w1 & va & H1 & H2 & ->).
  apply bind_Ok in H1 as (tf1 & w0 & Hg1 & H1). apply dict_get_Ok in Hg1 as [_ ->].
  apply bind_Ok in H2 as (tf2 & w2 & Hg2 & H2). apply dict_get_Ok in Hg2 as [_ ->].
  apply init_Ok in H1
    as (table & idx & k & Htable & Hfiles & Hlog & Hperm & Hk & Htr & _ & Hltr & _).
  apply init_Ok in H2
    as (table' & idx' & k' & Htable' & _ & Hlog' & Hperm' & Hk' & Hva & _ & Hlva & _).
  rewrite Hfiles, Htable in Htable'. injection Htable' as <-.
  assert (Hidx : length idx = length table) by (by rewrite Hperm, length_seq).
  assert (Hidx' : length idx' = length table) by (by rewrite Hperm', length_seq).
  rewrite (cut_point_length v idx' idx) in Hk' by congruence.
  rewrite Hk in Hk'. injection Hk' as <-.
  cbn in Htr, Hva.
  apply take_rows_Ok in Htr as [Hntr Hrtr]. apply take_rows_Ok in Hva as [Hnva Hrva].
  exists table, tr, va. split; [done|].
  rewrite lookup_insert_ne, !lookup_insert_eq by done.
  split; [done|]. split; [done|]. split.
  { unfold SignLanguageMNIST.__len__. rewrite Hltr, Hlva, !length_map, Hntr, Hnva.
    destruct (slice_lengths k idx) as [-> _]. destruct (slice_lengths k idx') as [_ ->].
    rewrite Hidx, Hidx'. pose proof (clip_le k (length table)). lia. }
  split; [done|]. split; [done|].
  rewrite Hlog', Hlog, <- app_assoc. done.
Qed.

(** ** Files with one label and 784 pixels per row *)

Lemma chunks_acc_fill {A} (n : nat) (x : list A) : forall acc rest,
  x <> [] -> (length acc + length x = n)%nat ->
  chunks_acc n acc (x ++ rest) = (rev acc ++ x) :: chunks_acc n [] rest.
Proof.
  induction x as [|a x IH]; intros acc rest Hx Hn; [done|].
  cbn [app chunks_acc].
  destruct x as [|b x]; cbn [length] in Hn.
  - replace (S (length acc) =? n)%nat with true by (symmetry; apply Nat.eqb_eq; lia).
    done.
  - replace (S (length acc) =? n)%nat with false
      by (symmetry; apply Nat.eqb_neq; lia).
    rewrite IH; [|done|cbn [length] in *; lia].
    cbn [rev]. by rewrite <- app_assoc.
Qed.

(** Regrouping a concatenation of blocks of [n] elements gives the blocks
    back. *)
Lemma chunks_concat {A} (n : nat) (ls : list (list A)) :
  (0 < n)%nat -> Forall (fun l => length l = n) ls -> chunks n (concat ls) = ls.
Proof.
  intros Hn Hls. unfold chunks. induction Hls as [|l ls Hl Hls IH]; [done|].
  cbn [concat]. rewrite chunks_acc_fill; [by rewrite IH| |done].
  intros ->. cbn in Hl. lia.
Qed.

Lemma length_concat_blocks {A} (n : nat) (ls : list (list A)) :
  Forall (fun l => length l = n) ls -> length (concat ls) = (n * length ls)%nat.
Proof.
  induction 1 as [|l ls Hl Hls IH]; [cbn; lia|].
  cbn [concat length]. rewrite length_app, IH, Hl. lia.
Qed.

Lemma reshape_images_rows (data : list (list Z)) :
  Forall (fun row => length row = 785%nat) data ->
  reshape_images data = Ok (map (drop 1) data).
Proof.
  intros Hrows. unfold reshape_images.
  assert (Hpix : Forall (fun l => length l = 784%nat) (map (drop 1) data)).
  { apply Forall_map. eapply Forall_impl; [exact Hrows|].
    intros row Hrow. cbn beta. rewrite length_drop, Hrow. done. }
  rewrite (length_concat_blocks 784 _ Hpix).
  replace ((784 * length (map (drop 1) data)) mod 784 =? 0)%nat with true.
  - by rewrite (chunks_concat 784) by (done || lia).
  - symmetry. apply Nat.eqb_eq. rewrite Nat.mul_comm. apply Nat.Div0.mod_mul.
Qed.

Lemma to_uint8_rows (table : list (list Z)) (n : nat) :
  Forall (fun row => length row = n) table ->
  Forall (fun row => length row = n /\ Forall (fun v => 0 <= v < 256) row) (to_uint8 table).
Proof.
  intros Hrows. unfold to_uint8. apply Forall_map.
  eapply Forall_impl; [exact Hrows|]. intros row Hrow. cbn beta.
  split; [by rewrite length_map|].
  apply Forall_map, Forall_true. intros v. cbn beta. apply Z.mod_pos_bound. lia.
Qed.

Lemma init_rows_images_labels csv_file phase v sh tf ltf (w w' : world) ds table :
  files w !! csv_file = Some table ->
  Forall (fun row => length row = 785%nat) table ->
  SignLanguageMNIST.__init__ csv_file phase v sh tf ltf w = (Ok ds, w') ->
  SignLanguageMNIST.images ds = map (drop 1) (SignLanguageMNIST.data ds) /\
  SignLanguageMNIST.labels ds = map (hd 0) (SignLanguageMNIST.data ds) /\
  Forall (fun image => length image = 784%nat) (SignLanguageMNIST.images ds) /\
  Forall (fun row => Forall (fun v => 0 <= v < 256) row) (SignLanguageMNIST.data ds).
Proof.
  intros Htable Hrows Hrun.
  apply init_Ok in Hrun
    as (table' & idx & k & Htable' & _ & _ & _ & _ & Hdata & Himg & Hlab & _).
  rewrite Htable in Htable'. injection Htable' as <-.
  pose proof (to_uint8_rows table 785 Hrows) as Hu8.
  assert (Hsel : Forall (fun row => row ∈ to_uint8 table) (SignLanguageMNIST.data ds)).
  { destruct (String.eqb phase "train"); [by apply take_rows_Ok in Hdata as [_ ?]|].
    destruct (String.eqb phase "val"); [by apply take_rows_Ok in Hdata as [_ ?]|].
    rewrite Hdata. apply Forall_forall. auto. }
  assert (Hgood : Forall (fun row => length row = 785%nat /\ Forall (fun v => 0 <= v < 256) row)
                    (SignLanguageMNIST.data ds)).
  { eapply Forall_impl; [exact Hsel|]. intros row Hrow. cbn beta.
    by apply (proj1 (Forall_forall _ _) Hu8). }
  assert (H785 : Forall (fun row => length row = 785%nat) (SignLanguageMNIST.data ds)).
  { eapply Forall_impl; [exact Hgood|]. by intros row [? _]. }
  rewrite (reshape_images_rows _ H785) in Himg. injection Himg as Himg.
  split; [done|]. split; [done|]. split.
  - rewrite <- Himg. apply Forall_map. eapply Forall_impl; [exact H785|].
    intros row Hrow. cbn beta. by rewrite length_drop, Hrow.
  - eapply Forall_impl; [exact Hgood|]. by intros row [_ ?].
Qed.


Lemma bind_run {S A B} (m : M S A) (k : A -> M S B) s a s1 :
  m s = (Ok a, s1) -> bind m k s = k a s1.
Proof. unfold bind. by intros ->. Qed.

Lemma take_rows_in_range {A} (a : list A) (idx : list nat) :
  Forall (fun i => (i < length a)%nat) idx -> exists r, take_rows a idx = Ok r.
Proof.
  induction 1 as [|i idx Hi Hidx [r IH]]; [by exists []|].
  cbn [take_rows]. destruct (lookup_lt_is_Some_2 a i Hi) as [x ->].
  rewrite IH. eauto.
Qed.

Lemma first_column_rows (data : list (list Z)) :
  Forall (fun row => row <> []) data -> first_column data = Ok (map (hd 0) data).
Proof.
  induction 1 as [|row data Hrow Hdata IH]; [done|].
  cbn [first_column]. destruct row as [|x row]; [done|]. by rewrite IH.
Qed.

(** X4.  On a file that exists and whose rows all have 785 columns (the
    label and 28 * 28 pixels) the constructor returns, for each of the three
    phases and any [val_split] whose cut point is defined.  In the dataset
    image [i] is the pixel columns of row [i] and label [i] its first column,
    every image has 784 pixels, and every value is a byte. *)
Theorem init_well_formed_file csv_file phase v sh tf ltf (w : world) table k :
  phase ∈ SignLanguageMNIST.phases ->
  files w !! csv_file = Some table ->
  Forall (fun row => length row = 785%nat) table ->
  SignLanguageMNIST.cut_point v (seq 0 (length table)) = Ok k ->
  exists ds w',
    SignLanguageMNIST.__init__ csv_file phase v sh tf ltf w = (Ok ds, w') /\
    SignLanguageMNIST.images ds = map (drop 1) (SignLanguageMNIST.data ds) /\
    SignLanguageMNIST.labels ds = map (hd 0) (SignLanguageMNIST.data ds) /\
    Forall (fun image => length image = 784%nat) (SignLanguageMNIST.images ds) /\
    Forall (fun row => Forall (fun v => 0 <= v < 256) row) (SignLanguageMNIST.data ds).
Proof.
  intros Hphase Htable Hrows Hk.
  enough (exists ds w',
            SignLanguageMNIST.__init__ csv_file phase v sh tf ltf w = (Ok ds, w'))
    as (ds & w' & Hrun).
  { exists ds, w'. split; [done|]. by eapply init_rows_images_labels. }
  unfold SignLanguageMNIST.__init__.
  assert (Hin : str_in phase SignLanguageMNIST.phases = true).
  { unfold str_in. apply existsb_exists. exists phase.
    split; [by apply list_elem_of_In|apply String.eqb_refl]. }
  rewrite Hin. cbn [assert]. erewrite bind_run by reflexivity.
  erewrite bind_run by (unfold read_csv; rewrite Htable; reflexivity).
  set (w1 := {| np_random := np_random w; files := files w;
                io_log := io_log w ++ [ReadCsv csv_file] |}).
  assert (Hlen : length (to_uint8 table) = length table) by apply length_map.
  pose proof (split_order_perm (length table) sh w1) as Hperm.
  destruct (split_order (length table) sh w1) as [idx w2] eqn:Eorder. cbn [fst] in Hperm.
  assert (Hidx : SignLanguageMNIST.cut_point v idx = Ok k).
  { rewrite <- Hk. apply cut_point_length. by rewrite Hperm. }
  erewrite bind_run; cycle 1.
  { rewrite _train_val_split_eq, Hlen, Eorder, Hidx. reflexivity. }
  cbn beta iota.
  assert (Hrange : Forall (fun i => (i < length (to_uint8 table))%nat) idx).
  { apply Forall_forall. intros i Hi. rewrite Hperm in Hi.
    apply elem_of_seq in Hi. lia. }
  pose proof (to_uint8_rows table 785 Hrows) as Hu8.
  assert (Hsel : exists rows w3,
    (if String.eqb phase "train" then lift (take_rows (to_uint8 table) (slice_to k idx))
     else if String.eqb phase "val" then lift (take_rows (to_uint8 table) (slice_from k idx))
     else ret (to_uint8 table)) w2 = (Ok rows, w3) /\
    Forall (fun row => row ∈ to_uint8 table) rows).
  { destruct (String.eqb phase "train"); [|destruct (String.eqb phase "val")].
    - destruct (take_rows_in_range (to_uint8 table) (slice_to k idx)) as [r Hr].
      { unfold slice_to. by apply Forall_take. }
      exists r, w2. unfold lift. rewrite Hr. split; [done|].
      by apply take_rows_Ok in Hr as [_ ?].
    - destruct (take_rows_in_range (to_uint8 table) (slice_from k idx)) as [r Hr].
      { unfold slice_from. by apply Forall_drop. }
      exists r, w2. unfold lift. rewrite Hr. split; [done|].
      by apply take_rows_Ok in Hr as [_ ?].
    - exists (to_uint8 table), w2. split; [done|]. apply Forall_forall. auto. }
  destruct Hsel as (rows & w3 & Hsel & Hmem).
  erewrite bind_run by exact Hsel.
  assert (H785 : Forall (fun row => length row = 785%nat) rows).
  { eapply Forall_impl; [exact Hmem|]. intros row Hrow. cbn beta.
    by apply (proj1 (Forall_forall _ _) Hu8). }
  erewrite bind_run by (unfold lift; rewrite (reshape_images_rows _ H785); reflexivity).
  erewrite bind_run; cycle 1.
  { unfold lift. rewrite first_column_rows; [reflexivity|].
    eapply Forall_impl; [exact H785|]. intros row Hrow ->. cbn in Hrow. lia. }
  eauto.
Qed.

(** X10.  [get_train_val_loaders] calls [get_train_val_datasets] once per
    loader, so a call that returns has read the file four times.  The two
    loaders have the configured batch size and worker count, and the sizes
    of their datasets add up to the number of rows of the file. *)
Theorem train_val_loaders_read_four_times path v sh bs workers (w w' : world) dls :
  get_train_val_loaders path v sh bs workers w = (Ok dls, w') ->
  io_log w' = io_log w ++ [ReadCsv path; ReadCsv path; ReadCsv path; ReadCsv path] /\
  exists table tr va,
    files w !! path = Some table /\
    dls !! "train" = Some tr /\ dls !! "val" = Some va /\
    batch_size tr = bs /\ batch_size va = bs /\
    num_workers tr = workers /\ num_workers va = workers /\
    (SignLanguageMNIST.__len__ (dataset tr) + SignLanguageMNIST.__len__ (dataset va)
     = length table)%nat.
Proof.
  unfold get_train_val_loaders. intros Hrun.
  apply dict_comprehension_pair in Hrun as (tr & w2 & va & H1 & H2 & ->).
  apply bind_Ok in H1 as (ds1 & w1 & Hd1 & H1).
  apply bind_Ok in H1 as (dtr & w1' & Hg1 & H1). apply dict_get_Ok in Hg1 as [Hg1 ->].
  apply bind_Ok in H2 as (ds2 & w3 & Hd2 & H2).
  apply bind_Ok in H2 as (dva & w3' & Hg2 & H2). apply dict_get_Ok in Hg2 as [Hg2 ->].
  assert (Hinit : forall ds b sh' wk (u u' : world) dl,
            DataLoader__init__ ds b sh' wk u = (Ok dl, u') ->
            u' = u /\ dataset dl = ds /\ batch_size dl = b /\ num_workers dl = wk).
  { intros ds b sh' wk u u' dl. unfold DataLoader__init__.
    destruct (wk <? 0); [done|].
    destruct (sh' && (SignLanguageMNIST.__len__ ds =? 0)%nat); [done|].
    destruct (b <=? 0); [done|]. by intros [= <- <-]. }
  apply Hinit in H1 as (-> & Hds1 & Hb1 & Hw1).
  apply Hinit in H2 as (-> & Hds2 & Hb2 & Hw2).
  (* the two factory calls *)
  unfold get_train_val_datasets in Hd1, Hd2.
  apply dict_comprehension_pair in Hd1 as (tr1 & u1 & va1 & Ht1 & Hv1 & ->).
  apply dict_comprehension_pair in Hd2 as (tr2 & u2 & va2 & Ht2 & Hv2 & ->).
  rewrite lookup_insert_ne, lookup_insert_eq in Hg1 by done. injection Hg1 as <-.
  rewrite lookup_insert_eq in Hg2. injection Hg2 as <-.
  apply bind_Ok in Ht1 as (? & ? & Hg & Ht1). apply dict_get_Ok in Hg as [_ ->].
  apply bind_Ok in Hv1 as (? & ? & Hg & Hv1). apply dict_get_Ok in Hg as [_ ->].
  apply bind_Ok in Ht2 as (? & ? & Hg & Ht2). apply dict_get_Ok in Hg as [_ ->].
  apply bind_Ok in Hv2 as (? & ? & Hg & Hv2). apply dict_get_Ok in Hg as [_ ->].
  apply init_Ok in Ht1
    as (table & idx & k & Htable & Hf1 & Hl1 & Hperm & Hk & Htr & _ & Hltr & _).
  apply init_Ok in Hv1 as (? & ? & ? & _ & Hf2 & Hl2 & _).
  apply init_Ok in Ht2 as (? & ? & ? & _ & Hf3 & Hl3 & _).
  apply init_Ok in Hv2
    as (table' & idx' & k' & Htable' & _ & Hl4 & Hperm' & Hk' & Hva & _ & Hlva & _).
  rewrite Hf3, Hf2, Hf1, Htable in Htable'. injection Htable' as <-.
  split.
  { rewrite Hl4, Hl3, Hl2, Hl1, <- !app_assoc. done. }
  assert (Hidx : length idx = length table) by (by rewrite Hperm, length_seq).
  assert (Hidx' : length idx' = length table) by (by rewrite Hperm', length_seq).
  rewrite (cut_point_length v idx' idx) in Hk' by congruence.
  rewrite Hk in Hk'. injection Hk' as <-.
  cbn in Htr, Hva.
  apply take_rows_Ok in Htr as [Hntr _]. apply take_rows_Ok in Hva as [Hnva _].
  exists table, tr, va. split; [done|].
  rewrite lookup_insert_ne, !lookup_insert_eq by done.
  repeat split; try done.
  rewrite Hds1, Hds2. unfold SignLanguageMNIST.__len__.
  rewrite Hltr, Hlva, !length_map, Hntr, Hnva.
  destruct (slice_lengths k idx) as [-> _]. destruct (slice_lengths k idx') as [_ ->].
  rewrite Hidx, Hidx'. pose proof (clip_le k (length table)). lia.
Qed.


(** ** The generator and the file log *)

Lemma init_generator csv_file phase v sh tf ltf (w w' : world) ds :
  SignLanguageMNIST.__init__ csv_file phase v sh tf ltf w = (Ok ds, w') ->
  exists table,
    files w !! csv_file = Some table /\
    np_random w' =
      (if sh then (np_shuffle (np_random w) (seq 0 (length table))).2 else np_random w).
Proof.
  unfold SignLanguageMNIST.__init__. intros Hrun.
  apply bind_Ok in Hrun as (u & w1 & H1 & Hrun).
  assert (w1 = w) as ->.
  { unfold assert in H1. destruct (str_in _ _); [by injection H1|done]. }
  apply bind_Ok in Hrun as (table & w2 & H2 & Hrun).
  assert (files w !! csv_file = Some table /\ np_random w2 = np_random w) as (Htable & Hg).
  { unfold read_csv in H2. destruct (files w !! csv_file); [|done]. by injection H2 as <- <-. }
  apply bind_Ok in Hrun as ([tr va] & w3 & H3 & Hrun).
  rewrite _train_val_split_eq in H3.
  assert (Hlen : length (to_uint8 table) = length table) by apply length_map.
  rewrite Hlen in H3.
  assert (Hg3 : np_random w3 =
    (if sh then (np_shuffle (np_random w) (seq 0 (length table))).2 else np_random w)).
  { unfold split_order in H3. rewrite Hg in H3. destruct sh.
    - destruct (np_shuffle (np_random w) (seq 0 (length table))) as [l g].
      destruct (SignLanguageMNIST.cut_point v l); [|done]. by injection H3 as _ _ <-.
    - destruct (SignLanguageMNIST.cut_point v (seq 0 (length table))); [|done].
      by injection H3 as _ _ <-. }
  apply bind_Ok in Hrun as (rows & w4 & H4 & Hrun).
  apply bind_Ok in Hrun as (images & w5 & H5 & Hrun). apply lift_Ok in H5 as [_ ->].
  apply bind_Ok in Hrun as (labels & w6 & H6 & Hrun). apply lift_Ok in H6 as [_ ->].
  apply ret_Ok in Hrun as [_ ->].
  assert (w4 = w3) as ->.
  { destruct (String.eqb phase "train"); [by apply lift_Ok in H4 as [? ->]|].
    destruct (String.eqb phase "val"); [by apply lift_Ok in H4 as [? ->]|].
    by apply ret_Ok in H4 as [_ ->]. }
  by exists table.
Qed.

(** X8.  [get_test_dataset] leaves [shuffle] at its default [True]: although
    the test dataset is every row of the file in file order, building it
    shuffles the row numbers once with the global generator, which is left
    in the state after that shuffle.  The file is read once and the
    transform is the one registered for ["test"]. *)
Theorem test_dataset_draws_from_generator path (w w' : world) ds :
  get_test_dataset path w = (Ok ds, w') ->
  exists table,
    files w !! path = Some table /\
    SignLanguageMNIST.data ds = to_uint8 table /\
    SignLanguageMNIST.transform ds = Some [ToTensor] /\
    io_log w' = io_log w ++ [ReadCsv path] /\
    np_random w' = (np_shuffle (np_random w) (seq 0 (length table))).2.
Proof.
  unfold get_test_dataset. intros Hrun.
  apply bind_Ok in Hrun as (tf & w1 & Hg & Hrun). apply dict_get_Ok in Hg as [Htf ->].
  destruct (init_generator _ _ _ _ _ _ _ _ _ Hrun) as (table & Htable & Hgen).
  apply init_Ok in Hrun
    as (table' & idx & k & Htable' & _ & Hlog & _ & _ & Hd & _ & _ & Ht & _).
  rewrite Htable in Htable'. injection Htable' as <-.
  exists table. cbn in Hd. repeat split; try done.
  rewrite Ht. unfold data_transforms in Htf.
  rewrite lookup_insert_eq in Htf. by injection Htf as <-.
Qed.

(** X5.  With a valid phase and a file that does not exist the constructor
    raises [FileNotFoundError] for that path.  The read attempt is the only
    effect: the generator has not been used. *)
Theorem init_missing_file csv_file phase v sh tf ltf (w : world) :
  phase ∈ SignLanguageMNIST.phases ->
  files w !! csv_file = None ->
  SignLanguageMNIST.__init__ csv_file phase v sh tf ltf w =
    (Raise (FileNotFoundError csv_file),
     {| np_random := np_random w; files := files w;
        io_log := io_log w ++ [ReadCsv csv_file] |}).
Proof.
  intros Hphase Hnone. unfold SignLanguageMNIST.__init__.
  assert (Hin : str_in phase SignLanguageMNIST.phases = true).
  { unfold str_in. apply existsb_exists. exists phase.
    split; [by apply list_elem_of_In|apply String.eqb_refl]. }
  rewrite Hin. cbn [assert]. erewrite bind_run by reflexivity.
  unfold bind, read_csv. by rewrite Hnone.
Qed.

(** ** Rows of another width *)

Lemma chunks_acc_length {A} (n : nat) : (0 < n)%nat -> forall (l acc : list A),
  (length acc < n)%nat -> ((length acc + length l) mod n = 0)%nat ->
  (length (chunks_acc n acc l) * n = length acc + length l)%nat.
Proof.
  intros Hn. induction l as [|x l IH]; intros acc Hacc Hmod; cbn [chunks_acc length].
  - cbn [length] in Hmod. rewrite Nat.add_0_r, Nat.mod_small in Hmod by done.
    destruct acc; [done|discriminate].
  - cbn [length] in Hmod. destruct (Nat.eqb_spec (S (length acc)) n) as [E|E].
    + cbn [length]. rewrite Nat.mul_succ_l, (IH []); cbn [length]; [lia|lia|].
      replace (length acc + S (length l))%nat with (length l + 1 * n)%nat in Hmod by lia.
      by rewrite Nat.Div0.mod_add in Hmod.
    + rewrite (IH (x :: acc)); cbn [length]; [lia|lia|].
      by replace (S (length acc) + length l)%nat with (length acc + S (length l))%nat by lia.
Qed.

Lemma reshape_images_count (c : nat) (data images : list (list Z)) :
  Forall (fun row => length row = S c) data ->
  reshape_images data = Ok images ->
  (length images * 784 = length data * c)%nat.
Proof.
  intros Hrows. unfold reshape_images.
  assert (Hpix : Forall (fun l => length l = c) (map (drop 1) data)).
  { apply Forall_map. eapply Forall_impl; [exact Hrows|].
    intros row Hrow. cbn beta. rewrite length_drop, Hrow. lia. }
  rewrite (length_concat_blocks c _ Hpix), length_map.
  destruct (Nat.eqb_spec ((c * length data) mod 784) 0) as [E|E]; [|done].
  intros [= <-]. unfold chunks.
  rewrite chunks_acc_length; cbn [length]; try lia.
  - rewrite (length_concat_blocks c _ Hpix), length_map. lia.
  - by rewrite (length_concat_blocks c _ Hpix), length_map.
Qed.

(** X6.  The constructor never compares the number of images with the number
    of labels.  On a file whose rows have [c] pixel columns each, a
    constructor call that returns has regrouped all pixels into images of
    784: the dataset has [len * c / 784] images for [len] labels, which is
    [len] only when [c = 784] (or the dataset is empty). *)
Theorem init_images_count csv_file phase v sh tf ltf (w w' : world) ds table (c : nat) :
  files w !! csv_file = Some table ->
  Forall (fun row => length row = S c) table ->
  SignLanguageMNIST.__init__ csv_file phase v sh tf ltf w = (Ok ds, w') ->
  (length (SignLanguageMNIST.images ds) * 784 = SignLanguageMNIST.__len__ ds * c)%nat.
Proof.
  intros Htable Hrows Hrun.
  apply init_Ok in Hrun
    as (table' & idx & k & Htable' & _ & _ & _ & _ & Hd & Himg & Hlab & _).
  rewrite Htable in Htable'. injection Htable' as <-.
  assert (Hwidth : Forall (fun row => length row = S c) (to_uint8 table)).
  { apply Forall_map. eapply Forall_impl; [exact Hrows|].
    intros row Hrow. cbn beta. by rewrite length_map. }
  assert (Hdata : Forall (fun row => length row = S c) (SignLanguageMNIST.data ds)).
  { assert (Hsub : forall idx', take_rows (to_uint8 table) idx' = Ok (SignLanguageMNIST.data ds) ->
                     Forall (fun row => length row = S c) (SignLanguageMNIST.data ds)).
    { intros idx' Htake. apply take_rows_Ok in Htake as [_ Hin].
      apply Forall_forall. intros row Hrow.
      rewrite Forall_forall in Hin, Hwidth. by apply Hwidth, Hin. }
    destruct (String.eqb phase "train"); [by eapply Hsub|].
    destruct (String.eqb phase "val"); [by eapply Hsub|]. by rewrite Hd. }
  unfold SignLanguageMNIST.__len__. rewrite Hlab, length_map.
  by apply reshape_images_count.
Qed.

End DatasetFacts.

(* ===================================================================== *)
(** * The split at the ends of the range *)
(* ===================================================================== *)

(** ** Integers that a double holds exactly *)

Module ExactFloats.

Lemma iter_xO_value (p k : positive) : Zpos (Pos.iter xO p k) = Zpos p * 2 ^ Zpos k.
Proof.
  induction k as [|k IH] using Pos.peano_ind.
  - cbn [Pos.iter]. lia.
  - rewrite Pos.iter_succ, Pos2Z.inj_succ, Z.pow_succ_r by lia.
    change (Zpos (Pos.iter xO p k)~0) with (2 * Zpos (Pos.iter xO p k)). lia.
Qed.

Lemma iter_xO_digits (p k : positive) :
  digits2_pos (Pos.iter xO p k) = (digits2_pos p + k)%positive.
Proof.
  induction k as [|k IH] using Pos.peano_ind.
  - cbn [Pos.iter digits2_pos]. lia.
  - rewrite Pos.iter_succ. cbn [digits2_pos]. rewrite IH. lia.
Qed.

Lemma digits2_pos_bounds (p : positive) :
  2 ^ (Zpos (digits2_pos p) - 1) <= Zpos p < 2 ^ Zpos (digits2_pos p).
Proof.
  induction p as [p IH|p IH|]; cbn [digits2_pos]; [| |cbn; lia].
  - rewrite Pos2Z.inj_succ, Z.pow_succ_r by lia.
    replace (Z.succ (Zpos (digits2_pos p)) - 1)
      with (Z.succ (Zpos (digits2_pos p) - 1)) by lia.
    rewrite Z.pow_succ_r by lia. lia.
  - rewrite Pos2Z.inj_succ, Z.pow_succ_r by lia.
    replace (Z.succ (Zpos (digits2_pos p)) - 1)
      with (Z.succ (Zpos (digits2_pos p) - 1)) by lia.
    rewrite Z.pow_succ_r by lia. lia.
Qed.

Lemma digits2_pos_small (p : positive) : Zpos p < 2 ^ 53 -> Zpos (digits2_pos p) <= 53.
Proof.
  intros Hp. destruct (Z_le_gt_dec (Zpos (digits2_pos p)) 53) as [|Hd]; [done|].
  pose proof (digits2_pos_bounds p) as [Hlow _].
  assert (2 ^ 53 <= 2 ^ (Zpos (digits2_pos p) - 1)) by (apply Z.pow_le_mono_r; lia).
  lia.
Qed.

(** A mantissa of 53 bits with an exponent in range is left as it is. *)
Lemma shr_fexp_canonical (m : positive) (e : Z) l :
  digits2_pos m = 53%positive -> -1074 <= e ->
  shr_fexp prec emax (Zpos m) e l = (shr_record_of_loc (Zpos m) l, e).
Proof.
  intros Hm He. unfold shr_fexp, Zdigits2, fexp, emin, prec, emax. rewrite Hm.
  replace (Z.max (53 + e - 53) (3 - 1024 - 53) - e) with 0 by lia. reflexivity.
Qed.

Lemma binary_round_aux_canonical s (m : positive) (e : Z) :
  digits2_pos m = 53%positive -> -1074 <= e <= 971 ->
  binary_round_aux prec emax s (Zpos m) e loc_Exact = S754_finite s m e.
Proof.
  intros Hm He. unfold binary_round_aux.
  rewrite shr_fexp_canonical by (done || lia).
  cbn [shr_record_of_loc shr_m loc_of_shr_record round_nearest_even].
  rewrite shr_fexp_canonical by (done || lia).
  cbn [shr_record_of_loc shr_m].
  replace (e <=? emax - prec) with true; [done|].
  symmetry. apply Z.leb_le. unfold emax, prec. lia.
Qed.

(** [float(n)] for a positive integer below [2^53]: the integer itself,
    with a mantissa of 53 bits. *)
Lemma float_of_int_small (n : Z) :
  0 < n < 2 ^ 53 ->
  exists m e,
    float_of_int n = Ok (S754_finite false m e) /\
    digits2_pos m = 53%positive /\ -52 <= e <= 0 /\
    Zpos m = n * 2 ^ (- e).
Proof.
  intros [Hpos Hlt]. destruct n as [|p|p]; try lia.
  pose proof (digits2_pos_small p Hlt) as Hd.
  unfold float_of_int, binary_normalize, binary_round, shl_align, fexp, emin, prec, emax.
  destruct (Z.max (Zpos (digits2_pos p) + 0 - 53) (3 - 1024 - 53) - 0) as [|q|q] eqn:E;
    [|lia|].
  - assert (Hp : digits2_pos p = 53%positive) by lia.
    change (binary_round_aux 53 1024) with (binary_round_aux prec emax).
    rewrite binary_round_aux_canonical by (done || lia).
    exists p, 0. repeat split; try done; lia.
  - assert (Hq : Zpos (digits2_pos p) + Zpos q = 53) by lia.
    assert (Hdig : digits2_pos (Pos.iter xO p q) = 53%positive)
      by (rewrite iter_xO_digits; lia).
    change (binary_round_aux 53 1024) with (binary_round_aux prec emax).
    rewrite binary_round_aux_canonical by (done || lia).
    exists (Pos.iter xO p q), (Z.neg q). split; [do 2 f_equal; lia|]. split; [done|].
    split; [lia|]. rewrite iter_xO_value. done.
Qed.

(** [int(float(n)) = n] below [2^53]. *)
Lemma int_of_float_of_int (n : Z) :
  0 <= n < 2 ^ 53 ->
  exists x, float_of_int n = Ok x /\ int_of_float x = Ok n.
Proof.
  intros [Hn Hlt]. destruct (Z.eq_dec n 0) as [->|Hne]; [by exists fzero|].
  destruct (float_of_int_small n) as (m & e & Hx & _ & He & Hm); [lia|].
  exists (S754_finite false m e). split; [done|].
  cbn [int_of_float cond_Zopp]. f_equal.
  rewrite <- (Z.opp_involutive e), Z.shiftl_opp_r, Z.shiftr_div_pow2 by lia.
  rewrite Hm. apply Z.div_mul. apply Z.pow_nonzero; lia.
Qed.

(** [1.0 * x] is [x] for a normal number. *)
Lemma fmul_one_l (m : positive) (e : Z) :
  digits2_pos m = 53%positive -> -1022 <= e <= 971 ->
  fmul fone (S754_finite false m e) = S754_finite false m e.
Proof.
  intros Hm He. unfold fmul, fone, SFmul, binary_round_aux. cbn [xorb].
  change (4503599627370496 * m)%positive with (Pos.iter xO m 52).
  unfold shr_fexp at 1. unfold Zdigits2, fexp, emin, prec, emax.
  rewrite iter_xO_digits, Hm.
  replace (Z.max (Zpos (53 + 52) + (-52 + e) - 53) (3 - 1024 - 53) - (-52 + e))
    with 52 by lia.
  cbn [shr shr_record_of_loc].
  change (SpecFloat.iter_pos shr_1 52 {| shr_m := Zpos (Pos.iter xO m 52);
                                         shr_r := false; shr_s := false |})
    with {| shr_m := Zpos m; shr_r := false; shr_s := false |}.
  cbn [shr_m loc_of_shr_record round_nearest_even].
  replace (-52 + e + 52) with e by lia.
  change (shr_fexp 53 1024) with (shr_fexp prec emax).
  rewrite shr_fexp_canonical by (done || lia).
  cbn [shr_record_of_loc shr_m].
  replace (e <=? 1024 - 53) with true; [done|].
  symmetry. apply Z.leb_le. lia.
Qed.

End ExactFloats.

Section SplitEnds.
Context `{NumPyRandom}.
Import ExactFloats.

(** The cut point for [val_split = 1.0] and for [val_split = 0.0]. *)
Lemma cut_point_one (idx : list nat) :
  Z.of_nat (length idx) < 2 ^ 53 -> SignLanguageMNIST.cut_point fone idx = Ok 0.
Proof.
  intros Hn. unfold SignLanguageMNIST.cut_point.
  destruct (Z.eq_dec (Z.of_nat (length idx)) 0) as [->|Hne]; [done|].
  destruct (float_of_int_small (Z.of_nat (length idx))) as (m & e & -> & _); [lia|].
  reflexivity.
Qed.

Lemma cut_point_zero (idx : list nat) :
  Z.of_nat (length idx) < 2 ^ 53 ->
  SignLanguageMNIST.cut_point fzero idx = Ok (Z.of_nat (length idx)).
Proof.
  intros Hn. unfold SignLanguageMNIST.cut_point.
  destruct (Z.eq_dec (Z.of_nat (length idx)) 0) as [E|Hne]; [by rewrite E|].
  destruct (int_of_float_of_int (Z.of_nat (length idx))) as (x & Hx & Hint); [lia|].
  destruct (float_of_int_small (Z.of_nat (length idx))) as (m & e & Hx' & Hm & He & _);
    [lia|].
  rewrite Hx' in Hx. injection Hx as <-. rewrite Hx'.
  change (fsub fone fzero) with fone. rewrite fmul_one_l by (done || lia). done.
Qed.

(** X2.  With [val_split = 1.0] the cut is at 0: the training indices are
    empty and every row number is in the validation list.  The call returns
    for any data of fewer than [2^53] rows. *)
Theorem split_all_validation data seed shuffle (w : world) :
  Z.of_nat (length data) < 2 ^ 53 ->
  exists va w',
    SignLanguageMNIST._train_val_split data fone seed shuffle w = (Ok ([], va), w') /\
    va ≡ₚ seq 0 (length data).
Proof.
  intros Hn. rewrite _train_val_split_eq.
  pose proof (split_order_perm (length data) shuffle w) as Hperm.
  destruct (split_order (length data) shuffle w) as [idx w']. cbn [fst] in Hperm.
  assert (Hlen : length idx = length data) by (by rewrite Hperm, length_seq).
  rewrite cut_point_one by (rewrite Hlen; lia).
  exists idx, w'. split; [|done].
  unfold slice_to, slice_from, clip. cbn.
  replace (Z.to_nat (Z.min 0 (Z.of_nat (length idx)))) with 0%nat by lia.
  by rewrite take_0, drop_0.
Qed.

(** X3.  With [val_split = 0.0] the cut is at the number of rows: every row
    number is in the training list and the validation list is empty.  The
    call returns for any data of fewer than [2^53] rows, where [float(len)]
    is exact. *)
Theorem split_no_validation data seed shuffle (w : world) :
  Z.of_nat (length data) < 2 ^ 53 ->
  exists tr w',
    SignLanguageMNIST._train_val_split data fzero seed shuffle w = (Ok (tr, []), w') /\
    tr ≡ₚ seq 0 (length data).
Proof.
  intros Hn. rewrite _train_val_split_eq.
  pose proof (split_order_perm (length data) shuffle w) as Hperm.
  destruct (split_order (length data) shuffle w) as [idx w']. cbn [fst] in Hperm.
  assert (Hlen : length idx = length data) by (by rewrite Hperm, length_seq).
  rewrite cut_point_zero by (rewrite Hlen; lia).
  exists idx, w'. split; [|done].
  assert (Hclip : clip (Z.of_nat (length idx)) (length idx) = length idx).
  { unfold clip. destruct (Z.ltb_spec (Z.of_nat (length idx)) 0); lia. }
  unfold slice_to, slice_from. rewrite Hclip, firstn_all, drop_all. done.
Qed.

End SplitEnds.

(* ===================================================================== *)
(** * More about the training loop *)
(* ===================================================================== *)

Section SampleFacts.
Context `{NumPyRandom} `{Torch}.

(** X11.  On a dataset built from a file of 785 columns, [__getitem__] at
    an index below the length returns the pixels of that row, passed
    through the transform when there is one, together with the label of the
    same row, passed through the label transform when there is one.  At an
    index from the length on it raises [IndexError] and leaves the engine
    as it was. *)
Theorem getitem_pairs_row csv_file phase v sh tf ltf (w w' : world) ds table :
  files w !! csv_file = Some table ->
  Forall (fun row => length row = 785%nat) table ->
  SignLanguageMNIST.__init__ csv_file phase v sh tf ltf w = (Ok ds, w') ->
  forall (idx : nat) (g : engine),
    match SignLanguageMNIST.data ds !! idx with
    | Some row =>
        let label := match ltf with Some f => f (hd 0 row) | None => hd 0 row end in
        __getitem__ ds idx g =
          match tf with
          | Some t => (Ok (Transformed (apply_transform t (drop 1 row) g).1, label),
                       (apply_transform t (drop 1 row) g).2)
          | None => (Ok (Raw (drop 1 row), label), g)
          end
    | None => __getitem__ ds idx g = (Raise IndexError, g)
    end.
Proof.
  intros Htable Hrows Hrun idx g.
  destruct (init_rows_images_labels _ _ _ _ _ _ _ _ _ _ Htable Hrows Hrun)
    as (Himg & Hlab & _).
  apply init_Ok in Hrun as (_ & _ & _ & _ & _ & _ & _ & _ & _ & _ & _ & Htf & Hltf).
  unfold __getitem__. rewrite Himg, Hlab, !list_lookup_fmap, Htf, Hltf.
  destruct (SignLanguageMNIST.data ds !! idx) as [row|]; cbn [fmap option_fmap option_map]; [|done].
  destruct tf as [t|]; unfold bind, ret; [|done].
  by destruct (apply_transform t (drop 1 row) g).
Qed.

End SampleFacts.

Section LoopFacts.
Context `{Torch}.
Variable dataloaders : gmap string DataLoader.
Variable criterion : outputs_t -> list Z -> loss_t.
Variable optimizer : optimizer_t.
Variable scheduler : option scheduler_t.

(** What the batch loop leaves alone: the local variables, what was printed
    and logged, the file system, and the class and mode of the model. *)
Definition surroundings (s : trainer)
    : locals * list line * list writer_event * list os_event * list string * string * bool :=
  (vars s, stdout (proc s), writer (proc s), os_log (proc s), dirs (proc s),
   class_name (model (proc s)), training (model (proc s))).

Definition settled x (s : trainer) : Prop := surroundings s = x.

Lemma settled_torch_do x f : keeps (settled x) (torch_do f).
Proof. by intros s. Qed.
Lemma settled_torch_run x {A} (m : M engine A) : keeps (settled x) (torch_run m).
Proof. intros s Hs. unfold torch_run. by destruct (m (torch (proc s))). Qed.
Lemma settled_call_model x grad images : keeps (settled x) (call_model grad images).
Proof.
  intros s Hs. unfold call_model.
  by destruct (forward _ grad _ images _) as [[out p'] g'].
Qed.
Lemma settled_step x : keeps (settled x) (step optimizer).
Proof. intros s Hs. unfold step. by destruct (optimizer_step _ _ _) as [p' g']. Qed.

Lemma settled_batch_body x phase dl idxs running :
  keeps (settled x) (batch_body criterion optimizer phase dl idxs running).
Proof.
  unfold batch_body. destruct running as [rl rc].
  apply keeps_bind; [apply settled_torch_run|]. intros [images labels].
  apply keeps_bind; [apply settled_torch_do|]. intros _.
  apply keeps_bind; [apply settled_call_model|]. intros outputs.
  apply keeps_bind.
  { destruct (String.eqb phase "train"); [|apply keeps_ret].
    apply keeps_bind; [apply settled_torch_do|]. intros _. apply settled_step. }
  intros _. apply keeps_bind; [apply keeps_lift|]. intros b. apply keeps_ret.
Qed.

Lemma settled_batch_loop x phase dl batches : forall running,
  keeps (settled x) (batch_loop criterion optimizer phase dl batches running).
Proof.
  induction batches as [|idxs batches IH]; intros running; cbn [batch_loop].
  - apply keeps_ret.
  - apply keeps_bind; [apply settled_batch_body|]. intros r. apply IH.
Qed.

Lemma settled_run {A} (m : M trainer A) s r s' :
  (forall x, keeps (settled x) m) -> m s = (r, s') -> surroundings s' = surroundings s.
Proof. intros Hm Hrun. specialize (Hm (surroundings s) s eq_refl). by rewrite Hrun in Hm. Qed.

Ltac rewrite_state H :=
  unfold print, writer_add, os_do, os_makedirs, torch_do, set_training,
    load_state_dict, on_vars, on_proc in H;
  apply modify_Ok in H; subst.

(** Everything a completed phase has done outside the model's parameters
    and the engine. *)
Lemma phase_body_effects epoch phase s s' :
  phase_body dataloaders criterion optimizer scheduler epoch phase s = (Ok tt, s') ->
  exists loss acc ll la,
    train_val_loss (vars s) !! phase = Some ll /\
    train_val_acc (vars s) !! phase = Some la /\
    train_val_loss (vars s') = <[phase := ll ++ [loss] ]> (train_val_loss (vars s)) /\
    train_val_acc (vars s') = <[phase := la ++ [acc] ]> (train_val_acc (vars s)) /\
    train_val_loss_dict (vars s') = <[phase := loss]> (train_val_loss_dict (vars s)) /\
    train_val_acc_dict (vars s') = <[phase := acc]> (train_val_acc_dict (vars s)) /\
    writer (proc s') = writer (proc s) ++
      [add_scalar (String.append "Loss/" phase) loss epoch;
       add_scalar (String.append "Accuracy/" phase) acc epoch] /\
    os_log (proc s') = os_log (proc s) /\
    dirs (proc s') = dirs (proc s) /\
    class_name (model (proc s')) = class_name (model (proc s)) /\
    training (model (proc s')) = String.eqb phase "train".
Proof.
  intros Hrun. unfold phase_body in Hrun.
  apply bind_Ok in Hrun as (u & s1 & H1 & Hrun). rewrite_state H1.
  apply bind_Ok in Hrun as (dl & s2 & H2 & Hrun). apply dict_get_Ok in H2 as [Hdl ->].
  apply bind_Ok in Hrun as (batches & s3 & H3 & Hrun).
  apply (settled_run _ _ _ _ (fun x => settled_torch_run x _)) in H3.
  apply bind_Ok in Hrun as ([rl rc] & s4 & H4 & Hrun).
  apply (settled_run _ _ _ _ (fun x => settled_batch_loop x _ _ _ _)) in H4.
  apply bind_Ok in Hrun as (u5 & s5 & H5 & Hrun).
  assert (Hq5 : surroundings s5 = surroundings s4).
  { destruct scheduler as [sch|]; [destruct (String.eqb phase "train")|].
    - rewrite_state H5. done.
    - by apply ret_Ok in H5 as [_ ->].
    - by apply ret_Ok in H5 as [_ ->]. }
  clear H5. rewrite H4, H3 in Hq5. clear H3 H4.
  unfold surroundings in Hq5. cbn [vars proc stdout writer os_log dirs model class_name
    training with_model] in Hq5.
  injection Hq5 as Hv Ho Hw Hos Hd Hc Ht.
  apply bind_Ok in Hrun as (dl6 & s6 & H6 & Hrun). apply dict_get_Ok in H6 as [Hdl6 ->].
  apply bind_Ok in Hrun as (epoch_loss & s7 & H7 & Hrun). apply lift_Ok in H7 as [Hloss ->].
  apply bind_Ok in Hrun as (v8 & s8 & H8 & Hrun). injection H8 as <- <-.
  apply bind_Ok in Hrun as (losses & s9 & H9 & Hrun).
  apply dict_append_Ok in H9 as (ll & Hll & -> & ->).
  apply bind_Ok in Hrun as (u10 & s10 & H10 & Hrun). rewrite_state H10.
  apply bind_Ok in Hrun as (u11 & s11 & H11 & Hrun). rewrite_state H11.
  apply bind_Ok in Hrun as (dl12 & s12 & H12 & Hrun). apply dict_get_Ok in H12 as [Hdl12 ->].
  apply bind_Ok in Hrun as (epoch_acc & s13 & H13 & Hrun). apply lift_Ok in H13 as [Hacc ->].
  apply bind_Ok in Hrun as (v14 & s14 & H14 & Hrun). injection H14 as <- <-.
  apply bind_Ok in Hrun as (accs & s15 & H15 & Hrun).
  apply dict_append_Ok in H15 as (la & Hla & -> & ->).
  apply bind_Ok in Hrun as (u16 & s16 & H16 & Hrun). rewrite_state H16.
  apply bind_Ok in Hrun as (u17 & s17 & H17 & Hrun). rewrite_state H17.
  apply bind_Ok in Hrun as (u18 & s18 & H18 & Hrun). rewrite_state H18.
  apply bind_Ok in Hrun as (u19 & s19 & H19 & Hrun). rewrite_state H19.
  apply bind_Ok in Hrun as (v20 & s20 & H20 & Hrun). injection H20 as <- <-.
  cbn [vars proc best_acc train_val_acc train_val_loss] in Hrun, Hla, Hll.
  rewrite Hv in Hll, Hla.
  exists epoch_loss, epoch_acc, ll, la.
  split; [done|]. split; [done|].
  destruct (String.eqb phase "val" && fgt epoch_acc (best_acc (vars s5))).
  - apply bind_Ok in Hrun as (m21 & s21 & H21 & Hrun). injection H21 as <- <-.
    apply bind_Ok in Hrun as (u22 & s22 & H22 & Hrun). rewrite_state H22.
    rewrite_state Hrun. cbn. rewrite Hv, Hw, Hos, Hd, Hc, Ht. rewrite <- app_assoc. done.
  - apply ret_Ok in Hrun as [_ ->]. cbn. rewrite Hv, Hw, Hos, Hd, Hc, Ht.
    rewrite <- app_assoc. done.
Qed.


(** The four numbers of one epoch. *)
Record epoch_metrics : Type := {
  loss_train : float;
  acc_train : float;
  loss_val : float;
  acc_val : float;
}.

Definition by_phase {V} (train val : V) : gmap string V :=
  <["val" := val]> (<["train" := train]> ∅).

(** What one epoch sends to the writer. *)
Definition epoch_events (epoch : Z) (r : epoch_metrics) : list writer_event :=
  [add_scalar "Loss/train" (loss_train r) epoch;
   add_scalar "Accuracy/train" (acc_train r) epoch;
   add_scalar "Loss/val" (loss_val r) epoch;
   add_scalar "Accuracy/val" (acc_val r) epoch;
   add_scalars "Loss: Train vs. Val" (by_phase (loss_train r) (loss_val r)) epoch;
   add_scalars "Accuracy: Train vs. Val" (by_phase (acc_train r) (acc_val r)) epoch].

Lemma by_phase_overwrite {V} (t v t' v' : V) :
  <["val" := v']> (<["train" := t']> (by_phase t v)) = by_phase t' v'.
Proof.
  unfold by_phase.
  rewrite (insert_insert_ne (<["train" := t]> ∅) "train" "val") by done.
  by rewrite insert_insert_eq, insert_insert_eq.
Qed.

(** The combined dictionaries hold nothing, or the numbers of one epoch. *)
Definition fresh_or_empty {V} (d : gmap string V) : Prop :=
  d = ∅ \/ exists t v, d = by_phase t v.

Lemma fresh_or_empty_update {V} (d : gmap string V) t v :
  fresh_or_empty d -> <["val" := v]> (<["train" := t]> d) = by_phase t v.
Proof. intros [->|(t0 & v0 & ->)]; [done|apply by_phase_overwrite]. Qed.

Lemma epoch_body_effects epoch s s' :
  epoch_body dataloaders criterion optimizer scheduler epoch s = (Ok tt, s') ->
  exists r llt llv lat lav,
    train_val_loss (vars s) !! "train" = Some llt /\
    train_val_loss (vars s) !! "val" = Some llv /\
    train_val_acc (vars s) !! "train" = Some lat /\
    train_val_acc (vars s) !! "val" = Some lav /\
    train_val_loss (vars s') =
      <["val" := llv ++ [loss_val r] ]>
        (<["train" := llt ++ [loss_train r] ]> (train_val_loss (vars s))) /\
    train_val_acc (vars s') =
      <["val" := lav ++ [acc_val r] ]>
        (<["train" := lat ++ [acc_train r] ]> (train_val_acc (vars s))) /\
    train_val_loss_dict (vars s') =
      <["val" := loss_val r]> (<["train" := loss_train r]> (train_val_loss_dict (vars s))) /\
    train_val_acc_dict (vars s') =
      <["val" := acc_val r]> (<["train" := acc_train r]> (train_val_acc_dict (vars s))) /\
    writer (proc s') = writer (proc s) ++
      [add_scalar "Loss/train" (loss_train r) epoch;
       add_scalar "Accuracy/train" (acc_train r) epoch;
       add_scalar "Loss/val" (loss_val r) epoch;
       add_scalar "Accuracy/val" (acc_val r) epoch;
       add_scalars "Loss: Train vs. Val" (train_val_loss_dict (vars s')) epoch;
       add_scalars "Accuracy: Train vs. Val" (train_val_acc_dict (vars s')) epoch] /\
    os_log (proc s') = os_log (proc s) /\
    dirs (proc s') = dirs (proc s) /\
    class_name (model (proc s')) = class_name (model (proc s)) /\
    training (model (proc s')) = false.
Proof.
  intros Hrun. unfold epoch_body in Hrun.
  apply bind_Ok in Hrun as (u1 & s1 & H1 & Hrun). rewrite_state H1.
  apply bind_Ok in Hrun as (u2 & s2 & H2 & Hrun). rewrite_state H2.
  apply bind_Ok in Hrun as (u3 & s3 & H3 & Hrun).
  cbn [for_each] in H3.
  apply bind_Ok in H3 as (u4 & s4 & Htrain & H3).
  apply bind_Ok in H3 as (u5 & s5 & Hval & H3).
  apply ret_Ok in H3 as [_ ->]. destruct u4, u5.
  apply phase_body_effects in Htrain
    as (lt & at_ & llt & lat & Hllt & Hlat & Hl1 & Ha1 & Hld1 & Had1 & Hw1 & Ho1 & Hd1 & Hc1 & _).
  apply phase_body_effects in Hval
    as (lv & av & llv & lav & Hllv & Hlav & Hl2 & Ha2 & Hld2 & Had2 & Hw2 & Ho2 & Hd2 & Hc2 & Ht2).
  cbn [vars proc writer os_log dirs model] in *.
  apply bind_Ok in Hrun as (v6 & s6 & H6 & Hrun). injection H6 as <- <-.
  apply bind_Ok in Hrun as (u7 & s7 & H7 & Hrun). rewrite_state H7.
  apply bind_Ok in Hrun as (u8 & s8 & H8 & Hrun). rewrite_state H8.
  rewrite_state Hrun. cbn [vars proc writer os_log dirs model].
  rewrite Hl1, lookup_insert_ne in Hllv by done.
  rewrite Ha1, lookup_insert_ne in Hlav by done.
  exists {| loss_train := lt; acc_train := at_; loss_val := lv; acc_val := av |},
    llt, llv, lat, lav.
  cbn [loss_train acc_train loss_val acc_val].
  split; [done|]. split; [done|]. split; [done|]. split; [done|].
  split; [by rewrite Hl2, Hl1|]. split; [by rewrite Ha2, Ha1|].
  split; [by rewrite Hld2, Hld1|]. split; [by rewrite Had2, Had1|].
  split.
  { rewrite Hw2, Hw1. cbn. rewrite <- !app_assoc. done. }
  split; [congruence|]. split; [congruence|]. split; [congruence|]. done.
Qed.

Lemma range_up_to (n : nat) :
  range 1 (Z.of_nat (S n) + 1) = range 1 (Z.of_nat n + 1) ++ [Z.of_nat (S n)] /\
  length (range 1 (Z.of_nat n + 1)) = n.
Proof.
  split; [apply range_succ|].
  unfold range. rewrite length_map, length_seq. lia.
Qed.

(** The state of the logs after [n] epochs. *)
Lemma after_epochs_log n : forall s s_n,
  after_epochs dataloaders criterion optimizer scheduler n s = (Ok tt, s_n) ->
  (exists rows,
     length rows = n /\
     train_val_loss (vars s_n) = by_phase (map loss_train rows) (map loss_val rows) /\
     train_val_acc (vars s_n) = by_phase (map acc_train rows) (map acc_val rows) /\
     writer (proc s_n) = writer (proc s) ++
       concat (zip_with epoch_events (range 1 (Z.of_nat n + 1)) rows)) /\
  fresh_or_empty (train_val_loss_dict (vars s_n)) /\
  fresh_or_empty (train_val_acc_dict (vars s_n)) /\
  os_log (proc s_n) = os_log (proc s) /\
  dirs (proc s_n) = dirs (proc s) /\
  class_name (model (proc s_n)) = class_name (model (proc s)) /\
  training (model (proc s_n)) = (if n is O then training (model (proc s)) else false).
Proof.
  induction n as [|n IH]; intros s s_n Hrun.
  - rewrite after_epochs_0 in Hrun. injection Hrun as <-.
    split; [exists []; repeat split; cbn; by rewrite ?app_nil_r|].
    repeat split; by left.
  - destruct (after_epochs_succ _ _ _ _ _ _ _ Hrun) as (s0 & Hrun0 & Hbody).
    destruct (IH s s0 Hrun0)
      as ((rows & Hlen & Hloss & Hacc & Hw) & Hfl & Hfa & Hos & Hd & Hc & _).
    apply epoch_body_effects in Hbody
      as (r & llt & llv & lat & lav & Hllt & Hllv & Hlat & Hlav &
          Hl' & Ha' & Hld' & Had' & Hw' & Hos' & Hd' & Hc' & Ht').
    rewrite Hloss in Hllt, Hllv, Hl'. rewrite Hacc in Hlat, Hlav, Ha'.
    unfold by_phase in Hllt, Hllv, Hlat, Hlav.
    rewrite lookup_insert_ne, lookup_insert_eq in Hllt, Hlat by done.
    rewrite lookup_insert_eq in Hllv, Hlav.
    injection Hllt as <-. injection Hllv as <-. injection Hlat as <-. injection Hlav as <-.
    rewrite by_phase_overwrite in Hl', Ha'.
    rewrite (fresh_or_empty_update _ _ _ Hfl) in Hld'.
    rewrite (fresh_or_empty_update _ _ _ Hfa) in Had'.
    split.
    + exists (rows ++ [r]). rewrite length_app, !map_app. cbn [length map].
      split; [lia|]. split; [done|]. split; [done|].
      destruct (range_up_to n) as [-> Hrl].
      rewrite zip_with_app by lia. cbn [zip_with]. rewrite concat_app. cbn [concat].
      rewrite app_nil_r, Hw', Hw, Hld', Had', <- app_assoc. done.
    + split; [right; eauto|]. split; [right; eauto|].
      repeat split; congruence.
Qed.


(** The path [train] saves to. *)
Definition model_path (m : Module_) : string :=
  String.append SAVE_MODEL_DIR (String.append "/" (String.append (class_name m) "_best.pt")).

(** What the statements after the epoch loop add to the file-system log. *)
Definition closing_events (save plot : bool) (s_n : trainer) (m : Module_) : list os_event :=
  (if plot then [plot_training (train_val_loss (vars s_n)) (train_val_acc (vars s_n))] else [])
  ++ (if save
      then (if str_in SAVE_MODEL_DIR (dirs (proc s_n)) then [] else [makedirs SAVE_MODEL_DIR])
           ++ [torch_save m (model_path m)]
      else []).

(** A completed run, cut into the epoch loop and what follows it. *)
Lemma train_effects save num_epochs plot s m s' :
  train dataloaders criterion optimizer scheduler save num_epochs plot s = (Ok m, s') ->
  exists s_n,
    after_epochs dataloaders criterion optimizer scheduler (Z.to_nat num_epochs) s
      = (Ok tt, s_n) /\
    vars s' = vars s_n /\
    writer (proc s') = writer (proc s_n) /\
    m = {| class_name := class_name (model (proc s_n));
           state_dict := best_model_wts (vars s_n);
           training := training (model (proc s_n)) |} /\
    model (proc s') = m /\
    os_log (proc s') = os_log (proc s_n) ++ closing_events save plot s_n m /\
    dirs (proc s') =
      (if save && negb (str_in SAVE_MODEL_DIR (dirs (proc s_n)))
       then SAVE_MODEL_DIR :: dirs (proc s_n) else dirs (proc s_n)).
Proof.
  intros Hrun. unfold train in Hrun.
  apply bind_Ok in Hrun as (m0 & s0 & H0 & Hrun). injection H0 as <- <-.
  apply bind_Ok in Hrun as (u1 & s1 & H1 & Hrun). rewrite_state H1.
  apply bind_Ok in Hrun as (u2 & s2 & H2 & Hrun). rewrite_state H2.
  apply bind_Ok in Hrun as ([] & s_n & Hloop & Hrun).
  exists s_n. split.
  { unfold after_epochs. rewrite <- Hloop. f_equal. unfold range.
    replace (Z.to_nat (Z.of_nat (Z.to_nat num_epochs) + 1 - 1))
      with (Z.to_nat (num_epochs + 1 - 1)) by lia.
    reflexivity. }
  clear Hloop. unfold closing_events, model_path.
  apply bind_Ok in Hrun as (v & s3 & H3 & Hrun). injection H3 as <- <-.
  apply bind_Ok in Hrun as (u4 & s4 & H4 & Hrun).
  destruct s_n as [[mn gn wn on ln dn] vn]. cbn [vars proc model writer os_log dirs] in *.
  destruct plot.
  - rewrite_state H4.
    apply bind_Ok in Hrun as (u5 & s5 & H5 & Hrun). rewrite_state H5.
    apply bind_Ok in Hrun as (u6 & s6 & H6 & Hrun).
    destruct save.
    + apply bind_Ok in H6 as (p7 & s7 & H7 & H6). injection H7 as <- <-.
      apply bind_Ok in H6 as (u8 & s8 & H8 & H6). cbn [proc dirs with_model] in H8.
      destruct (str_in SAVE_MODEL_DIR dn) eqn:Edir; cbn [negb] in H8.
      * apply ret_Ok in H8 as [_ ->].
        apply bind_Ok in H6 as (m9 & s9 & H9 & H6). injection H9 as <- <-.
        apply bind_Ok in H6 as (u10 & s10 & H10 & H6). rewrite_state H10.
        rewrite_state H6. injection Hrun as <- <-. cbn. by rewrite <- ?app_assoc, ?app_nil_r.
      * rewrite_state H8.
        apply bind_Ok in H6 as (m9 & s9 & H9 & H6). injection H9 as <- <-.
        apply bind_Ok in H6 as (u10 & s10 & H10 & H6). rewrite_state H10.
        rewrite_state H6. injection Hrun as <- <-. cbn. by rewrite <- ?app_assoc, ?app_nil_r.
    + apply ret_Ok in H6 as [_ ->]. injection Hrun as <- <-. cbn. by rewrite <- ?app_assoc, ?app_nil_r.
  - apply ret_Ok in H4 as [_ ->].
    apply bind_Ok in Hrun as (u5 & s5 & H5 & Hrun). rewrite_state H5.
    apply bind_Ok in Hrun as (u6 & s6 & H6 & Hrun).
    destruct save.
    + apply bind_Ok in H6 as (p7 & s7 & H7 & H6). injection H7 as <- <-.
      apply bind_Ok in H6 as (u8 & s8 & H8 & H6). cbn [proc dirs with_model] in H8.
      destruct (str_in SAVE_MODEL_DIR dn) eqn:Edir; cbn [negb] in H8.
      * apply ret_Ok in H8 as [_ ->].
        apply bind_Ok in H6 as (m9 & s9 & H9 & H6). injection H9 as <- <-.
        apply bind_Ok in H6 as (u10 & s10 & H10 & H6). rewrite_state H10.
        rewrite_state H6. injection Hrun as <- <-. cbn. by rewrite <- ?app_assoc, ?app_nil_r.
      * rewrite_state H8.
        apply bind_Ok in H6 as (m9 & s9 & H9 & H6). injection H9 as <- <-.
        apply bind_Ok in H6 as (u10 & s10 & H10 & H6). rewrite_state H10.
        rewrite_state H6. injection Hrun as <- <-. cbn. by rewrite <- ?app_assoc, ?app_nil_r.
    + apply ret_Ok in H6 as [_ ->]. injection Hrun as <- <-. cbn. by rewrite <- ?app_assoc, ?app_nil_r.
Qed.


Lemma train_split save num_epochs plot s m :
  (train dataloaders criterion optimizer scheduler save num_epochs plot s).1 = Ok m ->
  train dataloaders criterion optimizer scheduler save num_epochs plot s =
    (Ok m, (train dataloaders criterion optimizer scheduler save num_epochs plot s).2).
Proof.
  destruct (train dataloaders criterion optimizer scheduler save num_epochs plot s)
    as [r s']. cbn [fst snd]. by intros ->.
Qed.

Lemma range_to_nat (n : Z) : range 1 (Z.of_nat (Z.to_nat n) + 1) = range 1 (n + 1).
Proof.
  unfold range.
  replace (Z.to_nat (Z.of_nat (Z.to_nat n) + 1 - 1)) with (Z.to_nat (n + 1 - 1)) by lia.
  reflexivity.
Qed.

(** X12.  After a run of [train] that returns, there is one row of four
    numbers per epoch (loss and accuracy of the training and of the
    validation phase) such that the two history dictionaries hold exactly
    these numbers, per phase and in epoch order, and the writer has received,
    for each epoch in turn and tagged with its number, the four [add_scalar]
    events and the two [add_scalars] events with that epoch's own numbers. *)
Theorem train_metric_log save num_epochs plot (s : trainer) (m : Module_) :
  (train dataloaders criterion optimizer scheduler save num_epochs plot s).1 = Ok m ->
  let s' := (train dataloaders criterion optimizer scheduler save num_epochs plot s).2 in
  exists rows : list epoch_metrics,
    length rows = Z.to_nat num_epochs /\
    train_val_loss (vars s') = by_phase (map loss_train rows) (map loss_val rows) /\
    train_val_acc (vars s') = by_phase (map acc_train rows) (map acc_val rows) /\
    writer (proc s') = writer (proc s) ++
      concat (zip_with epoch_events (range 1 (num_epochs + 1)) rows).
Proof.
  intros Hm s'. apply train_split, train_effects in Hm
    as (s_n & Hrun & Hv & Hw & _). fold s' in Hv, Hw.
  apply after_epochs_log in Hrun as ((rows & Hlen & Hl & Ha & Hwn) & _).
  exists rows. rewrite Hv, Hw, <- (range_to_nat num_epochs). done.
Qed.

(** X13.  The model that [train] returns has the class of the model it was
    given, and after at least one epoch it is in evaluation mode, since the
    last phase of every epoch is ["val"].  With no epoch its mode is the one
    it had. *)
Theorem train_returns_model_in_eval_mode save num_epochs plot (s : trainer) (m : Module_) :
  (train dataloaders criterion optimizer scheduler save num_epochs plot s).1 = Ok m ->
  class_name m = class_name (model (proc s)) /\
  training m = (if 0 <? num_epochs then false else training (model (proc s))).
Proof.
  intros Hm. apply train_split, train_effects in Hm as (s_n & Hrun & _ & _ & -> & _).
  apply after_epochs_log in Hrun as (_ & _ & _ & _ & _ & Hc & Ht).
  cbn [class_name training]. split; [done|]. rewrite Ht.
  destruct (Z.ltb_spec 0 num_epochs) as [Hpos|Hneg].
  - destruct (Z.to_nat num_epochs) eqn:E; [lia|done].
  - by replace (Z.to_nat num_epochs) with 0%nat by lia.
Qed.

(** X14.  What a run of [train] that returns does to the file system: it
    plots the two histories when [plot] is set; when [save] is set it
    creates [saved_models] if and only if the directory is missing, and
    saves the returned model (the best checkpoint restored) under
    [saved_models/<class name>_best.pt]; nothing else.  The model of the
    process is the returned one. *)
Theorem train_saves_returned_model save num_epochs plot (s : trainer) (m : Module_) :
  (train dataloaders criterion optimizer scheduler save num_epochs plot s).1 = Ok m ->
  let s' := (train dataloaders criterion optimizer scheduler save num_epochs plot s).2 in
  os_log (proc s') = os_log (proc s)
    ++ (if plot then [plot_training (train_val_loss (vars s')) (train_val_acc (vars s'))]
        else [])
    ++ (if save
        then (if str_in SAVE_MODEL_DIR (dirs (proc s)) then [] else [makedirs SAVE_MODEL_DIR])
             ++ [torch_save m (model_path m)]
        else []) /\
  dirs (proc s') =
    (if save && negb (str_in SAVE_MODEL_DIR (dirs (proc s)))
     then SAVE_MODEL_DIR :: dirs (proc s) else dirs (proc s)) /\
  model (proc s') = m.
Proof.
  intros Hm s'. apply train_split, train_effects in Hm
    as (s_n & Hrun & Hv & _ & _ & Hmodel & Hos & Hd). fold s' in Hv, Hmodel, Hos, Hd.
  apply after_epochs_log in Hrun as (_ & _ & _ & Hosn & Hdn & _).
  unfold closing_events in Hos. rewrite Hos, Hd, Hv, Hosn, Hdn. done.
Qed.

Lemma range_cons (a b : Z) : a < b -> range a b = a :: range (a + 1) b.
Proof.
  intros Hab. unfold range.
  replace (Z.to_nat (b - a)) with (S (Z.to_nat (b - (a + 1)))) by lia.
  cbn [seq map]. f_equal; [lia|].
  rewrite <- seq_shift, map_map. apply map_ext. intros i. lia.
Qed.


(** What an exception leaves as it was: the parameters of the model, the
    writer's events, the files and directories and, with [with_engine] set,
    the state of the framework as well. *)
Definition untouched (with_engine : bool) (s s' : trainer) : Prop :=
  state_dict (model (proc s')) = state_dict (model (proc s)) /\
  writer (proc s') = writer (proc s) /\
  os_log (proc s') = os_log (proc s) /\
  dirs (proc s') = dirs (proc s) /\
  (if with_engine then torch (proc s') = torch (proc s) else True).

Lemma bind_raises {A B} (m : M trainer A) (k : A -> M trainer B) e (P : trainer -> Prop) s :
  (exists s1, m s = (Raise e, s1) /\ P s1) ->
  exists s1, bind m k s = (Raise e, s1) /\ P s1.
Proof. intros (s1 & Hm & HP). exists s1. unfold bind. by rewrite Hm. Qed.

Lemma bind_continues {A B} (m : M trainer A) (k : A -> M trainer B) e
    (P : trainer -> Prop) s a s0 :
  m s = (Ok a, s0) ->
  (exists s1, k a s0 = (Raise e, s1) /\ P s1) ->
  exists s1, bind m k s = (Raise e, s1) /\ P s1.
Proof. intros Hm Hk. unfold bind. by rewrite Hm. Qed.

Lemma bind_then {A B} (m : M trainer A) (k : A -> M trainer B) e
    (P : trainer -> Prop) s :
  (exists a s0, m s = (Ok a, s0) /\ exists s1, k a s0 = (Raise e, s1) /\ P s1) ->
  exists s1, bind m k s = (Raise e, s1) /\ P s1.
Proof. intros (a & s0 & Hm & Hk). by eapply bind_continues. Qed.

(** An exception of the first training phase ends [train]. *)
Lemma train_stops_in_first_phase with_engine save num_epochs plot e (s : trainer) :
  1 <= num_epochs ->
  (forall t, exists t', phase_body dataloaders criterion optimizer scheduler 1 "train" t
                        = (Raise e, t') /\ untouched with_engine t t') ->
  exists s', train dataloaders criterion optimizer scheduler save num_epochs plot s
             = (Raise e, s') /\ untouched with_engine s s'.
Proof.
  intros Hn Hphase. unfold train.
  eapply bind_continues; [reflexivity|].
  eapply bind_continues; [reflexivity|].
  eapply bind_continues; [reflexivity|].
  apply bind_raises. rewrite (range_cons 1) by lia. cbn [for_each].
  apply bind_raises. unfold epoch_body.
  eapply bind_continues; [reflexivity|].
  eapply bind_continues; [reflexivity|].
  apply bind_raises. cbn [for_each]. apply bind_raises.
  edestruct Hphase as (t' & Ht & Hk). exists t'. split; [exact Ht|].
  exact Hk.
Qed.

Lemma train_raises with_engine save num_epochs plot e (s s' : trainer) :
  train dataloaders criterion optimizer scheduler save num_epochs plot s = (Raise e, s') ->
  untouched with_engine s s' ->
  let r := train dataloaders criterion optimizer scheduler save num_epochs plot s in
  r.1 = Raise e /\
  state_dict (model (proc r.2)) = state_dict (model (proc s)) /\
  writer (proc r.2) = writer (proc s) /\
  os_log (proc r.2) = os_log (proc s).
Proof. intros -> (Hp & Hw & Ho & _). done. Qed.

(** X15.  Without a ["train"] entry in [dataloaders], [train] asked for at
    least one epoch raises [KeyError] at the first phase: no parameter has
    changed, the state of the framework (its generator, the optimizer and
    the scheduler) is as it was, nothing was sent to the writer, nothing
    plotted or saved, no directory created. *)
Theorem train_missing_loader save num_epochs plot (s : trainer) :
  dataloaders !! "train" = None ->
  1 <= num_epochs ->
  let r := train dataloaders criterion optimizer scheduler save num_epochs plot s in
  r.1 = Raise (KeyError "train") /\
  state_dict (model (proc r.2)) = state_dict (model (proc s)) /\
  torch (proc r.2) = torch (proc s) /\
  writer (proc r.2) = writer (proc s) /\
  os_log (proc r.2) = os_log (proc s) /\
  dirs (proc r.2) = dirs (proc s).
Proof.
  intros Hnone Hn.
  destruct (train_stops_in_first_phase true save num_epochs plot (KeyError "train") s Hn)
    as (s' & Hrun & Hp & Hw & Ho & Hd & Hg); [|by rewrite Hrun].
  intros t. unfold phase_body.
  eapply bind_continues; [reflexivity|].
  apply bind_raises. unfold dict_get. rewrite Hnone. eexists. split; [reflexivity|].
  by repeat split.
Qed.

(** X16.  With an empty training dataset, [train] asked for at least one
    epoch raises [ZeroDivisionError] when it averages the loss of the first
    training phase: no batch was run, so no parameter has changed, and
    nothing was sent to the writer, plotted or saved. *)
Theorem train_empty_training_set save num_epochs plot (s : trainer) (dl : DataLoader) :
  dataloaders !! "train" = Some dl ->
  SignLanguageMNIST.__len__ (dataset dl) = 0%nat ->
  1 <= num_epochs ->
  let r := train dataloaders criterion optimizer scheduler save num_epochs plot s in
  r.1 = Raise ZeroDivisionError /\
  state_dict (model (proc r.2)) = state_dict (model (proc s)) /\
  writer (proc r.2) = writer (proc s) /\
  os_log (proc r.2) = os_log (proc s).
Proof.
  intros Hdl Hempty Hn.
  destruct (train_stops_in_first_phase false save num_epochs plot ZeroDivisionError s Hn)
    as (s' & Hrun & Hk); [|by apply (train_raises false _ _ _ _ _ _ Hrun)].
  intros t. unfold phase_body.
  assert (Hbatches : forall g, exists g', batch_sampler dl g = (Ok [], g')).
  { intros g. unfold batch_sampler, sampler, bind.
    rewrite Hempty. destruct (shuffle dl); [|by exists g].
    pose proof (randperm_perm 0 g) as Hp. destruct (randperm 0 g) as [p g'].
    cbn [fst seq] in Hp. apply Permutation_nil_r in Hp as ->. by exists g'. }
  eapply bind_continues; [reflexivity|].
  eapply bind_continues; [unfold dict_get; by rewrite Hdl|].
  apply bind_then. edestruct Hbatches as [g' Hg].
  eexists _, _. split; [unfold torch_run; by rewrite Hg|].
  eapply bind_continues; [reflexivity|].
  assert (Hsched : forall t0 : trainer, exists t1,
    match scheduler with
    | Some sch => if String.eqb "train" "train" then torch_do (scheduler_step sch) else ret tt
    | None => ret tt
    end t0 = (Ok tt, t1) /\ untouched false t0 t1).
  { intros t0. destruct scheduler; cbn; eexists; (split; [reflexivity|by repeat split]). }
  apply bind_then. edestruct Hsched as (t1 & Ht1 & Hk1).
  eexists _, _. split; [exact Ht1|].
  eapply bind_continues; [unfold dict_get; by rewrite Hdl|].
  apply bind_raises. rewrite Hempty. eexists. split; [reflexivity|].
  destruct Hk1 as (? & ? & ? & ? & _). by repeat split.
Qed.

End LoopFacts.

(* ===================================================================== *)
(** * The further theorems at concrete inputs *)
(* ===================================================================== *)

Module MoreExamples.
Import RefTorch.
Import Examples.
#[local] Existing Instance RefGen.numpy.

Lemma run_eq {S A} (m : M S A) (s : S) (a : A) : (m s).1 = Ok a -> m s = (Ok a, (m s).2).
Proof. destruct (m s) as [r s']. cbn [fst snd]. by intros ->. Qed.

Lemma valid_phase (x : string) : In x SignLanguageMNIST.phases -> x ∈ SignLanguageMNIST.phases.
Proof. apply list_elem_of_In. Qed.

(** The rows of [train.csv]. *)
Definition four_rows : list (list Z) := map sample_row [0; 1; 2; 3].

Lemma four_rows_width : Forall (fun row => length row = 785%nat) four_rows.
Proof. repeat constructor. Qed.

(** ** The split *)

Lemma split_indices_partition_witness :
  (SignLanguageMNIST._train_val_split four_rows fhalf 42 true w0).1
    = Ok ([1; 3], [2; 0])%nat /\
  ([1; 3] ++ [2; 0])%nat ≡ₚ seq 0 (length four_rows) /\
  NoDup ([1; 3] ++ [2; 0])%nat.
Proof.
  assert (H : (SignLanguageMNIST._train_val_split four_rows fhalf 42 true w0).1
              = Ok ([1; 3], [2; 0])%nat) by (vm_compute; reflexivity).
  split; [exact H|].
  pose proof (split_indices_partition four_rows fhalf 42 true w0 _ _ _ (run_eq _ _ _ H))
    as (Hperm & Hnodup & _).
  split; [exact Hperm|exact Hnodup].
Defined.

Lemma split_all_validation_witness :
  Z.of_nat (length four_rows) < 2 ^ 53 /\
  exists va w',
    SignLanguageMNIST._train_val_split four_rows fone 42 true w0 = (Ok ([], va), w') /\
    va ≡ₚ seq 0 (length four_rows).
Proof.
  assert (H : Z.of_nat (length four_rows) < 2 ^ 53) by reflexivity.
  split; [exact H|]. exact (split_all_validation four_rows 42 true w0 H).
Defined.

Lemma split_no_validation_witness :
  Z.of_nat (length four_rows) < 2 ^ 53 /\
  exists tr w',
    SignLanguageMNIST._train_val_split four_rows fzero 42 true w0 = (Ok (tr, []), w') /\
    tr ≡ₚ seq 0 (length four_rows).
Proof.
  assert (H : Z.of_nat (length four_rows) < 2 ^ 53) by reflexivity.
  split; [exact H|]. exact (split_no_validation four_rows 42 true w0 H).
Defined.

(** ** The constructor *)

Lemma init_well_formed_file_witness :
  "val" ∈ SignLanguageMNIST.phases /\
  files w0 !! "train.csv" = Some four_rows /\
  Forall (fun row => length row = 785%nat) four_rows /\
  SignLanguageMNIST.cut_point fhalf (seq 0 (length four_rows)) = Ok 2 /\
  exists ds w',
    SignLanguageMNIST.__init__ "train.csv" "val" fhalf true None None w0 = (Ok ds, w') /\
    SignLanguageMNIST.images ds = map (drop 1) (SignLanguageMNIST.data ds) /\
    SignLanguageMNIST.labels ds = map (hd 0) (SignLanguageMNIST.data ds).
Proof.
  assert (H1 : "val" ∈ SignLanguageMNIST.phases)
    by (apply valid_phase; right; left; reflexivity).
  assert (H2 : files w0 !! "train.csv" = Some four_rows) by (vm_compute; reflexivity).
  assert (H3 : SignLanguageMNIST.cut_point fhalf (seq 0 (length four_rows)) = Ok 2)
    by (vm_compute; reflexivity).
  split; [exact H1|]. split; [exact H2|]. split; [exact four_rows_width|].
  split; [exact H3|].
  destruct (init_well_formed_file "train.csv" "val" fhalf true None None w0 four_rows 2
              H1 H2 four_rows_width H3) as (ds & w' & Hrun & Himg & Hlab & _).
  exists ds, w'. split; [exact Hrun|]. split; [exact Himg|exact Hlab].
Defined.

Lemma init_missing_file_witness :
  "train" ∈ SignLanguageMNIST.phases /\
  files w0 !! "absent.csv" = None /\
  (SignLanguageMNIST.__init__ "absent.csv" "train" fquarter true None None w0).1
    = Raise (FileNotFoundError "absent.csv").
Proof.
  assert (H1 : "train" ∈ SignLanguageMNIST.phases) by (apply valid_phase; left; reflexivity).
  assert (H2 : files w0 !! "absent.csv" = None) by (vm_compute; reflexivity).
  split; [exact H1|]. split; [exact H2|].
  exact (f_equal fst
           (init_missing_file "absent.csv" "train" fquarter true None None w0 H1 H2)).
Defined.

(** A file whose rows have a label and 392 pixel columns. *)
Definition narrow_rows : list (list Z) := [0 :: repeat 0 392%nat; 1 :: repeat 0 392%nat].

Definition w2 : world :=
  {| np_random := np_seed 42; files := <["narrow.csv" := narrow_rows]> ∅; io_log := [] |}.

(** The dataset built from it: two labels, one image. *)
Definition narrow_dataset : SignLanguageMNIST.t :=
  {| SignLanguageMNIST.data := narrow_rows;
     SignLanguageMNIST.images := [repeat 0 784%nat];
     SignLanguageMNIST.labels := [0; 1];
     SignLanguageMNIST.transform := None;
     SignLanguageMNIST.label_transform := None |}.

Lemma init_images_count_witness :
  files w2 !! "narrow.csv" = Some narrow_rows /\
  Forall (fun row => length row = 393%nat) narrow_rows /\
  (SignLanguageMNIST.__init__ "narrow.csv" "test" fquarter false None None w2).1
    = Ok narrow_dataset /\
  (length (SignLanguageMNIST.images narrow_dataset) * 784
   = SignLanguageMNIST.__len__ narrow_dataset * 392)%nat.
Proof.
  assert (H1 : files w2 !! "narrow.csv" = Some narrow_rows) by (vm_compute; reflexivity).
  assert (H2 : Forall (fun row => length row = 393%nat) narrow_rows) by (repeat constructor).
  assert (H3 : (SignLanguageMNIST.__init__ "narrow.csv" "test" fquarter false None None w2).1
               = Ok narrow_dataset) by (vm_compute; reflexivity).
  split; [exact H1|]. split; [exact H2|]. split; [exact H3|].
  exact (init_images_count "narrow.csv" "test" fquarter false None None w2 _ narrow_dataset
           narrow_rows 392 H1 H2 (run_eq _ _ _ H3)).
Defined.

(** The test dataset of [w0]. *)
Definition test_dataset : SignLanguageMNIST.t :=
  {| SignLanguageMNIST.data := map sample_row [2; 0];
     SignLanguageMNIST.images := [repeat 0 784%nat; repeat 0 784%nat];
     SignLanguageMNIST.labels := [2; 0];
     SignLanguageMNIST.transform := Some [ToTensor];
     SignLanguageMNIST.label_transform := None |}.

Lemma init_test_keeps_every_row_witness :
  (SignLanguageMNIST.__init__ "test.csv" "test" fquarter true (Some [ToTensor]) None w0).1
    = Ok test_dataset /\
  exists table,
    files w0 !! "test.csv" = Some table /\
    SignLanguageMNIST.data test_dataset = to_uint8 table /\
    SignLanguageMNIST.__len__ test_dataset = length table.
Proof.
  assert (H : (SignLanguageMNIST.__init__ "test.csv" "test" fquarter true
                 (Some [ToTensor]) None w0).1 = Ok test_dataset) by (vm_compute; reflexivity).
  split; [exact H|].
  exact (init_test_keeps_every_row "test.csv" fquarter true (Some [ToTensor]) None w0 _
           test_dataset (run_eq _ _ _ H)).
Defined.

Lemma test_dataset_draws_from_generator_witness :
  (get_test_dataset "test.csv" w0).1 = Ok test_dataset /\
  exists table,
    files w0 !! "test.csv" = Some table /\
    SignLanguageMNIST.data test_dataset = to_uint8 table /\
    np_random (get_test_dataset "test.csv" w0).2
      = (np_shuffle (np_random w0) (seq 0 (length table))).2.
Proof.
  assert (H : (get_test_dataset "test.csv" w0).1 = Ok test_dataset)
    by (vm_compute; reflexivity).
  split; [exact H|].
  destruct (test_dataset_draws_from_generator "test.csv" w0 _ test_dataset (run_eq _ _ _ H))
    as (table & Ht & Hd & _ & _ & Hg).
  exists table. split; [exact Ht|]. split; [exact Hd|exact Hg].
Defined.

(** ** The factories *)

Definition datasets_of (path : string) : gmap string SignLanguageMNIST.t :=
  match (get_train_val_datasets fhalf true path w0).1 with
  | Ok d => d
  | Raise _ => ∅
  end.

Lemma train_val_datasets_sizes_witness :
  (get_train_val_datasets fhalf true "train.csv" w0).1 = Ok (datasets_of "train.csv") /\
  exists table tr va,
    files w0 !! "train.csv" = Some table /\
    datasets_of "train.csv" !! "train" = Some tr /\
    datasets_of "train.csv" !! "val" = Some va /\
    (SignLanguageMNIST.__len__ tr + SignLanguageMNIST.__len__ va = length table)%nat.
Proof.
  assert (H : (get_train_val_datasets fhalf true "train.csv" w0).1
              = Ok (datasets_of "train.csv")) by (vm_compute; reflexivity).
  split; [exact H|].
  destruct (train_val_datasets_sizes fhalf true "train.csv" w0 _ _ (run_eq _ _ _ H))
    as (table & tr & va & Ht & Htr & Hva & Hlen & _).
  exists table, tr, va. split; [exact Ht|]. split; [exact Htr|]. split; [exact Hva|exact Hlen].
Defined.

Lemma train_val_loaders_read_four_times_witness :
  (get_train_val_loaders "train.csv" fhalf true 2 0 w0).1 = Ok (loaders_of "train.csv") /\
  io_log (get_train_val_loaders "train.csv" fhalf true 2 0 w0).2 =
    io_log w0 ++ [ReadCsv "train.csv"; ReadCsv "train.csv";
                  ReadCsv "train.csv"; ReadCsv "train.csv"].
Proof.
  assert (H : (get_train_val_loaders "train.csv" fhalf true 2 0 w0).1
              = Ok (loaders_of "train.csv")) by (vm_compute; reflexivity).
  split; [exact H|].
  exact (proj1 (train_val_loaders_read_four_times "train.csv" fhalf true 2 0 w0 _ _
                  (run_eq _ _ _ H))).
Defined.

(** ** The samples *)

Lemma getitem_pairs_row_witness :
  files w0 !! "test.csv" = Some (map sample_row [2; 0]) /\
  Forall (fun row => length row = 785%nat) (map sample_row [2; 0]) /\
  (SignLanguageMNIST.__init__ "test.csv" "test" fquarter true (Some [ToTensor]) None w0).1
    = Ok test_dataset /\
  (__getitem__ test_dataset 1 7).1
    = Ok (Transformed (apply_transform [ToTensor] (repeat 0 784%nat) 7).1, 0) /\
  (__getitem__ test_dataset 2 7).1 = Raise IndexError.
Proof.
  assert (H1 : files w0 !! "test.csv" = Some (map sample_row [2; 0]))
    by (vm_compute; reflexivity).
  assert (H2 : Forall (fun row => length row = 785%nat) (map sample_row [2; 0]))
    by (repeat constructor).
  assert (H3 : (SignLanguageMNIST.__init__ "test.csv" "test" fquarter true
                  (Some [ToTensor]) None w0).1 = Ok test_dataset)
    by (vm_compute; reflexivity).
  split; [exact H1|]. split; [exact H2|]. split; [exact H3|].
  pose proof (getitem_pairs_row "test.csv" "test" fquarter true (Some [ToTensor]) None w0 _
                test_dataset _ H1 H2 (run_eq _ _ _ H3)) as Hget.
  split.
  - exact (f_equal fst (Hget 1%nat 7)).
  - exact (f_equal fst (Hget 2%nat 7)).
Defined.

(** ** The training loop *)

Lemma train_metric_log_witness :
  (run "train.csv" 3).1 = Ok model_after_first_epoch /\
  exists rows : list epoch_metrics,
    length rows = 3%nat /\
    train_val_acc (vars (run "train.csv" 3).2)
      = by_phase (map acc_train rows) (map acc_val rows) /\
    writer (proc (run "train.csv" 3).2)
      = writer (proc s0) ++ concat (zip_with epoch_events (range 1 (3 + 1)) rows).
Proof.
  assert (H : (run "train.csv" 3).1 = Ok model_after_first_epoch) by reflexivity.
  split; [exact H|].
  destruct (train_metric_log (loaders_of "train.csv") unit_loss tt (Some tt)
              false 3 false s0 model_after_first_epoch H) as (rows & Hlen & _ & Hacc & Hw).
  exists rows. split; [exact Hlen|]. split; [exact Hacc|exact Hw].
Defined.

Lemma train_returns_model_in_eval_mode_witness :
  (run "train.csv" 3).1 = Ok model_after_first_epoch /\
  class_name model_after_first_epoch = class_name (model (proc s0)) /\
  training model_after_first_epoch = false.
Proof.
  assert (H : (run "train.csv" 3).1 = Ok model_after_first_epoch) by reflexivity.
  split; [exact H|].
  exact (train_returns_model_in_eval_mode (loaders_of "train.csv") unit_loss tt (Some tt)
           false 3 false s0 model_after_first_epoch H).
Defined.

Lemma train_saves_returned_model_witness :
  (train (loaders_of "train.csv") unit_loss tt (Some tt) true 3 false s0).1
    = Ok model_after_first_epoch /\
  os_log (proc (train (loaders_of "train.csv") unit_loss tt (Some tt) true 3 false s0).2)
    = [makedirs "saved_models"; torch_save model_after_first_epoch "saved_models/CNN_best.pt"] /\
  dirs (proc (train (loaders_of "train.csv") unit_loss tt (Some tt) true 3 false s0).2)
    = ["saved_models"].
Proof.
  assert (H : (train (loaders_of "train.csv") unit_loss tt (Some tt) true 3 false s0).1
              = Ok model_after_first_epoch) by reflexivity.
  split; [exact H|].
  pose proof (train_saves_returned_model (loaders_of "train.csv") unit_loss tt (Some tt)
                true 3 false s0 model_after_first_epoch H) as (Hos & Hd & _).
  split; [exact Hos|exact Hd].
Defined.

Lemma train_missing_loader_witness :
  (∅ : gmap string DataLoader) !! "train" = None /\
  1 <= 2 /\
  (train ∅ unit_loss tt (Some tt) true 2 false s0).1 = Raise (KeyError "train") /\
  torch (proc (train ∅ unit_loss tt (Some tt) true 2 false s0).2) = torch (proc s0) /\
  os_log (proc (train ∅ unit_loss tt (Some tt) true 2 false s0).2) = os_log (proc s0).
Proof.
  assert (H1 : (∅ : gmap string DataLoader) !! "train" = None) by reflexivity.
  assert (H2 : 1 <= 2) by lia.
  split; [exact H1|]. split; [exact H2|].
  pose proof (train_missing_loader ∅ unit_loss tt (Some tt) true 2 false s0 H1 H2)
    as (Hr & _ & Hg & _ & Hos & _).
  split; [exact Hr|]. split; [exact Hg|exact Hos].
Defined.

(** With [val_split = 1.0] the loader factory fails: the training dataset is
    empty and its loader is to shuffle.  The file has been read twice. *)
Example train_val_loaders_all_validation :
  (get_train_val_loaders "train.csv" fone true 2 0 w0).1 = Raise ValueError /\
  io_log (get_train_val_loaders "train.csv" fone true 2 0 w0).2
    = [ReadCsv "train.csv"; ReadCsv "train.csv"].
Proof. split; vm_compute; reflexivity. Qed.

(** The training dataset of [train.csv] when every row goes to the
    validation set, in a loader that does not shuffle:
    [DataLoader(SignLanguageMNIST("train.csv", phase="train", val_split=1.0),
    batch_size=2)]. *)
Definition empty_training_loader : DataLoader :=
  {| dataset := {| SignLanguageMNIST.data := [];
                   SignLanguageMNIST.images := [];
                   SignLanguageMNIST.labels := [];
                   SignLanguageMNIST.transform := None;
                   SignLanguageMNIST.label_transform := None |};
     batch_size := 2; shuffle := false; num_workers := 0 |}.

(** The loaders of [train.csv], with that loader for the training phase. *)
Definition loaders_empty_training : gmap string DataLoader :=
  <["train" := empty_training_loader]> (loaders_of "train.csv").

Lemma train_empty_training_set_witness :
  ((let* ds := SignLanguageMNIST.__init__ "train.csv" "train" fone true None None in
    DataLoader__init__ ds 2 false 0) w0).1 = Ok empty_training_loader /\
  loaders_empty_training !! "train" = Some empty_training_loader /\
  SignLanguageMNIST.__len__ (dataset empty_training_loader) = 0%nat /\
  1 <= 2 /\
  (train loaders_empty_training unit_loss tt (Some tt) false 2 false s0).1
    = Raise ZeroDivisionError.
Proof.
  assert (H0 : ((let* ds := SignLanguageMNIST.__init__ "train.csv" "train" fone true
                              None None in
                 DataLoader__init__ ds 2 false 0) w0).1 = Ok empty_training_loader)
    by (vm_compute; reflexivity).
  assert (H1 : loaders_empty_training !! "train" = Some empty_training_loader)
    by apply lookup_insert_eq.
  assert (Hlen : SignLanguageMNIST.__len__ (dataset empty_training_loader) = 0%nat)
    by reflexivity.
  assert (H2 : 1 <= 2) by lia.
  split; [exact H0|]. split; [exact H1|]. split; [exact Hlen|]. split; [exact H2|].
  exact (proj1 (train_empty_training_set loaders_empty_training unit_loss tt (Some tt)
                  false 2 false s0 empty_training_loader H1 Hlen H2)).
Defined.

End MoreExamples.
